(** * Aircraft incident dashboard: data preparation, aggregation, filtering

    A shallow embedding of [Aviation_incidents_app/app.py].  The pandas
    objects the program manipulates are modelled column-wise, the way
    pandas stores them: a [DataFrame] is an ordered list of labelled
    columns and every column is a [Series] of one dtype.

    Numbers.  A float64 cell is either NaN or a finite number; finite
    numbers are exact rationals ([Q]).  IEEE-754 rounding and the two
    infinities are outside the model, so every statement below about a
    computed number is a statement about the exact quotient or sum.

    Effects.  Code inside a [try] is written in an error monad and the
    handler is the [match] on its result.  What Streamlit is asked to
    show is collected as a list of events.  Library behaviour that the
    program does not fix (the numeric parser of pandas, reductions of
    object columns, number formatting, the sidebar widgets) is a
    parameter of the definitions that use it.

    A Python dict is an association list in insertion order. *)

From Stdlib Require Import String Ascii List Bool Arith ZArith QArith.
From Stdlib Require Import Qminmax Qround Qabs Lia Lqa Permutation Sorted.
Import ListNotations.

Local Open Scope string_scope.
Local Open Scope list_scope.

(** ** Exceptions and the error monad *)

Inductive exn : Type :=
| TypeError (msg : string)
| KeyError (key : string)
| ValueError (msg : string)
| IOError (msg : string).

Definition exn_str (e : exn) : string :=
  match e with
  | TypeError m => m
  | KeyError k => "'" ++ k ++ "'"
  | ValueError m => m
  | IOError m => m
  end.

Inductive res (A : Type) : Type :=
| Ok (a : A)
| Raise (e : exn).
Arguments Ok {A} a.
Arguments Raise {A} e.

Definition bind {A B : Type} (c : res A) (k : A -> res B) : res B :=
  match c with
  | Ok a => k a
  | Raise e => Raise e
  end.

Notation "x <- c ;; k" := (bind c (fun x => k))
  (at level 61, c at next level, right associativity).

(** [for x in xs: st = body st x], stopping at the first exception. *)
Fixpoint for_each {A S : Type} (body : S -> A -> res S) (xs : list A) (st : S)
  : res S :=
  match xs with
  | [] => Ok st
  | x :: xs' => st' <- body st x ;; for_each body xs' st'
  end.

(** ** pandas: series, frames and the operations the program calls *)

Module pd.

(** A float64 value: [None] is NaN. *)
Definition float : Type := option Q.

(** A column is float64 or object; an object column from [read_csv]
    holds strings and missing cells. *)
Inductive Series : Type :=
| Float64 (xs : list float)
| Object (xs : list (option string)).

Definition len (s : Series) : nat :=
  match s with
  | Float64 xs => length xs
  | Object xs => length xs
  end.

(** A Python scalar as it appears as group key, filter value or default. *)
Inductive scalar : Type :=
| SNum (q : Q)
| SStr (s : string).

(** Columns in order, each with its label. *)
Definition DataFrame : Type := list (string * Series).

Definition empty_frame : DataFrame := [].

Definition columns (df : DataFrame) : list string := map fst df.

Definition mem (c : string) (cs : list string) : bool :=
  existsb (String.eqb c) cs.

Definition nrows (df : DataFrame) : nat :=
  match df with
  | [] => 0
  | (_, s) :: _ => len s
  end.

(** [df.empty]: some axis has length 0. *)
Definition empty (df : DataFrame) : bool :=
  (length df =? 0)%nat || (nrows df =? 0)%nat.

(** The frames [read_csv] builds: labels are unique (duplicates in the
    header are mangled) and all columns have the same length. *)
Definition wf (df : DataFrame) : Prop :=
  NoDup (columns df) /\ Forall (fun cs => len (snd cs) = nrows df) df.

(** [df[c]]: the column, a sub-frame when the label is duplicated, or
    KeyError. *)
Inductive item : Type :=
| ItemSeries (s : Series)
| ItemFrame (sub : DataFrame).

Definition select (c : string) (df : DataFrame) : DataFrame :=
  filter (fun cs => String.eqb (fst cs) c) df.

Definition getitem (df : DataFrame) (c : string) : res item :=
  match select c df with
  | [] => Raise (KeyError c)
  | [(_, s)] => Ok (ItemSeries s)
  | sub => Ok (ItemFrame sub)
  end.

(** [df[c] = s]: overwrite in place when the label exists, else append. *)
Definition setitem (df : DataFrame) (c : string) (s : Series) : DataFrame :=
  if mem c (columns df)
  then map (fun cs => if String.eqb (fst cs) c then (fst cs, s) else cs) df
  else df ++ [(c, s)].

(** [df.get(c, default)]: [df[c]], or the default when that raises. *)
Definition get (df : DataFrame) (c : string) (default : Series) : item :=
  match getitem df c with
  | Ok it => it
  | Raise _ => ItemSeries default
  end.

Fixpoint dict_get {V : Type} (d : list (string * V)) (k : string) : option V :=
  match d with
  | [] => None
  | (k', v) :: d' => if String.eqb k' k then Some v else dict_get d' k
  end.

(** [df.rename(columns=mapping)]: a label that is a key of the mapping
    is replaced by its value, any other label is kept. *)
Definition relabel (mapping : list (string * string)) (c : string) : string :=
  match dict_get mapping c with
  | Some v => v
  | None => c
  end.

Definition rename (mapping : list (string * string)) (df : DataFrame)
  : DataFrame :=
  map (fun cs => (relabel mapping (fst cs), snd cs)) df.

Section ToNumeric.
(** The numeric-literal parser of pandas is library code; it is a
    parameter of the model. *)
Variable parse_number : string -> option Q.

Definition coerce (s : Series) : Series :=
  match s with
  | Float64 xs => Float64 xs
  | Object xs =>
      Float64 (map (fun x => match x with
                             | Some t => parse_number t
                             | None => None
                             end) xs)
  end.

(** [pd.to_numeric(arg, errors="coerce")]: unparseable cells become
    NaN; an argument with two dimensions is rejected. *)
Definition to_numeric (arg : item) : res Series :=
  match arg with
  | ItemSeries s => Ok (coerce s)
  | ItemFrame _ =>
      Raise (TypeError "arg must be a list, tuple, 1-d array, or Series")
  end.
End ToNumeric.

(** [s.map(d)] with a dict keyed by integers. *)
Definition map_dict (d : list (Z * string)) (s : Series) : Series :=
  match s with
  | Float64 xs =>
      Object (map (fun x =>
                     match x with
                     | Some q =>
                         option_map snd
                           (find (fun kv => Qeq_bool q (inject_Z (fst kv))) d)
                     | None => None
                     end) xs)
  | Object xs => Object (map (fun _ => None) xs)
  end.

(** Elementwise float64 operations.  A zero divisor gives an infinity
    or NaN in IEEE arithmetic; the model has no infinities and records
    such a quotient as NaN. *)
Definition fdiv (a b : float) : float :=
  match a, b with
  | Some x, Some y => if Qeq_bool y 0 then None else Some (x / y)%Q
  | _, _ => None
  end.

Definition fclip (lo hi : Q) (a : float) : float :=
  match a with
  | Some x =>
      Some (if Qle_bool x lo then lo else if Qle_bool hi x then hi else x)
  | None => None
  end.

Definition frsub (c : Q) (a : float) : float :=
  match a with
  | Some x => Some (c - x)%Q
  | None => None
  end.

Definition fgt (a : float) (c : Q) : bool :=
  match a with
  | Some x => negb (Qle_bool x c)
  | None => false
  end.

Definition fnotna (a : float) : bool :=
  match a with
  | Some _ => true
  | None => false
  end.

Definition not_numeric {A : Type} (op : string) : res A :=
  Raise (TypeError (op ++ " not supported for object dtype")).

(** [s > c] *)
Definition gt (s : Series) (c : Q) : res (list bool) :=
  match s with
  | Float64 xs => Ok (map (fun x => fgt x c) xs)
  | Object _ => not_numeric ">"
  end.

(** [s.notna()] *)
Definition notna (s : Series) : list bool :=
  match s with
  | Float64 xs => map fnotna xs
  | Object xs => map (fun x => match x with Some _ => true | None => false end) xs
  end.

Fixpoint zip_with {A B C : Type} (f : A -> B -> C) (xs : list A) (ys : list B)
  : list C :=
  match xs, ys with
  | x :: xs', y :: ys' => f x y :: zip_with f xs' ys'
  | _, _ => []
  end.

(** [a / b] on two columns of one frame. *)
Definition div (a b : Series) : res (list float) :=
  match a, b with
  | Float64 xs, Float64 ys => Ok (zip_with fdiv xs ys)
  | _, _ => not_numeric "/"
  end.

(** [np.where(cond, x, np.nan)] *)
Definition where_nan (cond : list bool) (xs : list float) : list float :=
  zip_with (fun (c : bool) x => if c then x else None) cond xs.

(** *** Comparison with a scalar and boolean indexing *)

Definition scalar_eqb (a b : scalar) : bool :=
  match a, b with
  | SNum x, SNum y => Qeq_bool x y
  | SStr s, SStr t => String.eqb s t
  | _, _ => false
  end.

(** The cells of a column as Python values. *)
Definition cells (s : Series) : list (option scalar) :=
  match s with
  | Float64 xs => map (option_map SNum) xs
  | Object xs => map (option_map SStr) xs
  end.

Definition cell_eqb (v : scalar) (x : option scalar) : bool :=
  match x with
  | Some k => scalar_eqb k v
  | None => false
  end.

(** [s == v]: elementwise, never true on a missing cell or across
    types. *)
Definition eq (s : Series) (v : scalar) : list bool :=
  map (cell_eqb v) (cells s).

Fixpoint compress {A : Type} (mask : list bool) (xs : list A) : list A :=
  match mask, xs with
  | b :: mask', x :: xs' =>
      if b then x :: compress mask' xs' else compress mask' xs'
  | _, _ => []
  end.

(** [s[mask]] *)
Definition take (mask : list bool) (s : Series) : Series :=
  match s with
  | Float64 xs => Float64 (compress mask xs)
  | Object xs => Object (compress mask xs)
  end.

(** [df[mask]]: the rows where the mask holds, in order. *)
Definition loc (df : DataFrame) (mask : list bool) : DataFrame :=
  map (fun cs => (fst cs, take mask (snd cs))) df.

(** *** Counting and grouping *)

Fixpoint dropna {A : Type} (xs : list (option A)) : list A :=
  match xs with
  | [] => []
  | Some x :: xs' => x :: dropna xs'
  | None :: xs' => dropna xs'
  end.

(** Distinct values in order of first appearance. *)
Definition uniques (ks : list scalar) : list scalar :=
  fold_left (fun acc k => if existsb (scalar_eqb k) acc then acc
                          else acc ++ [k]) ks [].

Definition count_of (k : scalar) (ks : list scalar) : nat :=
  length (filter (scalar_eqb k) ks).

(** Stable insertion into a list ordered by decreasing count. *)
Fixpoint insert_desc (x : scalar * nat) (l : list (scalar * nat))
  : list (scalar * nat) :=
  match l with
  | [] => [x]
  | y :: l' =>
      if (snd y <=? snd x)%nat then x :: y :: l' else y :: insert_desc x l'
  end.

(** [s.value_counts()]: missing cells dropped, most frequent first.
    The model keeps values of equal count in order of first appearance
    (a stable sort); the facts proved about the most frequent value use
    only which entries the result has, not their order. *)
Definition value_counts (s : Series) : list (scalar * nat) :=
  let ks := dropna (cells s) in
  fold_right insert_desc [] (map (fun k => (k, count_of k ks)) (uniques ks)).

(** The order of group keys: numbers by value, strings by code point. *)
Definition scalar_leb (a b : scalar) : bool :=
  match a, b with
  | SNum x, SNum y => Qle_bool x y
  | SStr s, SStr t => String.leb s t
  | SNum _, SStr _ => true
  | SStr _, SNum _ => false
  end.

Fixpoint insert_key (k : scalar) (l : list scalar) : list scalar :=
  match l with
  | [] => [k]
  | y :: l' => if scalar_leb k y then k :: y :: l' else y :: insert_key k l'
  end.

Definition sort_keys (ks : list scalar) : list scalar :=
  fold_right insert_key [] ks.

(** Sum of the non-missing values of the rows whose key is [k]. *)
Fixpoint group_sum (k : scalar) (ks : list (option scalar)) (vs : list float)
  : Q :=
  match ks, vs with
  | x :: ks', v :: vs' =>
      match v with
      | Some q => if cell_eqb k x then q + group_sum k ks' vs'
                  else group_sum k ks' vs'
      | None => group_sum k ks' vs'
      end
  | _, _ => 0
  end.

(** [df.groupby(g)[v].sum()] for a float64 column [v]: one entry per
    non-missing key, in key order; a group without values sums to 0. *)
Definition groupby_sum (g : Series) (vs : list float) : list (scalar * Q) :=
  map (fun k => (k, group_sum k (cells g) vs))
      (sort_keys (uniques (dropna (cells g)))).

Fixpoint argmax {K V : Type} (lt : V -> V -> bool) (best : K * V)
         (l : list (K * V)) : K :=
  match l with
  | [] => fst best
  | kv :: l' =>
      if lt (snd best) (snd kv) then argmax lt kv l' else argmax lt best l'
  end.

(** [s.idxmax()]: the label of the first maximum. *)
Definition idxmax {K V : Type} (lt : V -> V -> bool) (l : list (K * V))
  : res K :=
  match l with
  | [] => Raise (ValueError "attempt to get argmax of an empty sequence")
  | kv :: l' => Ok (argmax lt kv l')
  end.

Definition Qlt_bool (x y : Q) : bool := negb (Qle_bool y x).

(** *** Reductions of a float64 column *)

(** [s.isna().all()] *)
Definition isna_all (s : Series) : bool :=
  forallb (fun x => match x with Some _ => false | None => true end)
          (cells s).

(** [s.sum()], skipping NaN. *)
Definition fsum (xs : list float) : Q :=
  fold_left (fun acc x => match x with Some q => acc + q | None => acc end)
            xs 0.

(** [s.count()]: the number of non-missing cells. *)
Definition fcount (xs : list float) : nat :=
  fold_left (fun n x => match x with Some _ => S n | None => n end) xs 0%nat.

(** [s.mean()], skipping NaN; NaN when nothing is left. *)
Definition fmean (xs : list float) : float :=
  match fcount xs with
  | O => None
  | S n => Some (fsum xs / inject_Z (Z.of_nat (S n)))
  end.

End pd.

(** ** Streamlit: what the program shows *)

Inductive event : Type :=
| StError (msg : string)
| StWarning (msg : string)
| StMarkdown (msg : string)
| StMetric (label value : string)
| StPage (name : string) (rows : nat).

(** ** load_data *)

Definition rename_map : list (string * string) :=
  [ ("year", "Year"); ("Year", "Year");
    ("month", "Month"); ("Month", "Month");
    ("month_name", "Month Name"); ("Month Name", "Month Name");
    ("country", "Country"); ("Country", "Country");
    ("city", "City"); ("City", "City");
    ("region", "Region"); ("Region", "Region");
    ("operator", "Operator"); ("Operator", "Operator");
    ("aircraft", "Aircraft"); ("Aircraft", "Aircraft");
    ("aircraft_manufacturer", "Aircraft Manufacturer");
    ("Aircraft Manufacturer", "Aircraft Manufacturer");
    ("aboard", "Aboard"); ("Aboard", "Aboard");
    ("fatalities_(air)", "Fatalities (Air)");
    ("Fatalities (Air)", "Fatalities (Air)");
    ("ground", "Ground"); ("Ground", "Ground") ].

Definition numeric_cols : list string :=
  ["Year"; "Month"; "Aboard"; "Fatalities (Air)"; "Ground"].

Definition month_names : list (Z * string) :=
  [ (1, "January"); (2, "February"); (3, "March"); (4, "April");
    (5, "May"); (6, "June"); (7, "July"); (8, "August");
    (9, "September"); (10, "October"); (11, "November");
    (12, "December") ]%Z.

(** The column a one-dimensional expression needs. *)
Definition column (df : pd.DataFrame) (c : string) : res pd.Series :=
  it <- pd.getitem df c ;;
  match it with
  | pd.ItemSeries s => Ok s
  | pd.ItemFrame _ =>
      Raise (ValueError "operands are not one-dimensional")
  end.

Section LoadData.
Variable read_csv : string -> res pd.DataFrame.
Variable parse_number : string -> option Q.

(** The dict comprehension of the rename step. *)
Definition present_renames (df : pd.DataFrame) : list (string * string) :=
  filter (fun kv => pd.mem (fst kv) (pd.columns df)) rename_map.

Definition convert_numeric (df : pd.DataFrame) (col : string)
  : res pd.DataFrame :=
  if pd.mem col (pd.columns df)
  then it <- pd.getitem df col ;;
       s <- pd.to_numeric parse_number it ;;
       Ok (pd.setitem df col s)
  else Ok df.

Definition add_month_name (df : pd.DataFrame) : res pd.DataFrame :=
  if negb (pd.mem "Month Name" (pd.columns df))
     && pd.mem "Month" (pd.columns df)
  then m <- column df "Month" ;;
       Ok (pd.setitem df "Month Name" (pd.map_dict month_names m))
  else Ok df.

Definition add_survival_rate (df : pd.DataFrame) : res pd.DataFrame :=
  if forallb (fun c => pd.mem c (pd.columns df))
       ["Aboard"; "Fatalities (Air)"]
  then aboard <- column df "Aboard" ;;
       fatal <- column df "Fatalities (Air)" ;;
       positive <- pd.gt aboard 0 ;;
       ratio <- pd.div fatal aboard ;;
       let cond := pd.zip_with andb positive (pd.notna fatal) in
       let rate := map (pd.frsub 1) (map (pd.fclip 0 1) ratio) in
       Ok (pd.setitem df "Survival Rate"
             (pd.Float64 (pd.where_nan cond rate)))
  else Ok df.

(** The body of the [try] block. *)
Definition load_data_try (path : string) : res pd.DataFrame :=
  df <- read_csv path ;;
  let df := pd.rename (present_renames df) df in
  df <- for_each convert_numeric numeric_cols df ;;
  df <- add_month_name df ;;
  df <- add_survival_rate df ;;
  Ok df.

(** [load_data]: the frame returned and what is shown on the way. *)
Definition load_data (path : string) : pd.DataFrame * list event :=
  match load_data_try path with
  | Ok df => (df, [])
  | Raise e =>
      (pd.empty_frame, [StError ("Error loading data: " ++ exn_str e)])
  end.
End LoadData.

(** ** safe_groupby_operation *)

(** The placeholder shown when a figure is unavailable, the default of
    [safe_groupby_operation].  The literal is the one stored in the
    source file: the three characters U+00E2, U+20AC, U+201C, which
    are what the bytes of an en dash give when read as Windows-1252. *)
Definition dash : string := "â€“".

(** Truth value of an optional string argument. *)
Definition given (value_col : option string) : bool :=
  match value_col with
  | Some c => negb (String.eqb c "")
  | None => false
  end.

Section Groupby.
(** For an object value column the sums by group are not numbers, and
    what [idxmax] makes of them differs between versions of pandas.
    The label [df.groupby(g)[v].sum().idxmax()] for such a column, or
    the exception raised on the way, is a parameter; it is given the
    group column and the cells of the value column, and is asked only
    when there is a group. *)
Variable object_sum_max : pd.Series -> list (option string) -> res pd.scalar.

Definition safe_groupby_try (df : pd.DataFrame) (group_col : string)
           (value_col : option string) (operation : string)
           (default : pd.scalar) : res pd.scalar :=
  if String.eqb operation "count"
  then g <- column df group_col ;;
       pd.idxmax Nat.ltb (pd.value_counts g)
  else
    match value_col with
    | Some vc =>
        if String.eqb operation "sum_max" && given value_col
           && pd.mem vc (pd.columns df)
        then g <- column df group_col ;;
             v <- column df vc ;;
             match v with
             | pd.Float64 vs =>
                 match pd.groupby_sum g vs with
                 | [] => Ok default
                 | kv :: result => pd.idxmax pd.Qlt_bool (kv :: result)
                 end
             | pd.Object ws =>
                 match pd.dropna (pd.cells g) with
                 | [] => Ok default
                 | _ :: _ => object_sum_max g ws
                 end
             end
        else Ok default
    | None => Ok default
    end.

Definition safe_groupby_operation (df : pd.DataFrame) (group_col : string)
           (value_col : option string) (operation : string)
           (default : pd.scalar) : pd.scalar :=
  if pd.empty df || negb (pd.mem group_col (pd.columns df))
  then default
  else match safe_groupby_try df group_col value_col operation default with
       | Ok r => r
       | Raise _ => default
       end.
End Groupby.

(** ** safe_metric_calculation *)

(** What the function can return: its default ([None] in every call of
    the program), a float, or whatever a reduction of an object column
    yields. *)
Inductive value : Type :=
| VNone
| VFloat (x : pd.float)
| VStr (s : string).

Section Metric.
(** Reductions of an object column are pandas internals; they are a
    parameter. *)
Variable object_reduce : string -> list (option string) -> res value.

Definition series_mean (s : pd.Series) : res value :=
  match s with
  | pd.Float64 xs => Ok (VFloat (pd.fmean xs))
  | pd.Object xs => object_reduce "mean" xs
  end.

Definition series_sum (s : pd.Series) : res value :=
  match s with
  | pd.Float64 xs => Ok (VFloat (Some (pd.fsum xs)))
  | pd.Object xs => object_reduce "sum" xs
  end.

Definition safe_metric_try (series : pd.Series) (operation : string)
           (default : value) : res value :=
  if String.eqb operation "mean" then series_mean series
  else if String.eqb operation "sum" then series_sum series
  else Ok default.

Definition safe_metric_calculation (series : pd.Series)
           (operation : string) (default : value) : value :=
  if (pd.len series =? 0)%nat || pd.isna_all series
  then default
  else match safe_metric_try series operation default with
       | Ok r => r
       | Raise _ => default
       end.
End Metric.

(** ** apply_filters *)

Definition is_all (v : pd.scalar) : bool :=
  match v with
  | pd.SStr s => String.eqb s "All"
  | pd.SNum _ => false
  end.

(** [fdf[fdf[name] == value]].  A duplicated label makes [fdf[name]]
    two-dimensional; the model lets the selection fail there. *)
Definition select_rows (fdf : pd.DataFrame) (name : string)
           (value : pd.scalar) : res pd.DataFrame :=
  s <- column fdf name ;;
  Ok (pd.loc fdf (pd.eq s value)).

Section FilterLoop.
(** The row selection inside the [try]. *)
Variable step : pd.DataFrame -> string -> pd.scalar -> res pd.DataFrame.

Fixpoint filter_loop (cols : list string) (fdf : pd.DataFrame)
         (filters : list (string * pd.scalar)) : pd.DataFrame :=
  match filters with
  | [] => fdf
  | (filter_name, filter_value) :: rest =>
      if negb (is_all filter_value) && pd.mem filter_name cols
      then match step fdf filter_name filter_value with
           | Ok fdf' => filter_loop cols fdf' rest
           | Raise _ => filter_loop cols fdf rest
           end
      else filter_loop cols fdf rest
  end.
End FilterLoop.

Definition apply_filters (df : pd.DataFrame)
           (filters : list (string * pd.scalar)) : pd.DataFrame :=
  filter_loop select_rows (pd.columns df) df filters.

(** ** main, up to the choice of the page *)

Definition DATA_PATH : string := "cleaned_aircraft_incidents.csv".

Definition filter_columns : list string :=
  ["Year"; "Month Name"; "Country"; "Region"; "City"; "Operator";
   "Aircraft"; "Aircraft Manufacturer"].

Section Main.
Variable read_csv : string -> res pd.DataFrame.
Variable parse_number : string -> option Q.
(** The value a filter column contributes to the [filters] dict: what
    its sidebar widget delivers (for Year after the conversion of a
    digit string to an integer), "All" or one of the listed values. *)
Variable selected : string -> pd.DataFrame -> pd.scalar.
(** The page chosen in the navigation box. *)
Variable page : string.

Definition build_filters (df : pd.DataFrame) : list (string * pd.scalar) :=
  map (fun c => (c, if pd.mem c (pd.columns df) then selected c df
                    else pd.SStr "All")) filter_columns.

(** What is shown, and the exception that ended the run, if any. *)
Definition main : list event * option exn :=
  let (df, shown) := load_data read_csv parse_number DATA_PATH in
  if pd.empty df
  then (shown ++ [StError
          "Unable to load data. Please check the file path and format."],
        None)
  else
    let fdf := apply_filters df (build_filters df) in
    match column df "Year" with
    | Raise e => (shown, Some e)
    | Ok _ =>
        let header := StMarkdown "Data Range | Filtered Records" in
        if pd.empty fdf
        then (shown ++ [header; StWarning
                "No data matches the current filters. Please adjust your selection."],
              None)
        else (shown ++ [header; StPage page (pd.nrows fdf)], None)
    end.
End Main.

(** ** render_overview_page: the two averaged figures *)

Section Overview.
Variable object_reduce : string -> list (option string) -> res value.
(** [f"{x:.1f}"] for a finite float. *)
Variable format_1f : Q -> string.

(** Truth value of a Python object. *)
Definition truthy (v : value) : bool :=
  match v with
  | VNone => false
  | VFloat (Some q) => negb (Qeq_bool q 0)
  | VFloat None => true
  | VStr s => negb (String.eqb s "")
  end.

(** [f"{v:.1f}"] *)
Definition format_value (v : value) : res string :=
  match v with
  | VFloat (Some q) => Ok (format_1f q)
  | VFloat None => Ok "nan"
  | VStr _ =>
      Raise (ValueError "Unknown format code 'f' for object of type 'str'")
  | VNone =>
      Raise (TypeError "unsupported format string passed to NoneType.__format__")
  end.

Fixpoint repeat_string (n : nat) (s : string) : string :=
  match n with
  | O => ""
  | S n' => s ++ repeat_string n' s
  end.

(** [v * 100] *)
Definition times_100 (v : value) : res value :=
  match v with
  | VFloat (Some q) => Ok (VFloat (Some (q * 100)))
  | VFloat None => Ok (VFloat None)
  | VStr s => Ok (VStr (repeat_string 100 s))
  | VNone =>
      Raise (TypeError "unsupported operand type(s) for *: 'NoneType' and 'int'")
  end.

(** The call on what [fdf.get] returns.  On a sub-frame the test
    [series.empty or series.isna().all()] has no truth value and
    raises before the [try] is entered. *)
Definition metric_of (it : pd.item) (operation : string) : res value :=
  match it with
  | pd.ItemSeries s =>
      Ok (safe_metric_calculation object_reduce s operation VNone)
  | pd.ItemFrame _ =>
      Raise (ValueError "The truth value of a Series is ambiguous")
  end.

Definition avg_fatalities (fdf : pd.DataFrame) : res value :=
  metric_of (pd.get fdf "Fatalities (Air)" (pd.Object [])) "mean".

Definition survival_rate (fdf : pd.DataFrame) : res value :=
  metric_of (pd.get fdf "Survival Rate" (pd.Object [])) "mean".

(** The text passed to [st.metric] in column 4. *)
Definition avg_fatalities_text (fdf : pd.DataFrame) : res string :=
  v <- avg_fatalities fdf ;;
  if truthy v then format_value v else Ok dash.

(** The text passed to [st.metric] in column 5. *)
Definition survival_rate_text (fdf : pd.DataFrame) : res string :=
  v <- survival_rate fdf ;;
  if truthy v
  then (p <- times_100 v ;; t <- format_value p ;; Ok (t ++ "%")%string)
  else Ok dash.
End Overview.

(** ** Further parts of the program *)

(** The calendar order used for the month filter and the month chart. *)
Definition month_order : list string :=
  ["January"; "February"; "March"; "April"; "May"; "June";
   "July"; "August"; "September"; "October"; "November"; "December"].

(** ** Properties of frames and the specification-level reading *)

Definition uniform (n : nat) (df : pd.DataFrame) : Prop :=
  Forall (fun cs => pd.len (snd cs) = n) df.

(** The label [c] names exactly one column and it is float64. *)
Definition float_column (df : pd.DataFrame) (c : string) (xs : list pd.float)
  : Prop :=
  pd.select c df = [(c, pd.Float64 xs)].

(** The value of the spec: [1 - Fatalities/Aboard] clamped to [lo, hi]. *)
Definition clamp (x lo hi : Q) : Q := Qmax lo (Qmin x hi).

(** What the [np.where] expression of [load_data] yields for one row. *)
Definition survival_cell (a f : pd.float) : pd.float :=
  if pd.fgt a 0 && pd.fnotna f
  then pd.frsub 1 (pd.fclip 0 1 (pd.fdiv f a))
  else None.


(** The numeric-conversion loop, as one pass over the columns. *)
Definition coerce_cols (parse_number : string -> option Q)
           (cols : list string) (df : pd.DataFrame)
  : pd.DataFrame :=
  map (fun cs => if pd.mem (fst cs) cols
                 then (fst cs, pd.coerce parse_number (snd cs))
                 else cs) df.

(** The spec's reading of a reduction: drop the missing entries, then
    add up what is left. *)
Definition Qsum (qs : list Q) : Q := fold_right Qplus 0 qs.


(** A predicate constrains the table when its value is not the wildcard
    and its column exists. *)
Definition active (df : pd.DataFrame) (p : string * pd.scalar) : bool :=
  negb (is_all (snd p)) && pd.mem (fst p) (pd.columns df).

(** The equality mask of one predicate over the rows of [df]. *)
Definition predicate_mask (df : pd.DataFrame) (p : string * pd.scalar)
  : option (list bool) :=
  if active df p
  then match column df (fst p) with
       | Ok s => Some (pd.eq s (snd p))
       | Raise _ => None
       end
  else None.

Definition narrow (df : pd.DataFrame) (mask : list bool)
           (p : string * pd.scalar) : list bool :=
  match predicate_mask df p with
  | Some m => pd.zip_with andb mask m
  | None => mask
  end.

(** Row [i] passes predicate [p]: the cell equals the value. *)
Definition row_ok (df : pd.DataFrame) (i : nat) (p : string * pd.scalar)
  : bool :=
  match predicate_mask df p with
  | Some m => nth i m true
  | None => true
  end.

(** The rows that pass every predicate. *)
Definition keep_mask (df : pd.DataFrame) (filters : list (string * pd.scalar))
  : list bool :=
  map (fun i => forallb (row_ok df i) filters) (seq 0 (pd.nrows df)).

(** One turn of [pd.uniques]. *)
Definition uniques_step (acc : list pd.scalar) (k : pd.scalar)
  : list pd.scalar :=
  if existsb (pd.scalar_eqb k) acc then acc else acc ++ [k].

(** The value and the column are of different kinds: text against a
    float64 column, or a number against an object column. *)
Definition kind_mismatch (s : pd.Series) (v : pd.scalar) : bool :=
  match s, v with
  | pd.Float64 _, pd.SStr _ => true
  | pd.Object _, pd.SNum _ => true
  | _, _ => false
  end.

(** The month name of a month number, read off the calendar: the
    entry of [month_order] for a whole number from 1 to 12, missing
    for anything else. *)
Definition month_name_of (m : pd.float) : option string :=
  match m with
  | Some q =>
      let z := Qfloor q in
      if Qeq_bool q (inject_Z z) && (1 <=? z)%Z && (z <=? 12)%Z
      then nth_error month_order (Z.to_nat (z - 1))
      else None
  | None => None
  end.

(** A float64 cell that is missing or lies between [lo] and [hi]. *)
Definition within (lo hi : Q) (x : pd.float) : Prop :=
  match x with
  | Some r => lo <= r <= hi
  | None => True
  end.

(** *** The words of the specification

    The definitions below follow the specification, not the code; the
    claims compare the program with them. *)

(** Two values are the same: numbers of equal value, or the same
    text. *)
Definition same_value (a b : pd.scalar) : bool :=
  match a, b with
  | pd.SNum x, pd.SNum y => Qeq_bool x y
  | pd.SStr s, pd.SStr t => String.eqb s t
  | _, _ => false
  end.

(** The cell holds the value; a missing cell holds none. *)
Definition holds (x : option pd.scalar) (v : pd.scalar) : bool :=
  match x with
  | Some k => same_value k v
  | None => false
  end.

(** The occurrence count of a value in a column: the number of cells
    that hold it. *)
Fixpoint occurrences (v : pd.scalar) (cells : list (option pd.scalar))
  : nat :=
  match cells with
  | [] => 0
  | x :: rest =>
      if holds x v then S (occurrences v rest) else occurrences v rest
  end.

(** The cells of the column labelled [c], if the table has one. *)
Fixpoint column_cells (df : pd.DataFrame) (c : string)
  : option (list (option pd.scalar)) :=
  match df with
  | [] => None
  | (c', s) :: rest =>
      if String.eqb c' c then Some (pd.cells s) else column_cells rest c
  end.

(** Row [i] passes a predicate when the value of the predicate is
    "All", or the table has no column of that name, or the cell of the
    row in that column holds the value. *)
Definition passes (df : pd.DataFrame) (i : nat) (p : string * pd.scalar)
  : bool :=
  same_value (snd p) (pd.SStr "All")
  || match column_cells df (fst p) with
     | Some cells => holds (nth i cells None) (snd p)
     | None => true
     end.

(** The positions of the rows that pass every predicate, in table
    order. *)
Definition kept_rows (df : pd.DataFrame)
           (filters : list (string * pd.scalar)) : list nat :=
  filter (fun i => forallb (passes df i) filters) (seq 0 (pd.nrows df)).

(** The cells of a column at the given rows. *)
Definition cells_at (rows : list nat) (cells : list (option pd.scalar))
  : list (option pd.scalar) :=
  map (fun i => nth i cells None) rows.



(** ** Concrete data for running the model *)

Definition is_digit (c : ascii) : bool :=
  (48 <=? nat_of_ascii c)%nat && (nat_of_ascii c <=? 57)%nat.

Fixpoint digits_value (s : string) (acc : Z) : option Z :=
  match s with
  | EmptyString => Some acc
  | String c s' =>
      if is_digit c
      then digits_value s' (10 * acc + (Z.of_nat (nat_of_ascii c) - 48))%Z
      else None
  end.

(** A parser for unsigned integer literals, used to run the model. *)
Definition parse_digits (s : string) : option Q :=
  match s with
  | EmptyString => None
  | _ => option_map inject_Z (digits_value s 0%Z)
  end.

(** Three incidents; the header uses the lower-case alias of Aboard and
    the Aboard column was read as text. *)
Definition sample_frame : pd.DataFrame :=
  [ ("Year", pd.Float64 [Some 1985; Some 1985; Some 1990]);
    ("aboard", pd.Object [Some "100"; Some "50"; Some "200"]);
    ("Fatalities (Air)", pd.Float64 [Some 20; Some 50; Some 0]);
    ("Country", pd.Object [Some "USA"; Some "USA"; Some "UK"]) ].

Definition sample_csv (path : string) : res pd.DataFrame :=
  if String.eqb path DATA_PATH then Ok sample_frame
  else Raise (IOError "No such file or directory").

(** A header with an alias and its canonical name: both columns are
    renamed to Year, the conversion is handed a frame and the load
    fails. *)
Definition alias_clash_csv (path : string) : res pd.DataFrame :=
  Ok [ ("year", pd.Float64 [Some 1985]); ("Year", pd.Float64 [Some 1985]) ].

Definition missing_csv (path : string) : res pd.DataFrame :=
  Raise (IOError "No such file or directory").

(** An object reduction that always raises, used to run the model. *)
Definition object_reduce_raises (op : string) (xs : list (option string))
  : res value :=
  Raise (TypeError "Could not convert string to numeric").

(** Two incidents without survivors: the mean survival rate is 0. *)
Definition no_survivors : pd.DataFrame :=
  [ ("Aboard", pd.Float64 [Some 10; Some 20]);
    ("Fatalities (Air)", pd.Float64 [Some 10; Some 20]);
    ("Survival Rate", pd.Float64 [Some 0; Some 0]) ].

(** Two incidents without fatalities: the mean of the fatalities is 0. *)
Definition no_fatalities : pd.DataFrame :=
  [ ("Aboard", pd.Float64 [Some 10; Some 20]);
    ("Fatalities (Air)", pd.Float64 [Some 0; Some 0]);
    ("Survival Rate", pd.Float64 [Some 1; Some 1]) ].

(** A stand-in for the one-decimal formatting, used to run the model. *)
Definition format_stub (q : Q) : string := "0.0".

(** A pandas whose [idxmax] rejects sums that are not numbers. *)
Definition object_sum_max_raises (g : pd.Series)
           (ws : list (option string)) : res pd.scalar :=
  Raise (TypeError "reduction operation 'argmax' not allowed for this dtype").

(** A pandas that ranks text sums and here finds the first key on
    top. *)
Definition object_sum_max_first (g : pd.Series)
           (ws : list (option string)) : res pd.scalar :=
  match pd.dropna (pd.cells g) with
  | k :: _ => Ok k
  | [] => Raise (ValueError "attempt to get argmax of an empty sequence")
  end.

(** The three incidents as [load_data] delivers them. *)
Definition incidents : pd.DataFrame :=
  Eval vm_compute in fst (load_data sample_csv parse_digits DATA_PATH).

(** Eight incidents of two operators, five of one and three of the
    other. *)
Definition operators : pd.DataFrame :=
  [ ("Operator",
     pd.Object [Some "Beta"; Some "Alpha"; Some "Alpha"; Some "Beta";
                Some "Alpha"; Some "Beta"; Some "Alpha"; Some "Alpha"]) ].

(** Incidents whose fatalities are all unknown. *)
Definition unknown_fatalities : pd.DataFrame :=
  [ ("Country", pd.Object [Some "USA"; Some "USA"; Some "UK"]);
    ("Fatalities (Air)", pd.Float64 [None; None; None]) ].

(** A source with month numbers read as text and no year. *)
Definition monthly_frame : pd.DataFrame :=
  [ ("month", pd.Object [Some "3"; Some "13"; None; Some "March"]);
    ("Country", pd.Object [Some "USA"; Some "UK"; Some "UK"; None]) ].

Definition monthly_csv (path : string) : res pd.DataFrame :=
  Ok monthly_frame.

(** Incidents with month names, one of them not a calendar name. *)
Definition seasons : pd.DataFrame :=
  [ ("Month Name",
     pd.Object [Some "March"; Some "Jan"; None; Some "January";
                Some "March"]) ].

(** ** Python builtins used by the sidebar *)

Module py.

Fixpoint insert_str (x : string) (l : list string) : list string :=
  match l with
  | [] => [x]
  | y :: l' => if String.leb x y then x :: y :: l' else y :: insert_str x l'
  end.

(** [sorted(l)] on strings: ascending by code point. *)
Definition sorted (l : list string) : list string :=
  fold_right insert_str [] l.

Fixpoint insert_int (x : Z) (l : list Z) : list Z :=
  match l with
  | [] => [x]
  | y :: l' => if (x <=? y)%Z then x :: y :: l' else y :: insert_int x l'
  end.

(** [sorted(l)] on integers. *)
Definition sorted_int (l : list Z) : list Z :=
  fold_right insert_int [] l.

Definition digit (d : Z) : ascii := ascii_of_nat (48 + Z.to_nat d).

(** The decimal digits of [n], most significant first, in front of
    [acc]. *)
Fixpoint digits (fuel : nat) (n : Z) (acc : string) : string :=
  match fuel with
  | O => acc
  | S fuel' =>
      let acc' := String (digit (n mod 10)) acc in
      if (n <? 10)%Z then acc' else digits fuel' (n / 10) acc'
  end.

(** [str(z)] for an integer. *)
Definition str_int (z : Z) : string :=
  if (z <? 0)%Z
  then String "-" (digits (S (Z.to_nat (- z))) (- z) "")
  else digits (S (Z.to_nat z)) z "".

Fixpoint all_digits (s : string) : bool :=
  match s with
  | EmptyString => true
  | String c s' => is_digit c && all_digits s'
  end.

(** [s.isdigit()] on ASCII text: not empty and decimal digits only. *)
Definition isdigit (s : string) : bool :=
  match s with
  | EmptyString => false
  | _ => all_digits s
  end.

(** [int(s)] for a string of digits. *)
Definition int (s : string) : option Z := digits_value s 0%Z.

End py.

(** ** The sidebar: options and chosen values *)

(** [astype(int)] of a finite float: truncation toward zero. *)
Definition trunc (q : Q) : Z := Z.quot (Qnum q) (Zpos (Qden q)).

Fixpoint numbers (ks : list pd.scalar) : list Q :=
  match ks with
  | [] => []
  | pd.SNum q :: ks' => q :: numbers ks'
  | pd.SStr _ :: ks' => numbers ks'
  end.

(** The options of the year box for a float64 Year column: "All", then
    the distinct years as integers in ascending order, as text. *)
Definition year_options (years : list pd.float) : list string :=
  "All" :: map py.str_int
             (py.sorted_int
                (map trunc
                   (numbers (pd.uniques
                               (pd.dropna (pd.cells (pd.Float64 years))))))).

(** The Year entry of the filters dict for the chosen option. *)
Definition year_filter_value (year : string) : pd.scalar :=
  if negb (String.eqb year "All") && py.isdigit year
  then match py.int year with
       | Some z => pd.SNum (inject_Z z)
       | None => pd.SStr "All"
       end
  else pd.SStr "All".

(** [opt in s.unique()]: some cell equals the text. *)
Definition isin (opt : string) (s : pd.Series) : bool :=
  existsb (fun k => pd.scalar_eqb k (pd.SStr opt))
          (pd.uniques (pd.dropna (pd.cells s))).

(** The options of the month box, in calendar order. *)
Definition month_options (month_name : pd.Series) : list string :=
  "All" :: filter (fun m => isin m month_name) month_order.

Section Dropdown.
(** [st.sidebar.selectbox(label, options)]: the option the user picked. *)
Variable selectbox : string -> list string -> string.
(** [str(val)] for a float. *)
Variable str_float : Q -> string.

Definition str_cell (k : pd.scalar) : string :=
  match k with
  | pd.SStr t => t
  | pd.SNum q => str_float q
  end.

(** The options built by [add_dropdown] for the column [s]. *)
Definition dropdown_options (s : pd.Series)
           (ordered_options : option (list string)) : list string :=
  match ordered_options with
  | Some (o :: os) => "All" :: filter (fun opt => isin opt s) (o :: os)
  | _ =>
      "All" :: py.sorted (map str_cell (pd.uniques (pd.dropna (pd.cells s))))
  end.

Definition add_dropdown (df : pd.DataFrame) (label col : string)
           (ordered_options : option (list string)) : string :=
  if negb (pd.mem col (pd.columns df)) then "All"
  else match (s <- column df col ;;
              Ok (selectbox label (dropdown_options s ordered_options))) with
       | Ok choice => choice
       | Raise _ => "All"
       end.
End Dropdown.

(** Ascending order of text, as [sorted] compares it. *)
Definition str_le (a b : string) : Prop := String.leb a b = true.

(** A select box on which the last option is picked, and a rendering
    of whole numbers, for running the sidebar. *)
Definition pick_last (label : string) (opts : list string) : string :=
  last opts "All".

Definition str_whole (q : Q) : string := py.str_int (trunc q).

(** ** The totals of the overview page *)

Section Totals.
Variable object_reduce : string -> list (option string) -> res value.
(** [int(s)] for a string. *)
Variable int_str : string -> res Z.

(** [int(v or 0)].  The floats of the model are exact and finite: the
    conversion is that of the source for a sum that float64 or int64
    arithmetic computes exactly.  A sum that overflows is infinite or
    wrapped in the source and is outside the model; see
    [exact_range]. *)
Definition int_or_zero (v : value) : res Z :=
  if truthy v
  then match v with
       | VFloat (Some q) => Ok (trunc q)
       | VFloat None =>
           Raise (ValueError "cannot convert float NaN to integer")
       | VStr s => int_str s
       | VNone => Ok 0%Z
       end
  else Ok 0%Z.

(** [int(safe_metric_calculation(fdf.get(col, pd.Series()), 'sum') or 0)] *)
Definition total_of (fdf : pd.DataFrame) (col : string) : res Z :=
  v <- metric_of object_reduce (pd.get fdf col (pd.Object [])) "sum" ;;
  int_or_zero v.

Definition total_air_fatalities (fdf : pd.DataFrame) : res Z :=
  total_of fdf "Fatalities (Air)".

Definition total_ground_fatalities (fdf : pd.DataFrame) : res Z :=
  total_of fdf "Ground".
End Totals.

(** A float that is a whole number. *)
Definition whole (x : pd.float) : Prop :=
  match x with
  | Some q => exists z, q == inject_Z z
  | None => True
  end.

(** A column that the machine adds up exactly, as float64 and as
    int64: whole numbers whose absolute values add up to at most 2^53,
    so that no partial sum, in any order, is rounded or overflows. *)
Definition exact_range (xs : list pd.float) : Prop :=
  Forall whole xs
  /\ Qsum (map Qabs (pd.dropna xs)) <= inject_Z (2 ^ 53).

(** ** The series drawn on the pages *)

(** [s.head(n)] *)
Definition head {A : Type} (n : nat) (l : list A) : list A := firstn n l.

(** [fdf.groupby(c).size()]: the number of rows of each non-missing
    key, in key order. *)
Definition groupby_size (g : pd.Series) : list (pd.scalar * nat) :=
  let ks := pd.dropna (pd.cells g) in
  map (fun k => (k, pd.count_of k ks)) (pd.sort_keys (pd.uniques ks)).

(** [s.reindex(labels)]: the entries of [s] in the order of [labels],
    NaN for a label that [s] does not have. *)
Definition reindex (s : list (pd.scalar * Q)) (labels : list pd.scalar)
  : list (pd.scalar * pd.float) :=
  map (fun l =>
         (l, option_map snd
               (find (fun kv => pd.scalar_eqb (fst kv) l) s))) labels.

(** The month chart of the overview page: the sums by month name,
    reordered by the calendar.  The fatalities are the float64 column
    that [load_data] leaves. *)
Definition monthly_fatalities (month_name : pd.Series)
           (fatalities : list pd.float)
  : list (pd.scalar * pd.float) :=
  let sums := pd.groupby_sum month_name fatalities in
  reindex sums
    (map pd.SStr
       (filter (fun m => existsb (pd.scalar_eqb (pd.SStr m))
                           (map fst sums)) month_order)).

(** Orders of the drawn series: by decreasing count, by increasing
    key. *)
Definition desc (a b : pd.scalar * nat) : Prop := (snd b <= snd a)%nat.

Definition key_le (a b : pd.scalar) : Prop := pd.scalar_leb a b = true.

(** Two keys that do not compare equal. *)
Definition apart (a b : pd.scalar) : Prop := pd.scalar_eqb a b = false.

(** [s.notna()] read off the cells. *)
Definition present {A : Type} (x : option A) : bool :=
  match x with
  | Some _ => true
  | None => false
  end.

(** ** Facts about frames *)

Lemma mem_true_iff (c : string) (cs : list string) :
  pd.mem c cs = true <-> In c cs.
Proof.
  unfold pd.mem. rewrite existsb_exists. split.
  - intros [x [Hin Heq]]. apply String.eqb_eq in Heq. now subst.
  - intros Hin. exists c. split; [assumption | apply String.eqb_refl].
Qed.

Lemma mem_false_iff (c : string) (cs : list string) :
  pd.mem c cs = false <-> ~ In c cs.
Proof.
  rewrite <- mem_true_iff. destruct (pd.mem c cs); split; intros H.
  - discriminate.
  - exfalso. now apply H.
  - discriminate.
  - reflexivity.
Qed.

Lemma select_nil_iff (c : string) (df : pd.DataFrame) :
  pd.select c df = [] <-> ~ In c (pd.columns df).
Proof.
  unfold pd.select, pd.columns. induction df as [|[c' s] df IH]; simpl.
  - tauto.
  - destruct (String.eqb_spec c' c) as [->|Hne].
    + split; [discriminate | intros H; exfalso; apply H; now left].
    + rewrite IH. split.
      * intros H [E|E]; [now apply Hne | now apply H].
      * intros H E. apply H. now right.
Qed.

Lemma select_labels (c : string) (df : pd.DataFrame) :
  Forall (fun cs => fst cs = c) (pd.select c df).
Proof.
  unfold pd.select. apply Forall_forall. intros x Hx.
  apply filter_In in Hx. destruct Hx as [_ Hx]. now apply String.eqb_eq.
Qed.

Lemma select_NoDup (c : string) (df : pd.DataFrame) :
  NoDup (pd.columns df) -> (length (pd.select c df) <= 1)%nat.
Proof.
  unfold pd.select, pd.columns. induction df as [|[c' s] df IH]; simpl; intros Hnd.
  - lia.
  - inversion Hnd as [|? ? Hnotin Hnd']; subst.
    destruct (String.eqb_spec c' c) as [->|Hne].
    + apply select_nil_iff in Hnotin. unfold pd.select in Hnotin.
      rewrite Hnotin. simpl. lia.
    + now apply IH.
Qed.

Lemma select_uniform (n : nat) (c : string) (df : pd.DataFrame) :
  uniform n df -> uniform n (pd.select c df).
Proof.
  unfold uniform, pd.select. rewrite !Forall_forall. intros H x Hx.
  apply filter_In in Hx. now apply H.
Qed.

Lemma getitem_series (df : pd.DataFrame) (c : string) (s : pd.Series) :
  pd.getitem df c = Ok (pd.ItemSeries s) <-> pd.select c df = [(c, s)].
Proof.
  unfold pd.getitem. pose proof (select_labels c df) as Hl.
  destruct (pd.select c df) as [|[c1 s1] [|[c2 s2] rest]].
  - split; discriminate.
  - inversion Hl as [|? ? Hc _]; subst. simpl in *. subst.
    split; intros H; inversion H; reflexivity.
  - split; discriminate.
Qed.

Lemma columns_setitem_mem (df : pd.DataFrame) (c : string) (s : pd.Series) :
  pd.mem c (pd.columns df) = true ->
  pd.columns (pd.setitem df c s) = pd.columns df.
Proof.
  intros Hm. unfold pd.setitem. rewrite Hm. unfold pd.columns.
  rewrite map_map. apply map_ext. intros [c' s']. simpl.
  now destruct (String.eqb c' c).
Qed.

Lemma columns_setitem_new (df : pd.DataFrame) (c : string) (s : pd.Series) :
  pd.mem c (pd.columns df) = false ->
  pd.columns (pd.setitem df c s) = pd.columns df ++ [c].
Proof.
  intros Hm. unfold pd.setitem. rewrite Hm. unfold pd.columns.
  now rewrite map_app.
Qed.

Lemma uniform_setitem (n : nat) (df : pd.DataFrame) (c : string)
      (s : pd.Series) :
  uniform n df -> pd.len s = n -> uniform n (pd.setitem df c s).
Proof.
  unfold uniform, pd.setitem. intros Hu Hs.
  destruct (pd.mem c (pd.columns df)).
  - apply Forall_map. eapply Forall_impl; [|exact Hu].
    intros [c' s'] H. simpl in *. now destruct (String.eqb c' c).
  - apply Forall_app. split; [assumption|]. now constructor.
Qed.

Lemma select_setitem_other (df : pd.DataFrame) (c c' : string)
      (s : pd.Series) :
  c' <> c -> pd.select c' (pd.setitem df c s) = pd.select c' df.
Proof.
  intros Hne. unfold pd.setitem, pd.select.
  destruct (pd.mem c (pd.columns df)).
  - induction df as [|[c1 s1] df IH]; simpl; [reflexivity|].
    destruct (String.eqb_spec c1 c) as [->|Hc]; simpl.
    + destruct (String.eqb_spec c c') as [E|_]; [now symmetry in E|].
      exact IH.
    + destruct (String.eqb c1 c'); now rewrite IH.
  - rewrite filter_app. simpl.
    destruct (String.eqb_spec c c') as [E|_]; [now symmetry in E|].
    now rewrite app_nil_r.
Qed.

Lemma select_setitem_same (df : pd.DataFrame) (c : string) (s : pd.Series) :
  (length (pd.select c df) <= 1)%nat ->
  pd.select c (pd.setitem df c s) = [(c, s)].
Proof.
  intros Hlen. unfold pd.setitem.
  destruct (pd.mem c (pd.columns df)) eqn:Hm.
  - assert (Hsel : pd.select c (map (fun cs => if String.eqb (fst cs) c
                                             then (fst cs, s) else cs) df)
                   = map (fun cs => (c, s)) (pd.select c df)).
    { unfold pd.select. clear. induction df as [|[c1 s1] df IH]; simpl.
      - reflexivity.
      - destruct (String.eqb_spec c1 c) as [->|Hc]; simpl.
        + rewrite String.eqb_refl. simpl. now rewrite IH.
        + destruct (String.eqb_spec c1 c) as [E|_]; [contradiction|].
          exact IH. }
    rewrite Hsel. apply mem_true_iff in Hm.
    destruct (pd.select c df) as [|x [|y r]] eqn:E.
    + apply select_nil_iff in E. contradiction.
    + reflexivity.
    + simpl in Hlen. lia.
  - apply mem_false_iff, select_nil_iff in Hm.
    unfold pd.select in *. rewrite filter_app, Hm. simpl.
    now rewrite String.eqb_refl.
Qed.

Lemma dict_get_In {V : Type} (d : list (string * V)) (k : string) (v : V) :
  pd.dict_get d k = Some v -> In (k, v) d.
Proof.
  induction d as [|[k' v'] d IH]; simpl; [discriminate|].
  destruct (String.eqb_spec k' k) as [->|_].
  - intros H. inversion H. now left.
  - intros H. right. now apply IH.
Qed.

Lemma columns_rename (m : list (string * string)) (df : pd.DataFrame) :
  pd.columns (pd.rename m df) = map (pd.relabel m) (pd.columns df).
Proof.
  unfold pd.columns, pd.rename. rewrite !map_map. reflexivity.
Qed.

Lemma uniform_rename (n : nat) (m : list (string * string))
      (df : pd.DataFrame) :
  uniform n df -> uniform n (pd.rename m df).
Proof.
  unfold uniform, pd.rename. intros H. apply Forall_map.
  eapply Forall_impl; [|exact H]. now intros [c s].
Qed.


Section LoadDataFacts.
Variable parse_number : string -> option Q.

Lemma len_coerce (s : pd.Series) :
  pd.len (pd.coerce parse_number s) = pd.len s.
Proof. destruct s; simpl; [reflexivity | apply length_map]. Qed.

Lemma coerce_float (s : pd.Series) :
  exists xs, pd.coerce parse_number s = pd.Float64 xs.
Proof. destruct s; simpl; eauto. Qed.


End LoadDataFacts.

(** ** The survival rate of one record *)

Lemma nth_error_zip_with {A B C : Type} (g : A -> B -> C) (xs : list A)
      (ys : list B) (i : nat) :
  nth_error (pd.zip_with g xs ys) i =
  match nth_error xs i, nth_error ys i with
  | Some x, Some y => Some (g x y)
  | _, _ => None
  end.
Proof.
  revert ys i. induction xs as [|x xs IH]; intros [|y ys] [|i]; simpl;
    try reflexivity.
  - now destruct (nth_error xs i).
  - apply IH.
Qed.

Lemma length_zip_with {A B C : Type} (g : A -> B -> C) (xs : list A)
      (ys : list B) :
  length (pd.zip_with g xs ys) = Nat.min (length xs) (length ys).
Proof.
  revert ys. induction xs as [|x xs IH]; intros [|y ys]; simpl; auto.
Qed.

Lemma survival_column_nth (ab ft : list pd.float) (i : nat) (a f : pd.float) :
  nth_error ab i = Some a -> nth_error ft i = Some f ->
  nth_error
    (pd.where_nan
       (pd.zip_with andb (map (fun x => pd.fgt x 0) ab) (map pd.fnotna ft))
       (map (pd.frsub 1) (map (pd.fclip 0 1) (pd.zip_with pd.fdiv ft ab)))) i
  = Some (survival_cell a f).
Proof.
  intros Ha Hf. unfold pd.where_nan, survival_cell.
  rewrite nth_error_zip_with, nth_error_zip_with.
  rewrite !nth_error_map, nth_error_zip_with, Ha, Hf. reflexivity.
Qed.

Lemma survival_cell_defined (a f : pd.float) :
  survival_cell a f <> None <->
  exists qa, a = Some qa /\ 0 < qa /\ f <> None.
Proof.
  unfold survival_cell, pd.fgt, pd.fnotna.
  destruct a as [qa|]; simpl.
  - destruct (Qle_bool qa 0) eqn:Hle; simpl.
    + apply Qle_bool_iff in Hle. split; [congruence|].
      intros (q & Hq & Hpos & _). inversion Hq; subst. exfalso. lra.
    + assert (Hpos : 0 < qa).
      { apply Qnot_le_lt. intros H. apply Qle_bool_iff in H. congruence. }
      destruct f as [qf|]; simpl.
      * assert (Hz : Qeq_bool qa 0 = false).
        { destruct (Qeq_bool qa 0) eqn:E; [|reflexivity].
          apply Qeq_bool_iff in E. lra. }
        split; [|rewrite Hz; discriminate].
        intros _. exists qa. repeat split; [assumption | discriminate].
      * split; [congruence|]. intros (q & _ & _ & Hf). congruence.
  - split; [congruence|]. intros (q & Hq & _). discriminate.
Qed.

Lemma survival_cell_value (a f : pd.float) (r : Q) :
  survival_cell a f = Some r ->
  exists qa qf, a = Some qa /\ f = Some qf /\ 0 < qa
                /\ r == clamp (1 - qf / qa) 0 1 /\ 0 <= r <= 1.
Proof.
  intros H.
  assert (Hd : survival_cell a f <> None) by congruence.
  apply survival_cell_defined in Hd. destruct Hd as (qa & -> & Hpos & Hf).
  destruct f as [qf|]; [clear Hf | congruence].
  exists qa, qf. do 3 (split; [trivial|]).
  unfold survival_cell, pd.fgt, pd.fnotna, pd.fdiv in H.
  assert (Hle : Qle_bool qa 0 = false).
  { destruct (Qle_bool qa 0) eqn:E; [|reflexivity].
    apply Qle_bool_iff in E. lra. }
  assert (Hz : Qeq_bool qa 0 = false).
  { destruct (Qeq_bool qa 0) eqn:E; [|reflexivity].
    apply Qeq_bool_iff in E. lra. }
  rewrite Hle, Hz in H. cbn [negb andb pd.fclip pd.frsub] in H.
  unfold clamp. set (x := qf / qa) in *. clearbody x.
  injection H as <-.
  destruct (Q.min_spec (1 - x) 1) as [[Hlt Hmin]|[Hge Hmin]];
    destruct (Q.max_spec 0 (Qmin (1 - x) 1)) as [[Hlt' Hmax]|[Hge' Hmax]];
    rewrite Hmax; rewrite Hmin in *;
    (destruct (Qle_bool x 0) eqn:E0;
     [apply Qle_bool_iff in E0
     | assert (0 < x)
         by (apply Qnot_le_lt; intros C; apply Qle_bool_iff in C; congruence);
       destruct (Qle_bool 1 x) eqn:E1;
       [apply Qle_bool_iff in E1
       | assert (x < 1)
           by (apply Qnot_le_lt; intros C; apply Qle_bool_iff in C;
               congruence)]]);
    split; lra.
Qed.

Lemma uniform_nrows (n : nat) (df : pd.DataFrame) :
  uniform n df -> df <> [] -> pd.nrows df = n.
Proof.
  destruct df as [|[c s] df]; [congruence|]. intros H _.
  inversion H; subst. reflexivity.
Qed.

Lemma wf_uniform (df : pd.DataFrame) : pd.wf df -> uniform (pd.nrows df) df.
Proof. now intros [_ H]. Qed.

Lemma float_column_len (n : nat) (df : pd.DataFrame) (c : string)
      (xs : list pd.float) :
  uniform n df -> float_column df c xs -> length xs = n.
Proof.
  intros Hu Hf. pose proof (select_uniform n c df Hu) as H.
  rewrite Hf in H. now inversion H.
Qed.

Lemma column_float (df : pd.DataFrame) (c : string) (xs : list pd.float) :
  float_column df c xs -> column df c = Ok (pd.Float64 xs).
Proof.
  intros H. apply getitem_series in H. unfold column. now rewrite H.
Qed.

Lemma len_map_dict (d : list (Z * string)) (s : pd.Series) :
  pd.len (pd.map_dict d s) = pd.len s.
Proof. destruct s; simpl; apply length_map. Qed.



Section SurvivalRate.
Variable parse_number : string -> option Q.



End SurvivalRate.

(** ** The model on the sample source *)

Lemma sample_frame_wf : pd.wf sample_frame.
Proof.
  split.
  - simpl. repeat constructor; simpl; intuition discriminate.
  - repeat constructor.
Defined.

Example sample_survival_rate :
  pd.get (fst (load_data sample_csv parse_digits DATA_PATH)) "Survival Rate"
    (pd.Object [])
  = pd.ItemSeries (pd.Float64 [Some (80 # 100); Some 0; Some 1]).
Proof. reflexivity. Qed.

(** ** Claims about load_data *)



(** ** Normalization: renaming and numeric coercion *)

Lemma select_unique (df : pd.DataFrame) (c : string) (s : pd.Series) :
  NoDup (pd.columns df) -> In (c, s) df -> pd.select c df = [(c, s)].
Proof.
  unfold pd.select, pd.columns.
  induction df as [|[c1 s1] df IH]; simpl; intros Hnd Hin; [contradiction|].
  inversion Hnd as [|? ? Hnot Hnd']; subst.
  destruct Hin as [E|Hin].
  - inversion E; subst. rewrite String.eqb_refl.
    apply select_nil_iff in Hnot. unfold pd.select in Hnot. now rewrite Hnot.
  - destruct (String.eqb_spec c1 c) as [->|_].
    + exfalso. apply Hnot. now apply (in_map fst) in Hin.
    + now apply IH.
Qed.

Lemma dict_get_filter_key {V : Type} (keep : string -> bool)
      (d : list (string * V)) (k : string) :
  keep k = true ->
  pd.dict_get (filter (fun kv => keep (fst kv)) d) k = pd.dict_get d k.
Proof.
  intros Hk. induction d as [|[k' v] d IH]; simpl; [reflexivity|].
  destruct (String.eqb_spec k' k) as [->|Hne].
  - rewrite Hk. simpl. now rewrite String.eqb_refl.
  - destruct (keep k'); simpl; [|exact IH].
    destruct (String.eqb_spec k' k); [contradiction | exact IH].
Qed.

(** Restricting the mapping to the labels that occur changes nothing. *)
Lemma rename_present (df : pd.DataFrame) :
  pd.rename (present_renames df) df = pd.rename rename_map df.
Proof.
  unfold pd.rename. apply map_ext_in. intros [c s] Hin. simpl.
  unfold pd.relabel, present_renames.
  rewrite (dict_get_filter_key (fun k => pd.mem k (pd.columns df)));
    [reflexivity|].
  apply mem_true_iff. now apply (in_map fst) in Hin.
Qed.

Section Coercion.
Variable parse_number : string -> option Q.

Lemma coerce_idem (s : pd.Series) :
  pd.coerce parse_number (pd.coerce parse_number s)
  = pd.coerce parse_number s.
Proof. now destruct s. Qed.

Lemma columns_coerce_cols (cols : list string) (df : pd.DataFrame) :
  pd.columns (coerce_cols parse_number cols df) = pd.columns df.
Proof.
  unfold pd.columns, coerce_cols. rewrite map_map. apply map_ext.
  intros [c s]. simpl. now destruct (pd.mem c cols).
Qed.

Lemma convert_numeric_exact (df : pd.DataFrame) (col : string) :
  NoDup (pd.columns df) ->
  convert_numeric parse_number df col = Ok (coerce_cols parse_number [col] df).
Proof.
  intros Hnd. unfold convert_numeric.
  destruct (pd.mem col (pd.columns df)) eqn:Hm.
  - apply mem_true_iff in Hm. apply in_map_iff in Hm.
    destruct Hm as [[c s] [Hc Hin]]. simpl in Hc. subst c.
    pose proof (select_unique _ _ _ Hnd Hin) as Hsel.
    apply getitem_series in Hsel. rewrite Hsel. simpl.
    f_equal. unfold pd.setitem, coerce_cols.
    assert (Hm : pd.mem col (pd.columns df) = true).
    { apply mem_true_iff. now apply (in_map fst) in Hin. }
    rewrite Hm. apply map_ext_in. intros [c1 s1] Hin1. simpl.
    rewrite orb_false_r.
    destruct (String.eqb_spec c1 col) as [->|_]; simpl; [|reflexivity].
    pose proof (select_unique _ _ _ Hnd Hin1) as Hsel1.
    apply getitem_series in Hsel1. rewrite Hsel in Hsel1. now inversion Hsel1.
  - f_equal. unfold coerce_cols. symmetry. rewrite <- (map_id df) at 2.
    apply map_ext_in. intros [c1 s1] Hin1. simpl.
    rewrite orb_false_r.
    destruct (String.eqb_spec c1 col) as [->|_]; simpl; [|reflexivity].
    apply mem_false_iff in Hm. exfalso. apply Hm.
    now apply (in_map fst) in Hin1.
Qed.

Lemma convert_loop_exact (cols : list string) (df : pd.DataFrame) :
  NoDup (pd.columns df) ->
  for_each (convert_numeric parse_number) cols df
  = Ok (coerce_cols parse_number cols df).
Proof.
  revert df. induction cols as [|col cols IH]; intros df Hnd; simpl.
  - f_equal. unfold coerce_cols. simpl. symmetry. apply map_id.
  - rewrite convert_numeric_exact by assumption. simpl.
    rewrite IH by now rewrite columns_coerce_cols.
    f_equal. unfold coerce_cols. rewrite map_map. apply map_ext.
    intros [c s]. simpl. rewrite orb_false_r.
    destruct (String.eqb_spec c col) as [->|_]; simpl.
    + destruct (pd.mem col cols);
        [apply f_equal, coerce_idem | reflexivity].
    + now destruct (pd.mem c cols).
Qed.

Lemma coerce_cols_In (cols : list string) (df : pd.DataFrame) (c : string)
      (s : pd.Series) :
  In (c, s) df ->
  In (c, if pd.mem c cols then pd.coerce parse_number s else s)
     (coerce_cols parse_number cols df).
Proof.
  intros Hin. unfold coerce_cols. apply in_map_iff.
  exists (c, s). split; [|assumption]. simpl. now destruct (pd.mem c cols).
Qed.

Lemma coerce_cols_float (cols : list string) (df : pd.DataFrame)
      (c : string) :
  NoDup (pd.columns df) -> In c cols -> In c (pd.columns df) ->
  exists xs, float_column (coerce_cols parse_number cols df) c xs.
Proof.
  intros Hnd Hc Hin. apply in_map_iff in Hin.
  destruct Hin as [[c1 s] [E Hin]]. simpl in E. subst c1.
  apply (coerce_cols_In cols) in Hin.
  apply mem_true_iff in Hc. rewrite Hc in Hin.
  destruct (coerce_float parse_number s) as [xs Hxs]. exists xs.
  unfold float_column. rewrite <- Hxs. apply select_unique; [|assumption].
  now rewrite columns_coerce_cols.
Qed.
End Coercion.


Lemma rename_map_canonical :
  forall k v, In (k, v) rename_map ->
              pd.relabel rename_map k = v /\ pd.relabel rename_map v = v.
Proof.
  assert (H : Forall (fun kv => pd.relabel rename_map (fst kv) = snd kv
                                /\ pd.relabel rename_map (snd kv) = snd kv)
                     rename_map).
  { unfold rename_map. repeat constructor. }
  intros k v Hin. rewrite Forall_forall in H. exact (H (k, v) Hin).
Qed.








(** Text that is not a number becomes a missing cell. *)
Example coerce_unparseable :
  pd.coerce parse_digits (pd.Object [Some "1985"; Some "n/a"; None])
  = pd.Float64 [Some 1985; None; None].
Proof. reflexivity. Qed.

Example alias_clash_load :
  load_data alias_clash_csv parse_digits DATA_PATH
  = (pd.empty_frame,
     [StError "Error loading data: arg must be a list, tuple, 1-d array, or Series"]).
Proof. reflexivity. Qed.

(** [main] treats every empty table as a failed load. *)
Lemma main_empty_table
      (read_csv : string -> res pd.DataFrame)
      (parse_number : string -> option Q)
      (selected : string -> pd.DataFrame -> pd.scalar) (page : string) :
  pd.empty (fst (load_data read_csv parse_number DATA_PATH)) = true ->
  main read_csv parse_number selected page
  = (snd (load_data read_csv parse_number DATA_PATH)
       ++ [StError
             "Unable to load data. Please check the file path and format."],
     None).
Proof.
  unfold main.
  destruct (load_data read_csv parse_number DATA_PATH) as [df shown].
  simpl. now intros ->.
Qed.

(** C8.  When reading the source raises, or anything else inside the
    [try] does, [load_data] returns the empty table (no columns, zero
    rows) together with an error message instead of raising.  [main]
    treats an empty table as a failed load: it shows its own error
    message after what [load_data] showed and stops, so nothing is
    filtered, aggregated or rendered. *)
Theorem load_failure_halts
        (read_csv : string -> res pd.DataFrame)
        (parse_number : string -> option Q)
        (selected : string -> pd.DataFrame -> pd.scalar)
        (page : string) :
  (forall e,
      read_csv DATA_PATH = Raise e
      \/ load_data_try read_csv parse_number DATA_PATH = Raise e ->
      load_data read_csv parse_number DATA_PATH
      = (pd.empty_frame, [StError ("Error loading data: " ++ exn_str e)]))
  /\ pd.columns pd.empty_frame = []
  /\ pd.nrows pd.empty_frame = 0%nat
  /\ pd.empty pd.empty_frame = true
  /\ (pd.empty (fst (load_data read_csv parse_number DATA_PATH)) = true ->
      main read_csv parse_number selected page
      = (snd (load_data read_csv parse_number DATA_PATH)
           ++ [StError
                 "Unable to load data. Please check the file path and format."],
         None)).
Proof.
  split.
  { intros e Hfail.
    assert (Htry : load_data_try read_csv parse_number DATA_PATH = Raise e).
    { destruct Hfail as [H|H]; [|exact H].
      unfold load_data_try. now rewrite H. }
    unfold load_data. now rewrite Htry. }
  do 3 (split; [reflexivity|]).
  apply main_empty_table.
Qed.

Lemma load_failure_halts_witness :
  load_data missing_csv parse_digits DATA_PATH
  = (pd.empty_frame,
     [StError "Error loading data: No such file or directory"])
  /\ main missing_csv parse_digits (fun _ _ => pd.SStr "All") "Overview"
     = ([StError "Error loading data: No such file or directory";
         StError "Unable to load data. Please check the file path and format."],
        None).
Proof.
  destruct (load_failure_halts missing_csv parse_digits
              (fun _ _ => pd.SStr "All") "Overview")
    as (Hload & _ & _ & _ & Hmain).
  split.
  - apply (Hload (IOError "No such file or directory")). left. reflexivity.
  - apply Hmain. reflexivity.
Defined.

(** ** Claims about safe_metric_calculation *)

Lemma fsum_acc (xs : list pd.float) (acc : Q) :
  fold_left (fun a x => match x with Some q => a + q | None => a end) xs acc
  == acc + Qsum (pd.dropna xs).
Proof.
  revert acc. induction xs as [|[q|] xs IH]; intros acc; simpl.
  - ring.
  - rewrite IH. ring.
  - apply IH.
Qed.

Lemma fsum_spec (xs : list pd.float) : pd.fsum xs == Qsum (pd.dropna xs).
Proof. unfold pd.fsum. rewrite fsum_acc. ring. Qed.

Lemma fcount_acc (xs : list pd.float) (n : nat) :
  fold_left (fun k x => match x with Some _ => S k | None => k end) xs n
  = (n + length (pd.dropna xs))%nat.
Proof.
  revert n. induction xs as [|[q|] xs IH]; intros n; simpl.
  - lia.
  - rewrite IH. lia.
  - apply IH.
Qed.

Lemma fcount_spec (xs : list pd.float) :
  pd.fcount xs = length (pd.dropna xs).
Proof. unfold pd.fcount. now rewrite fcount_acc. Qed.

Lemma dropna_In {A : Type} (x : A) (l : list (option A)) :
  In x (pd.dropna l) <-> In (Some x) l.
Proof.
  induction l as [|[a|] l IH]; simpl.
  - tauto.
  - rewrite IH. split; intros [H|H]; auto; left; congruence.
  - rewrite IH. split; [auto | intros [H|H]; [discriminate | assumption]].
Qed.


Lemma isna_all_float (xs : list pd.float) :
  pd.isna_all (pd.Float64 xs) = true <-> pd.dropna xs = [].
Proof.
  unfold pd.isna_all. simpl. induction xs as [|[q|] xs IH]; simpl.
  - tauto.
  - split; discriminate.
  - exact IH.
Qed.

Lemma unavailable_float (xs : list pd.float) :
  (length xs =? 0)%nat || pd.isna_all (pd.Float64 xs) = true
  <-> pd.dropna xs = [].
Proof.
  rewrite orb_true_iff, isna_all_float. split.
  - intros [H|H]; [|exact H]. apply Nat.eqb_eq in H.
    destruct xs; [reflexivity | discriminate].
  - intros H. now right.
Qed.



(** The missing entry is left out of the denominator: (1 + 3) / 2. *)
Example mean_skips_missing :
  safe_metric_calculation object_reduce_raises
    (pd.Float64 [Some 1; None; Some 3]) "mean" VNone = VFloat (Some (4 # 2)).
Proof. reflexivity. Qed.

(** ** Claims about the overview figures *)

(** C10.  The two averaged figures of the overview page are tested for
    truth, not for availability: when the mean of Fatalities (Air) or
    of Survival Rate is the number 0 the text shown is the dash, the
    same text as when the mean is unavailable; a mean different from 0
    is shown as a number. *)
Theorem overview_zero_shown_as_dash
        (object_reduce : string -> list (option string) -> res value)
        (format_1f : Q -> string) (fdf : pd.DataFrame) :
  (forall q, avg_fatalities object_reduce fdf = Ok (VFloat (Some q)) ->
             q == 0 ->
             avg_fatalities_text object_reduce format_1f fdf = Ok dash)
  /\ (forall q, survival_rate object_reduce fdf = Ok (VFloat (Some q)) ->
                q == 0 ->
                survival_rate_text object_reduce format_1f fdf = Ok dash)
  /\ (avg_fatalities object_reduce fdf = Ok VNone ->
      avg_fatalities_text object_reduce format_1f fdf = Ok dash)
  /\ (survival_rate object_reduce fdf = Ok VNone ->
      survival_rate_text object_reduce format_1f fdf = Ok dash)
  /\ (forall q, avg_fatalities object_reduce fdf = Ok (VFloat (Some q)) ->
                ~ q == 0 ->
                avg_fatalities_text object_reduce format_1f fdf
                = Ok (format_1f q))
  /\ (forall q, survival_rate object_reduce fdf = Ok (VFloat (Some q)) ->
                ~ q == 0 ->
                survival_rate_text object_reduce format_1f fdf
                = Ok (format_1f (q * 100) ++ "%")%string).
Proof.
  unfold avg_fatalities_text, survival_rate_text.
  repeat split.
  - intros q -> Hq. simpl. apply Qeq_bool_iff in Hq. now rewrite Hq.
  - intros q -> Hq. simpl. apply Qeq_bool_iff in Hq. now rewrite Hq.
  - now intros ->.
  - now intros ->.
  - intros q -> Hq. simpl.
    destruct (Qeq_bool q 0) eqn:E; [|reflexivity].
    apply Qeq_bool_iff in E. contradiction.
  - intros q -> Hq. simpl.
    destruct (Qeq_bool q 0) eqn:E; [|reflexivity].
    apply Qeq_bool_iff in E. contradiction.
Qed.

Lemma overview_zero_shown_as_dash_witness :
  avg_fatalities_text object_reduce_raises format_stub no_fatalities = Ok dash
  /\ survival_rate_text object_reduce_raises format_stub no_survivors
     = Ok dash
  /\ avg_fatalities_text object_reduce_raises format_stub pd.empty_frame
     = Ok dash.
Proof.
  destruct (overview_zero_shown_as_dash object_reduce_raises format_stub
              no_fatalities) as (Ha & _).
  destruct (overview_zero_shown_as_dash object_reduce_raises format_stub
              no_survivors) as (_ & Hs & _).
  destruct (overview_zero_shown_as_dash object_reduce_raises format_stub
              pd.empty_frame) as (_ & _ & Hn & _).
  split; [|split].
  - apply (Ha (0 / 2)); reflexivity.
  - apply (Hs (0 / 2)); reflexivity.
  - apply Hn. reflexivity.
Defined.

(** ** Filtering *)

Lemma compress_nil_r {A : Type} (m : list bool) : pd.compress m (@nil A) = [].
Proof. now destruct m as [|[|] m]. Qed.

Lemma compress_map {A B : Type} (f : A -> B) (m : list bool) (xs : list A) :
  pd.compress m (map f xs) = map f (pd.compress m xs).
Proof.
  revert xs. induction m as [|b m IH]; intros [|x xs]; simpl; try reflexivity.
  destruct b; simpl; now rewrite IH.
Qed.

Lemma compress_compress {A : Type} (m m' : list bool) (xs : list A) :
  pd.compress (pd.compress m m') (pd.compress m xs)
  = pd.compress (pd.zip_with andb m m') xs.
Proof.
  revert m' xs. induction m as [|b m IH]; intros m' xs.
  - reflexivity.
  - destruct m' as [|b' m'].
    + reflexivity.
    + destruct xs as [|x xs].
      * simpl. destruct b; simpl; [now destruct b'|].
        apply compress_nil_r.
      * simpl. destruct b; simpl.
        -- destruct b'; now rewrite IH.
        -- apply IH.
Qed.

Lemma compress_all {A : Type} (n : nat) (xs : list A) :
  (length xs <= n)%nat -> pd.compress (repeat true n) xs = xs.
Proof.
  revert xs. induction n as [|n IH]; intros [|x xs] H; simpl in *;
    try reflexivity; try lia.
  f_equal. apply IH. lia.
Qed.

Lemma cells_take (m : list bool) (s : pd.Series) :
  pd.cells (pd.take m s) = pd.compress m (pd.cells s).
Proof. destruct s; simpl; now rewrite compress_map. Qed.

Lemma eq_take (m : list bool) (s : pd.Series) (v : pd.scalar) :
  pd.eq (pd.take m s) v = pd.compress m (pd.eq s v).
Proof. unfold pd.eq. now rewrite cells_take, compress_map. Qed.

Lemma take_take (m m' : list bool) (s : pd.Series) :
  pd.take (pd.compress m m') (pd.take m s)
  = pd.take (pd.zip_with andb m m') s.
Proof. destruct s; simpl; now rewrite compress_compress. Qed.

Lemma loc_loc (df : pd.DataFrame) (m m' : list bool) :
  pd.loc (pd.loc df m) (pd.compress m m')
  = pd.loc df (pd.zip_with andb m m').
Proof.
  unfold pd.loc. rewrite map_map. apply map_ext. intros [c s]. simpl.
  now rewrite take_take.
Qed.

Lemma columns_loc (df : pd.DataFrame) (m : list bool) :
  pd.columns (pd.loc df m) = pd.columns df.
Proof. unfold pd.columns, pd.loc. rewrite map_map. reflexivity. Qed.

Lemma select_loc (c : string) (df : pd.DataFrame) (m : list bool) :
  pd.select c (pd.loc df m) = pd.loc (pd.select c df) m.
Proof.
  unfold pd.select, pd.loc. induction df as [|[c' s] df IH]; simpl;
    [reflexivity|].
  destruct (String.eqb c' c); simpl; now rewrite IH.
Qed.

Lemma column_loc (df : pd.DataFrame) (c : string) (m : list bool) :
  column (pd.loc df m) c
  = match column df c with
    | Ok s => Ok (pd.take m s)
    | Raise e => Raise e
    end.
Proof.
  unfold column, pd.getitem. rewrite select_loc.
  destruct (pd.select c df) as [|[c1 s1] [|[c2 s2] rest]]; reflexivity.
Qed.

Lemma loc_all (df : pd.DataFrame) :
  uniform (pd.nrows df) df -> pd.loc df (repeat true (pd.nrows df)) = df.
Proof.
  intros Hu. unfold pd.loc.
  transitivity (map (fun cs : string * pd.Series => cs) df); [|apply map_id].
  apply map_ext_in. intros [c s] Hin. simpl. f_equal.
  unfold uniform in Hu. rewrite Forall_forall in Hu.
  specialize (Hu _ Hin). simpl in Hu.
  destruct s; simpl in *; f_equal; apply compress_all; lia.
Qed.

Lemma uniform_len (n : nat) (df : pd.DataFrame) (c : string) (s : pd.Series) :
  uniform n df -> column df c = Ok s -> pd.len s = n.
Proof.
  intros Hu Hc. unfold column in Hc.
  destruct (pd.getitem df c) as [[s'|sub]|e] eqn:Hg; simpl in Hc;
    try discriminate.
  inversion Hc; subst. apply getitem_series in Hg.
  pose proof (select_uniform n c df Hu) as Hs. rewrite Hg in Hs.
  now inversion Hs.
Qed.

(** The loop on a row selection of [df] is a row selection of [df]. *)
Lemma filter_loop_loc (df : pd.DataFrame) (filters : list (string * pd.scalar))
      (mask : list bool) :
  filter_loop select_rows (pd.columns df) (pd.loc df mask) filters
  = pd.loc df (fold_left (narrow df) filters mask).
Proof.
  revert mask. induction filters as [|[name value] rest IH]; intros mask;
    simpl; [reflexivity|].
  unfold narrow at 2, predicate_mask, active. simpl.
  destruct (negb (is_all value) && pd.mem name (pd.columns df)).
  - unfold select_rows. rewrite column_loc.
    destruct (column df name) as [s|e]; simpl.
    + rewrite eq_take, loc_loc. apply IH.
    + apply IH.
  - apply IH.
Qed.

Lemma apply_filters_fold (df : pd.DataFrame)
      (filters : list (string * pd.scalar)) :
  uniform (pd.nrows df) df ->
  apply_filters df filters
  = pd.loc df (fold_left (narrow df) filters (repeat true (pd.nrows df))).
Proof.
  intros Hu. unfold apply_filters.
  rewrite <- (loc_all df Hu) at 2. apply filter_loop_loc.
Qed.

Lemma predicate_mask_length (df : pd.DataFrame) (p : string * pd.scalar)
      (m : list bool) :
  uniform (pd.nrows df) df -> predicate_mask df p = Some m ->
  length m = pd.nrows df.
Proof.
  intros Hu. unfold predicate_mask.
  destruct (active df p); [|discriminate].
  destruct (column df (fst p)) as [s|e] eqn:Hc; [|discriminate].
  intros H. inversion H; subst. unfold pd.eq. rewrite length_map.
  rewrite <- (uniform_len _ _ _ _ Hu Hc).
  destruct s; simpl; apply length_map.
Qed.

Lemma narrow_nth (df : pd.DataFrame) (mask : list bool)
      (p : string * pd.scalar) (i : nat) (b : bool) :
  uniform (pd.nrows df) df -> (i < pd.nrows df)%nat ->
  nth_error mask i = Some b ->
  nth_error (narrow df mask p) i = Some (b && row_ok df i p).
Proof.
  intros Hu Hi Hb. unfold narrow, row_ok.
  destruct (predicate_mask df p) as [m|] eqn:Hm.
  - rewrite nth_error_zip_with, Hb.
    pose proof (predicate_mask_length _ _ _ Hu Hm) as Hlen.
    rewrite (nth_error_nth' m true) by lia. reflexivity.
  - now rewrite andb_true_r.
Qed.

Lemma fold_narrow_nth (df : pd.DataFrame)
      (filters : list (string * pd.scalar)) (mask : list bool) (i : nat)
      (b : bool) :
  uniform (pd.nrows df) df -> (i < pd.nrows df)%nat ->
  nth_error mask i = Some b ->
  nth_error (fold_left (narrow df) filters mask) i
  = Some (b && forallb (row_ok df i) filters).
Proof.
  intros Hu Hi. revert mask b.
  induction filters as [|p rest IH]; intros mask b Hb; simpl.
  - now rewrite andb_true_r.
  - rewrite (IH _ _ (narrow_nth df mask p i b Hu Hi Hb)).
    now rewrite andb_assoc.
Qed.

Lemma narrow_length (df : pd.DataFrame) (mask : list bool)
      (p : string * pd.scalar) :
  uniform (pd.nrows df) df -> length mask = pd.nrows df ->
  length (narrow df mask p) = pd.nrows df.
Proof.
  intros Hu Hl. unfold narrow.
  destruct (predicate_mask df p) as [m|] eqn:Hm; [|assumption].
  rewrite length_zip_with, Hl, (predicate_mask_length _ _ _ Hu Hm). lia.
Qed.

Lemma fold_narrow_length (df : pd.DataFrame)
      (filters : list (string * pd.scalar)) (mask : list bool) :
  uniform (pd.nrows df) df -> length mask = pd.nrows df ->
  length (fold_left (narrow df) filters mask) = pd.nrows df.
Proof.
  intros Hu. revert mask. induction filters as [|p rest IH]; intros mask Hl;
    simpl; [assumption|].
  apply IH. now apply narrow_length.
Qed.

(** The mask the loop builds is the mask of the rows that pass every
    predicate. *)
Lemma fold_narrow_keep (df : pd.DataFrame)
      (filters : list (string * pd.scalar)) :
  uniform (pd.nrows df) df ->
  fold_left (narrow df) filters (repeat true (pd.nrows df))
  = keep_mask df filters.
Proof.
  intros Hu. apply nth_error_ext. intros i. unfold keep_mask.
  rewrite nth_error_map, nth_error_seq.
  destruct (Nat.ltb_spec i (pd.nrows df)) as [Hi|Hi]; simpl.
  - rewrite (fold_narrow_nth df filters _ i true Hu Hi).
    + reflexivity.
    + now apply nth_error_repeat.
  - apply nth_error_None.
    rewrite fold_narrow_length; [lia | assumption | apply repeat_length].
Qed.

Lemma forallb_Permutation {A : Type} (f : A -> bool) (l l' : list A) :
  Permutation l l' -> forallb f l = forallb f l'.
Proof.
  induction 1; simpl.
  - reflexivity.
  - now rewrite IHPermutation.
  - destruct (f x), (f y); reflexivity.
  - congruence.
Qed.

Lemma zip_and_idem (m a : list bool) :
  pd.zip_with andb (pd.zip_with andb m a) a = pd.zip_with andb m a.
Proof.
  revert a. induction m as [|b m IH]; intros [|x a]; simpl; try reflexivity.
  rewrite IH. f_equal. now destruct b, x.
Qed.

Lemma zip_and_swap (m a b : list bool) :
  pd.zip_with andb (pd.zip_with andb m a) b
  = pd.zip_with andb (pd.zip_with andb m b) a.
Proof.
  revert a b. induction m as [|x m IH]; intros [|y a] [|z b]; simpl;
    try reflexivity.
  rewrite IH. f_equal. now destruct x, y, z.
Qed.

Lemma narrow_idem (df : pd.DataFrame) (mask : list bool)
      (p : string * pd.scalar) :
  narrow df (narrow df mask p) p = narrow df mask p.
Proof.
  unfold narrow. destruct (predicate_mask df p); [apply zip_and_idem|].
  reflexivity.
Qed.

Lemma narrow_swap (df : pd.DataFrame) (mask : list bool)
      (p q : string * pd.scalar) :
  narrow df (narrow df mask p) q = narrow df (narrow df mask q) p.
Proof.
  unfold narrow.
  destruct (predicate_mask df p), (predicate_mask df q); try reflexivity.
  apply zip_and_swap.
Qed.

Lemma fold_narrow_commute (df : pd.DataFrame)
      (filters : list (string * pd.scalar)) (mask : list bool)
      (p : string * pd.scalar) :
  narrow df (fold_left (narrow df) filters mask) p
  = fold_left (narrow df) filters (narrow df mask p).
Proof.
  revert mask. induction filters as [|q rest IH]; intros mask; simpl;
    [reflexivity|].
  rewrite IH. now rewrite narrow_swap.
Qed.

(** A predicate already applied changes nothing when applied again. *)
Lemma fold_narrow_absorb (df : pd.DataFrame)
      (filters : list (string * pd.scalar)) (mask : list bool)
      (p : string * pd.scalar) :
  In p filters ->
  narrow df (fold_left (narrow df) filters mask) p
  = fold_left (narrow df) filters mask.
Proof.
  revert mask. induction filters as [|q rest IH]; intros mask Hin;
    [contradiction|].
  simpl. destruct Hin as [->|Hin].
  - rewrite fold_narrow_commute. now rewrite narrow_idem.
  - now apply IH.
Qed.

Lemma fold_narrow_twice (df : pd.DataFrame)
      (filters again : list (string * pd.scalar)) (mask : list bool) :
  incl again filters ->
  fold_left (narrow df) again (fold_left (narrow df) filters mask)
  = fold_left (narrow df) filters mask.
Proof.
  induction again as [|p rest IH]; intros Hincl; simpl; [reflexivity|].
  rewrite fold_narrow_absorb by (apply Hincl; now left).
  apply IH. intros x Hx. apply Hincl. now right.
Qed.

Lemma incidents_wf : pd.wf incidents.
Proof.
  split.
  - simpl. repeat constructor; simpl; intuition discriminate.
  - repeat constructor.
Defined.

(** Filtering on the year 1985 keeps the first two incidents; the mean
    survival rate of what is left is (0.8 + 0) / 2. *)
Example filter_year_1985 :
  apply_filters incidents [("Year", pd.SNum 1985); ("Country", pd.SStr "All")]
  = [ ("Year", pd.Float64 [Some 1985; Some 1985]);
      ("Aboard", pd.Float64 [Some 100; Some 50]);
      ("Fatalities (Air)", pd.Float64 [Some 20; Some 50]);
      ("Country", pd.Object [Some "USA"; Some "USA"]);
      ("Survival Rate", pd.Float64 [Some (80 # 100); Some 0]) ].
Proof. reflexivity. Qed.

Example filter_year_1985_mean :
  exists q,
    survival_rate object_reduce_raises
      (apply_filters incidents [("Year", pd.SNum 1985)])
    = Ok (VFloat (Some q))
    /\ q == 4 # 10.
Proof. eexists. split; [reflexivity | reflexivity]. Qed.

(** The text "1985" never equals a number of the Year column. *)
Example filter_year_text :
  pd.nrows (apply_filters incidents [("Year", pd.SStr "1985")]) = 0%nat.
Proof. reflexivity. Qed.

(** ** Claims about apply_filters *)

(** C6.  When every value of the predicate set is "All" the result is
    the input table itself: the same columns with the same rows in the
    same order. *)
Theorem apply_filters_all_wildcards (df : pd.DataFrame)
        (filters : list (string * pd.scalar))
        (Hall : forall p, In p filters -> snd p = pd.SStr "All") :
  apply_filters df filters = df.
Proof.
  unfold apply_filters. generalize (pd.columns df) as cols. intros cols.
  induction filters as [|[name value] rest IH]; simpl; [reflexivity|].
  pose proof (Hall (name, value) (or_introl eq_refl)) as Hv.
  simpl in Hv. subst value. simpl.
  apply IH. intros p Hp. apply Hall. now right.
Qed.

Lemma apply_filters_all_wildcards_witness :
  apply_filters incidents
    [("Year", pd.SStr "All"); ("Country", pd.SStr "All")] = incidents.
Proof.
  apply apply_filters_all_wildcards.
  intros p [<-|[<-|[]]]; reflexivity.
Defined.

(** C5.  Filtering is idempotent: applying the same predicate set to the
    filtered table gives the filtered table again. *)
Theorem apply_filters_idempotent (df : pd.DataFrame)
        (filters : list (string * pd.scalar)) (Hwf : pd.wf df) :
  apply_filters (apply_filters df filters) filters = apply_filters df filters.
Proof.
  pose proof (wf_uniform df Hwf) as Hu.
  rewrite (apply_filters_fold df filters Hu).
  unfold apply_filters. rewrite columns_loc, filter_loop_loc.
  f_equal. apply fold_narrow_twice. apply incl_refl.
Qed.

Lemma apply_filters_idempotent_witness :
  apply_filters
    (apply_filters incidents
       [("Year", pd.SNum 1985); ("Country", pd.SStr "USA")])
    [("Year", pd.SNum 1985); ("Country", pd.SStr "USA")]
  = apply_filters incidents
      [("Year", pd.SNum 1985); ("Country", pd.SStr "USA")].
Proof.
  apply apply_filters_idempotent. exact incidents_wf.
Defined.

Lemma row_ok_cell (df : pd.DataFrame) (i : nat) (p : string * pd.scalar)
      (s : pd.Series) :
  uniform (pd.nrows df) df -> (i < pd.nrows df)%nat ->
  active df p = true -> column df (fst p) = Ok s ->
  row_ok df i p = pd.cell_eqb (snd p) (nth i (pd.cells s) None).
Proof.
  intros Hu Hi Ha Hc. unfold row_ok, predicate_mask. rewrite Ha, Hc.
  unfold pd.eq.
  assert (Hl : (i < length (pd.cells s))%nat).
  { rewrite <- (uniform_len _ _ _ _ Hu Hc) in Hi.
    destruct s; simpl in *; now rewrite length_map. }
  rewrite (nth_indep _ true (pd.cell_eqb (snd p) None))
    by now rewrite length_map.
  apply map_nth.
Qed.

Lemma column_present (df : pd.DataFrame) (c : string) :
  NoDup (pd.columns df) -> In c (pd.columns df) ->
  exists s, column df c = Ok s.
Proof.
  intros Hnd Hin. apply in_map_iff in Hin.
  destruct Hin as [[c' s] [E Hin]]. simpl in E. subst c'.
  exists s. unfold column.
  pose proof (select_unique _ _ _ Hnd Hin) as H.
  apply getitem_series in H. now rewrite H.
Qed.

Lemma same_value_eqb (a b : pd.scalar) :
  same_value a b = pd.scalar_eqb a b.
Proof. destruct a, b; reflexivity. Qed.

Lemma column_cells_select (df : pd.DataFrame) (c : string) :
  column_cells df c
  = match pd.select c df with
    | [] => None
    | cs :: _ => Some (pd.cells (snd cs))
    end.
Proof.
  unfold pd.select. induction df as [|[c' s'] df IH]; simpl; [reflexivity|].
  destruct (String.eqb c' c); [reflexivity | exact IH].
Qed.

Lemma column_cells_column (df : pd.DataFrame) (c : string) (s : pd.Series) :
  column df c = Ok s -> column_cells df c = Some (pd.cells s).
Proof.
  intros Hc. unfold column in Hc.
  destruct (pd.getitem df c) as [[s'|sub]|e] eqn:Hg; simpl in Hc;
    try discriminate.
  injection Hc as ->. apply getitem_series in Hg.
  now rewrite column_cells_select, Hg.
Qed.

Lemma column_cells_absent (df : pd.DataFrame) (c : string) :
  ~ In c (pd.columns df) -> column_cells df c = None.
Proof.
  intros Hn. apply select_nil_iff in Hn.
  now rewrite column_cells_select, Hn.
Qed.

(** On the rows of a table the test of the specification and the mask
    of the program agree. *)
Lemma passes_row_ok (df : pd.DataFrame) (i : nat) (p : string * pd.scalar) :
  pd.wf df -> (i < pd.nrows df)%nat -> passes df i p = row_ok df i p.
Proof.
  intros Hwf Hi. pose proof (wf_uniform df Hwf) as Hu.
  destruct Hwf as [Hnd _]. unfold passes.
  assert (Hall : same_value (snd p) (pd.SStr "All") = is_all (snd p))
    by (destruct (snd p); reflexivity).
  rewrite Hall.
  destruct (active df p) eqn:Ha.
  - pose proof Ha as Ha'. unfold active in Ha'.
    apply andb_prop in Ha'. destruct Ha' as [Hv Hm].
    apply negb_true_iff in Hv. apply mem_true_iff in Hm.
    destruct (column_present df (fst p) Hnd Hm) as [s Hs].
    rewrite (row_ok_cell df i p s Hu Hi Ha Hs).
    rewrite Hv, (column_cells_column df (fst p) s Hs). simpl.
    destruct (nth i (pd.cells s) None) as [k|]; simpl; [|reflexivity].
    apply same_value_eqb.
  - unfold row_ok, predicate_mask. rewrite Ha.
    unfold active in Ha. apply andb_false_iff in Ha.
    destruct Ha as [Hv|Hm].
    + apply negb_false_iff in Hv. now rewrite Hv.
    + apply mem_false_iff in Hm.
      rewrite (column_cells_absent df (fst p) Hm). apply orb_true_r.
Qed.

(** Selecting by a mask computed row by row takes the cells at the
    positions where the test holds. *)
Lemma compress_filter_seq {A : Type} (f : nat -> bool) (d : A)
      (xs : list A) (a : nat) :
  pd.compress (map f (seq a (length xs))) xs
  = map (fun i => nth (i - a) xs d) (filter f (seq a (length xs))).
Proof.
  revert a. induction xs as [|x xs IH]; intros a; [reflexivity|].
  simpl.
  assert (Hrest : map (fun i => nth (i - S a) xs d)
                      (filter f (seq (S a) (length xs)))
                  = map (fun i => nth (i - a) (x :: xs) d)
                        (filter f (seq (S a) (length xs)))).
  { apply map_ext_in. intros i Hi. apply filter_In in Hi.
    destruct Hi as [Hi _]. apply in_seq in Hi.
    replace (i - a)%nat with (S (i - S a)) by lia. reflexivity. }
  destruct (f a); simpl.
  - rewrite Nat.sub_diag, IH, Hrest. reflexivity.
  - rewrite IH, Hrest. reflexivity.
Qed.

Lemma keep_mask_kept_rows (df : pd.DataFrame)
      (filters : list (string * pd.scalar)) (s : pd.Series) :
  pd.wf df -> pd.len s = pd.nrows df ->
  pd.compress (keep_mask df filters) (pd.cells s)
  = cells_at (kept_rows df filters) (pd.cells s).
Proof.
  intros Hwf Hlen. unfold keep_mask, kept_rows, cells_at.
  assert (Hl : pd.nrows df = length (pd.cells s)).
  { rewrite <- Hlen. destruct s; simpl; now rewrite length_map. }
  rewrite Hl at 1.
  rewrite (compress_filter_seq _ None). rewrite <- Hl.
  rewrite (map_ext (fun i => nth (i - 0) (pd.cells s) None)
                   (fun i => nth i (pd.cells s) None))
    by (intros i; now rewrite Nat.sub_0_r).
  f_equal. apply filter_ext_in. intros i Hi. apply in_seq in Hi.
  induction filters as [|p filters IH]; simpl; [reflexivity|].
  rewrite IH. f_equal. symmetry. apply passes_row_ok; [assumption|lia].
Qed.

(** C7.  The result has the columns of the table and, in every column,
    exactly the cells of the rows that pass every predicate, in table
    order; a row passes a predicate when the value is "All", or the
    table has no such column, or the cell of the row equals the value.
    So a row that fails one predicate is removed and a row that passes
    all of them is kept.  The result is the same for every order of
    the predicates, a predicate on an absent column can be dropped, and
    a predicate whose row selection raises is skipped by the loop,
    which goes on with the rest; on such a table the row selection of
    an existing column does not raise. *)
Theorem apply_filters_conjunction (df : pd.DataFrame)
        (filters : list (string * pd.scalar)) (Hwf : pd.wf df) :
  pd.columns (apply_filters df filters) = pd.columns df
  /\ (forall c s, In (c, s) df ->
        exists s', column (apply_filters df filters) c = Ok s'
                   /\ pd.cells s'
                      = cells_at (kept_rows df filters) (pd.cells s))
  /\ apply_filters df filters = pd.loc df (keep_mask df filters)
  /\ (forall i p s, (i < pd.nrows df)%nat -> active df p = true ->
                    column df (fst p) = Ok s ->
                    row_ok df i p
                    = pd.cell_eqb (snd p) (nth i (pd.cells s) None))
  /\ (forall i p, active df p = false -> row_ok df i p = true)
  /\ (forall filters', Permutation filters filters' ->
                       apply_filters df filters' = apply_filters df filters)
  /\ (forall name value, ~ In name (pd.columns df) ->
                         apply_filters df ((name, value) :: filters)
                         = apply_filters df filters)
  /\ (forall name value, In name (pd.columns df) ->
                         exists fdf, select_rows df name value = Ok fdf)
  /\ (forall step cols fdf name value rest e,
         step fdf name value = Raise e ->
         filter_loop step cols fdf ((name, value) :: rest)
         = filter_loop step cols fdf rest).
Proof.
  pose proof (wf_uniform df Hwf) as Hu.
  assert (Hchar : forall fs, apply_filters df fs = pd.loc df (keep_mask df fs)).
  { intros fs. rewrite (apply_filters_fold df fs Hu).
    now rewrite fold_narrow_keep. }
  split; [rewrite Hchar; apply columns_loc|].
  split.
  { intros c s Hin. destruct Hwf as [Hnd Hu'].
    assert (Hc : column df c = Ok s).
    { unfold column.
      rewrite (proj2 (getitem_series df c s) (select_unique df c s Hnd Hin)).
      reflexivity. }
    exists (pd.take (keep_mask df filters) s). split.
    - now rewrite Hchar, column_loc, Hc.
    - rewrite cells_take.
      apply keep_mask_kept_rows; [now split|].
      exact (uniform_len _ _ _ _ Hu Hc). }
  split; [apply Hchar|].
  split; [intros i p s Hi Ha Hc; now apply row_ok_cell|].
  split.
  { intros i p Ha. unfold row_ok, predicate_mask. now rewrite Ha. }
  split.
  { intros fs' Hperm. rewrite !Hchar. f_equal. unfold keep_mask.
    apply map_ext. intros i. symmetry. now apply forallb_Permutation. }
  split.
  { intros name value Hnot. unfold apply_filters. simpl.
    apply mem_false_iff in Hnot. rewrite Hnot. now rewrite andb_false_r. }
  split.
  { intros name value Hin. destruct Hwf as [Hnd _].
    destruct (column_present df name Hnd Hin) as [s Hs].
    unfold select_rows. rewrite Hs. simpl. eauto. }
  intros step cols fdf name value rest e He. simpl. rewrite He.
  now destruct (negb (is_all value) && pd.mem name cols).
Qed.

(** Of the three incidents the two of 1985 in the USA are kept, with
    their cells, whatever the order of the predicates; the predicate on
    the absent Operator column changes nothing. *)
Lemma apply_filters_conjunction_witness :
  (exists s',
      column (apply_filters incidents
                [("Country", pd.SStr "USA"); ("Operator", pd.SStr "Acme");
                 ("Year", pd.SNum 1985)]) "Fatalities (Air)" = Ok s'
      /\ pd.cells s' = [Some (pd.SNum 20); Some (pd.SNum 50)])
  /\ (exists s',
         column (apply_filters incidents [("Country", pd.SStr "UK")])
                "Year" = Ok s'
         /\ pd.cells s' = [Some (pd.SNum 1990)])
  /\ apply_filters incidents
       [("Year", pd.SNum 1985); ("Country", pd.SStr "USA");
        ("Operator", pd.SStr "Acme")]
     = apply_filters incidents
         [("Country", pd.SStr "USA"); ("Operator", pd.SStr "Acme");
          ("Year", pd.SNum 1985)].
Proof.
  destruct (apply_filters_conjunction incidents
              [("Country", pd.SStr "USA"); ("Operator", pd.SStr "Acme");
               ("Year", pd.SNum 1985)] incidents_wf)
    as (_ & Hrows & _ & _ & _ & Hperm & _).
  destruct (apply_filters_conjunction incidents
              [("Country", pd.SStr "UK")] incidents_wf)
    as (_ & Hrows' & _).
  split; [|split].
  - apply (Hrows "Fatalities (Air)" (pd.Float64 [Some 20; Some 50; Some 0])).
    right. right. left. reflexivity.
  - apply (Hrows' "Year" (pd.Float64 [Some 1985; Some 1985; Some 1990])).
    left. reflexivity.
  - apply Hperm.
    apply Permutation_sym.
    apply (Permutation_cons_append
             [("Country", pd.SStr "USA"); ("Operator", pd.SStr "Acme")]
             ("Year", pd.SNum 1985)).
Defined.

(** ** Aggregation: first maximum, distinct values, grouping *)

Section Argmax.
Context {K V : Type}.
Variable lt : V -> V -> bool.
(** [lt] is the strict part of a total preorder. *)
Hypothesis lt_below : forall a b c,
    lt a b = true -> lt c b = false -> lt c a = false.
Hypothesis ge_trans : forall a b c,
    lt a b = false -> lt c a = false -> lt c b = false.
Hypothesis lt_irrefl : forall a, lt a a = false.

Lemma argmax_spec (best : K * V) (l : list (K * V)) :
  exists kv, In kv (best :: l)
             /\ fst kv = pd.argmax lt best l
             /\ forall kv', In kv' (best :: l) ->
                            lt (snd kv) (snd kv') = false.
Proof.
  revert best. induction l as [|x l IH]; intros best.
  - exists best. simpl. repeat split; [now left|].
    intros kv' [<-|[]]. apply lt_irrefl.
  - simpl. destruct (lt (snd best) (snd x)) eqn:E.
    + destruct (IH x) as (kv & Hin & Hk & Hmax).
      exists kv. repeat split; [now right | assumption |].
      intros kv' [<-|Hin'].
      * apply (lt_below _ _ _ E). apply Hmax. now left.
      * now apply Hmax.
    + destruct (IH best) as (kv & Hin & Hk & Hmax).
      exists kv. repeat split.
      * destruct Hin as [<-|Hin]; [now left | now right; right].
      * assumption.
      * intros kv' [<-|[<-|Hin']].
        -- apply Hmax. now left.
        -- apply (ge_trans _ _ _ E). apply Hmax. now left.
        -- apply Hmax. now right.
Qed.
End Argmax.

Lemma scalar_eqb_refl (k : pd.scalar) : pd.scalar_eqb k k = true.
Proof. destruct k; simpl; [apply Qeq_bool_refl | apply String.eqb_refl]. Qed.

Lemma scalar_eqb_sym (a b : pd.scalar) :
  pd.scalar_eqb a b = pd.scalar_eqb b a.
Proof.
  destruct a, b; simpl; try reflexivity;
    [apply Qeq_bool_comm | apply String.eqb_sym].
Qed.

Lemma scalar_eqb_trans (a b c : pd.scalar) :
  pd.scalar_eqb a b = true -> pd.scalar_eqb b c = true ->
  pd.scalar_eqb a c = true.
Proof.
  destruct a, b, c; simpl; try discriminate.
  - apply Qeq_bool_trans.
  - intros H1 H2. apply String.eqb_eq in H1, H2. subst.
    apply String.eqb_refl.
Qed.

(** Equal keys compare alike with every third key. *)
Lemma scalar_eqb_congr (a b x : pd.scalar) :
  pd.scalar_eqb a b = true -> pd.scalar_eqb a x = pd.scalar_eqb b x.
Proof.
  intros H. destruct (pd.scalar_eqb b x) eqn:E.
  - now apply (scalar_eqb_trans a b x).
  - destruct (pd.scalar_eqb a x) eqn:E'; [|reflexivity].
    rewrite scalar_eqb_sym in H.
    rewrite (scalar_eqb_trans b a x H E') in E. discriminate.
Qed.

Lemma count_of_congr (a b : pd.scalar) (ks : list pd.scalar) :
  pd.scalar_eqb a b = true -> pd.count_of a ks = pd.count_of b ks.
Proof.
  intros H. unfold pd.count_of. f_equal. apply filter_ext.
  intros x. now apply scalar_eqb_congr.
Qed.

Lemma uniques_acc_keeps (ks acc : list pd.scalar) (k : pd.scalar) :
  In k acc -> In k (fold_left uniques_step ks acc).
Proof.
  revert acc. induction ks as [|x ks IH]; intros acc Hin; simpl;
    [assumption|].
  apply IH. unfold uniques_step.
  destruct (existsb (pd.scalar_eqb x) acc); [assumption|].
  apply in_or_app. now left.
Qed.

Lemma uniques_acc_from (ks acc : list pd.scalar) (k : pd.scalar) :
  In k (fold_left uniques_step ks acc) -> In k acc \/ In k ks.
Proof.
  revert acc. induction ks as [|x ks IH]; intros acc Hin; simpl in *;
    [now left|].
  apply IH in Hin. destruct Hin as [Hin|Hin]; [|now right; right].
  unfold uniques_step in Hin.
  destruct (existsb (pd.scalar_eqb x) acc); [now left|].
  apply in_app_or in Hin. destruct Hin as [Hin|[<-|[]]];
    [now left | now right; left].
Qed.

Lemma uniques_acc_covers (ks acc : list pd.scalar) (k : pd.scalar) :
  In k ks ->
  exists k0, In k0 (fold_left uniques_step ks acc)
             /\ pd.scalar_eqb k k0 = true.
Proof.
  revert acc. induction ks as [|x ks IH]; intros acc Hin; [contradiction|].
  simpl. destruct Hin as [->|Hin]; [|now apply IH].
  unfold uniques_step. destruct (existsb (pd.scalar_eqb k) acc) eqn:E.
  - apply existsb_exists in E. destruct E as (k0 & Hk0 & He).
    exists k0. split; [now apply uniques_acc_keeps | assumption].
  - exists k. split; [|apply scalar_eqb_refl].
    apply uniques_acc_keeps. apply in_or_app. right. now left.
Qed.

Lemma uniques_In (ks : list pd.scalar) (k : pd.scalar) :
  In k (pd.uniques ks) -> In k ks.
Proof.
  intros H. apply uniques_acc_from in H. now destruct H as [[]|H].
Qed.

Lemma uniques_covers (ks : list pd.scalar) (k : pd.scalar) :
  In k ks ->
  exists k0, In k0 (pd.uniques ks) /\ pd.scalar_eqb k k0 = true.
Proof. apply uniques_acc_covers. Qed.

Lemma insert_desc_In (x y : pd.scalar * nat) (l : list (pd.scalar * nat)) :
  In x (pd.insert_desc y l) <-> x = y \/ In x l.
Proof.
  induction l as [|z l IH]; simpl.
  - intuition.
  - destruct (snd z <=? snd y)%nat; simpl; [intuition|].
    rewrite IH. intuition.
Qed.

Lemma sort_desc_In (x : pd.scalar * nat) (l : list (pd.scalar * nat)) :
  In x (fold_right pd.insert_desc [] l) <-> In x l.
Proof.
  induction l as [|y l IH]; simpl; [tauto|].
  rewrite insert_desc_In, IH. intuition.
Qed.

Lemma insert_key_In (x y : pd.scalar) (l : list pd.scalar) :
  In x (pd.insert_key y l) <-> x = y \/ In x l.
Proof.
  induction l as [|z l IH]; simpl.
  - intuition.
  - destruct (pd.scalar_leb y z); simpl; [intuition|].
    rewrite IH. intuition.
Qed.

Lemma sort_keys_In (x : pd.scalar) (l : list pd.scalar) :
  In x (pd.sort_keys l) <-> In x l.
Proof.
  unfold pd.sort_keys. induction l as [|y l IH]; simpl; [tauto|].
  rewrite insert_key_In, IH. intuition.
Qed.

Lemma value_counts_In (s : pd.Series) (k : pd.scalar) (c : nat) :
  In (k, c) (pd.value_counts s)
  <-> In k (pd.uniques (pd.dropna (pd.cells s)))
      /\ c = pd.count_of k (pd.dropna (pd.cells s)).
Proof.
  unfold pd.value_counts. rewrite sort_desc_In, in_map_iff. split.
  - intros (k0 & E & Hin). inversion E; subst. now split.
  - intros [Hin ->]. now exists k.
Qed.

Lemma uniques_nil (ks : list pd.scalar) : pd.uniques ks = [] -> ks = [].
Proof.
  intros H. destruct ks as [|k ks]; [reflexivity|].
  destruct (uniques_covers (k :: ks) k (or_introl eq_refl)) as (k0 & Hin & _).
  rewrite H in Hin. destruct Hin.
Qed.

(** The first maximum of the value counts is a present value of
    maximal count; there is none only when nothing is present. *)
Lemma most_frequent_spec (s : pd.Series) :
  match pd.idxmax Nat.ltb (pd.value_counts s) with
  | Ok k =>
      In k (pd.dropna (pd.cells s))
      /\ forall k', In k' (pd.dropna (pd.cells s)) ->
                    (pd.count_of k' (pd.dropna (pd.cells s))
                     <= pd.count_of k (pd.dropna (pd.cells s)))%nat
  | Raise _ => pd.dropna (pd.cells s) = []
  end.
Proof.
  set (ks := pd.dropna (pd.cells s)).
  destruct (pd.value_counts s) as [|kv l] eqn:Hvc; simpl.
  - apply uniques_nil. fold ks.
    destruct (pd.uniques ks) as [|k u] eqn:Hu; [reflexivity|].
    assert (H : In (k, pd.count_of k ks) (pd.value_counts s)).
    { apply value_counts_In. fold ks. rewrite Hu. split; [now left|].
      reflexivity. }
    rewrite Hvc in H. destruct H.
  - assert (H1 : forall a b c : nat,
               (a <? b)%nat = true -> (c <? b)%nat = false ->
               (c <? a)%nat = false).
    { intros a b c Hab Hcb. apply Nat.ltb_lt in Hab.
      apply Nat.ltb_ge in Hcb. apply Nat.ltb_ge. lia. }
    assert (H2 : forall a b c : nat,
               (a <? b)%nat = false -> (c <? a)%nat = false ->
               (c <? b)%nat = false).
    { intros a b c Hab Hca. apply Nat.ltb_ge in Hab, Hca.
      apply Nat.ltb_ge. lia. }
    destruct (argmax_spec (K := pd.scalar) Nat.ltb H1 H2 Nat.ltb_irrefl kv l)
      as ([k c] & Hin & Hk & Hmax).
    + simpl in Hk. rewrite <- Hk. rewrite <- Hvc in Hin, Hmax.
      apply value_counts_In in Hin. fold ks in Hin. destruct Hin as [Hu ->].
      split; [now apply uniques_In|].
      intros k' Hk'. destruct (uniques_covers ks k' Hk') as (k0 & Hk0 & He).
      rewrite (count_of_congr k' k0 ks He).
      assert (H0 : In (k0, pd.count_of k0 ks) (pd.value_counts s)).
      { apply value_counts_In. now split. }
      specialize (Hmax _ H0). simpl in Hmax. now apply Nat.ltb_ge in Hmax.
Qed.

(** ** Claims about safe_groupby_operation *)

Lemma same_value_text (k : pd.scalar) (t : string) :
  same_value k (pd.SStr t) = true -> k = pd.SStr t.
Proof.
  destruct k as [q|u]; simpl; [discriminate|].
  intros H. apply String.eqb_eq in H. now subst.
Qed.

(** The count the program works with is the occurrence count. *)
Lemma occurrences_count (v : pd.scalar) (cells : list (option pd.scalar)) :
  occurrences v cells = pd.count_of v (pd.dropna cells).
Proof.
  unfold pd.count_of. induction cells as [|[k|] cells IH]; simpl;
    [reflexivity| |exact IH].
  rewrite same_value_eqb, (scalar_eqb_sym v k).
  destruct (pd.scalar_eqb k v); simpl; now rewrite IH.
Qed.

(** C4.  With operation 'count' the function returns the default when
    the table is empty or the column is absent.  Otherwise it returns a
    value of the column whose occurrence count, the number of cells
    that hold it, is the highest; when the column holds no value at all
    it returns the default.  In particular, when one value occurs 5
    times and the only other value 3 times, the value with 5
    occurrences is returned.  The result is determined by the cells of
    the column and the default: any other non-empty table with the
    same column gives the same result. *)
Theorem most_frequent_value
        (object_sum_max : pd.Series -> list (option string) -> res pd.scalar)
        (df : pd.DataFrame) (group_col : string)
        (value_col : option string) (default : pd.scalar)
        (Hwf : pd.wf df) :
  let r := safe_groupby_operation object_sum_max df group_col value_col
             "count" default in
  (pd.empty df = true \/ ~ In group_col (pd.columns df) -> r = default)
  /\ (pd.empty df = false -> In group_col (pd.columns df) ->
      exists s,
        column df group_col = Ok s
        /\ let cells := pd.cells s in
           ((forall k, ~ In (Some k) cells) -> r = default)
           /\ ((exists k, In (Some k) cells) ->
               In (Some r) cells
               /\ forall k', In (Some k') cells ->
                             (occurrences k' cells <= occurrences r cells)%nat)
           /\ (forall a b,
                  occurrences a cells = 5%nat ->
                  occurrences b cells = 3%nat ->
                  (forall k, In (Some k) cells ->
                             same_value k a = true \/ same_value k b = true) ->
                  same_value r a = true)
           /\ (forall df', pd.empty df' = false ->
                           column df' group_col = Ok s ->
                           safe_groupby_operation object_sum_max df'
                             group_col value_col "count" default = r)).
Proof.
  cbv zeta. unfold safe_groupby_operation. split.
  - intros [He|Hn].
    + now rewrite He.
    + apply mem_false_iff in Hn. rewrite Hn. now rewrite orb_true_r.
  - intros He Hin. destruct Hwf as [Hnd _].
    destruct (column_present df group_col Hnd Hin) as [s Hs].
    exists s. split; [assumption|].
    apply mem_true_iff in Hin. rewrite He, Hin. simpl.
    unfold safe_groupby_try. simpl. rewrite Hs. simpl.
    assert (Hsame : forall df', pd.empty df' = false ->
                                column df' group_col = Ok s ->
                                (if pd.empty df'
                                    || negb (pd.mem group_col (pd.columns df'))
                                 then default
                                 else match g <- column df' group_col ;;
                                            pd.idxmax Nat.ltb
                                              (pd.value_counts g) with
                                      | Ok r => r
                                      | Raise _ => default
                                      end)
                                = match pd.idxmax Nat.ltb
                                          (pd.value_counts s) with
                                  | Ok r => r
                                  | Raise _ => default
                                  end).
    { intros df' He' Hs'.
      assert (Hm : pd.mem group_col (pd.columns df') = true).
      { apply mem_true_iff.
        destruct (in_dec string_dec group_col (pd.columns df')) as [i|n];
          [assumption|].
        apply select_nil_iff in n. unfold column, pd.getitem in Hs'.
        rewrite n in Hs'. discriminate Hs'. }
      rewrite He', Hm, Hs'. reflexivity. }
    pose proof (most_frequent_spec s) as Hspec.
    destruct (pd.idxmax Nat.ltb (pd.value_counts s)) as [k|e].
    + destruct Hspec as [Hk Hmax].
      split.
      { intros Hnone. exfalso. apply (Hnone k). now apply dropna_In. }
      split.
      { intros _. split; [now apply dropna_In|].
        intros k' Hk'. rewrite !occurrences_count. apply Hmax.
        now apply dropna_In. }
      split; [|exact Hsame].
      intros a b Ha Hb Hab. rewrite same_value_eqb.
      rewrite occurrences_count in Ha, Hb.
      destruct (Hab k (proj1 (dropna_In _ _) Hk)) as [E|E];
        rewrite same_value_eqb in E; [assumption|].
      exfalso. unfold pd.count_of in Ha.
      destruct (filter (pd.scalar_eqb a) (pd.dropna (pd.cells s)))
        as [|x rest] eqn:Hf; [discriminate|].
      assert (Hx : In x (filter (pd.scalar_eqb a) (pd.dropna (pd.cells s))))
        by (rewrite Hf; now left).
      apply filter_In in Hx. destruct Hx as [Hx Hxa].
      rewrite scalar_eqb_sym in Hxa.
      pose proof (Hmax x Hx) as Hm.
      rewrite (count_of_congr x a), (count_of_congr k b) in Hm by assumption.
      unfold pd.count_of in Hm at 1. rewrite Hf, Ha, Hb in Hm. lia.
    + split; [reflexivity|].
      split.
      { intros (k & Hk). apply dropna_In in Hk. rewrite Hspec in Hk.
        destruct Hk. }
      split; [|exact Hsame].
      intros a b Ha _ _. rewrite occurrences_count, Hspec in Ha.
      discriminate.
Qed.

Lemma operators_wf : pd.wf operators.
Proof.
  split.
  - simpl. repeat constructor; simpl; intuition discriminate.
  - repeat constructor.
Defined.

Example most_frequent_operator :
  safe_groupby_operation object_sum_max_raises operators "Operator" None
    "count" (pd.SStr dash)
  = pd.SStr "Alpha".
Proof. reflexivity. Qed.

(** Among values of equal count the one met first in the column wins. *)
Example most_frequent_tie :
  safe_groupby_operation object_sum_max_raises
    [("Operator", pd.Object [Some "Beta"; Some "Alpha"; Some "Alpha";
                             Some "Beta"])]
    "Operator" None "count" (pd.SStr dash)
  = pd.SStr "Beta".
Proof. reflexivity. Qed.

Example most_frequent_nothing_present :
  safe_groupby_operation object_sum_max_raises
    [("Operator", pd.Object [None; None])]
    "Operator" None "count" (pd.SStr dash)
  = pd.SStr dash.
Proof. reflexivity. Qed.

(** On the eight incidents Alpha occurs 5 times and Beta 3 times:
    Alpha is returned. *)
Lemma most_frequent_value_witness :
  occurrences (pd.SStr "Alpha") (pd.cells (pd.Object
    [Some "Beta"; Some "Alpha"; Some "Alpha"; Some "Beta";
     Some "Alpha"; Some "Beta"; Some "Alpha"; Some "Alpha"])) = 5%nat
  /\ occurrences (pd.SStr "Beta") (pd.cells (pd.Object
       [Some "Beta"; Some "Alpha"; Some "Alpha"; Some "Beta";
        Some "Alpha"; Some "Beta"; Some "Alpha"; Some "Alpha"])) = 3%nat
  /\ safe_groupby_operation object_sum_max_raises operators "Operator" None
       "count" (pd.SStr dash)
     = pd.SStr "Alpha".
Proof.
  split; [reflexivity|]. split; [reflexivity|].
  destruct (proj2 (most_frequent_value object_sum_max_raises operators
                     "Operator" None (pd.SStr dash) operators_wf)
              eq_refl (or_introl eq_refl))
    as (s & Hs & _ & _ & H53 & _).
  injection Hs as <-.
  apply same_value_text.
  apply (H53 (pd.SStr "Alpha") (pd.SStr "Beta")).
  - reflexivity.
  - reflexivity.
  - intros k Hk. simpl in Hk.
    repeat (destruct Hk as [Hk|Hk];
            [injection Hk as <-; (now left) || (now right)|]).
    destruct Hk.
Defined.

Lemma group_sum_congr (a b : pd.scalar) (ks : list (option pd.scalar))
      (vs : list pd.float) :
  pd.scalar_eqb a b = true -> pd.group_sum a ks vs = pd.group_sum b ks vs.
Proof.
  intros H. revert vs. induction ks as [|x ks IH]; intros [|v vs]; simpl;
    try reflexivity.
  rewrite IH.
  assert (E : pd.cell_eqb a x = pd.cell_eqb b x).
  { destruct x as [k|]; simpl; [|reflexivity].
    rewrite (scalar_eqb_sym k a), (scalar_eqb_sym k b).
    now apply scalar_eqb_congr. }
  now rewrite E.
Qed.


Lemma Qlt_bool_false (a b : Q) : pd.Qlt_bool a b = false <-> b <= a.
Proof.
  unfold pd.Qlt_bool. rewrite negb_false_iff. apply Qle_bool_iff.
Qed.

Lemma Qlt_bool_true (a b : Q) : pd.Qlt_bool a b = true <-> a < b.
Proof.
  unfold pd.Qlt_bool. rewrite negb_true_iff. split.
  - intros H. apply Qnot_le_lt. intros C. apply Qle_bool_iff in C. congruence.
  - intros H. destruct (Qle_bool b a) eqn:E; [|reflexivity].
    apply Qle_bool_iff in E. lra.
Qed.

(** The first maximum of the group sums is a present key whose sum is
    maximal; the grouped result is empty only when no key is present. *)
Lemma sum_max_spec (g : pd.Series) (vs : list pd.float) :
  match pd.groupby_sum g vs with
  | [] => pd.dropna (pd.cells g) = []
  | result =>
      match pd.idxmax pd.Qlt_bool result with
      | Ok k =>
          In k (pd.dropna (pd.cells g))
          /\ forall k', In k' (pd.dropna (pd.cells g)) ->
                        pd.group_sum k' (pd.cells g) vs
                        <= pd.group_sum k (pd.cells g) vs
      | Raise _ => False
      end
  end.
Proof.
  unfold pd.groupby_sum.
  set (ks := pd.dropna (pd.cells g)).
  set (keys := pd.sort_keys (pd.uniques ks)).
  assert (Hkeys : forall k, In k keys <-> In k (pd.uniques ks)).
  { intros k. apply sort_keys_In. }
  destruct keys as [|k0 rest] eqn:Ek; simpl.
  - apply uniques_nil.
    destruct (pd.uniques ks) as [|k u]; [reflexivity|].
    exfalso. apply (proj2 (Hkeys k)). now left.
  - assert (H1 : forall a b c : Q,
               pd.Qlt_bool a b = true -> pd.Qlt_bool c b = false ->
               pd.Qlt_bool c a = false).
    { intros a b c Hab Hcb. apply Qlt_bool_true in Hab.
      apply Qlt_bool_false in Hcb. apply Qlt_bool_false. lra. }
    assert (H2 : forall a b c : Q,
               pd.Qlt_bool a b = false -> pd.Qlt_bool c a = false ->
               pd.Qlt_bool c b = false).
    { intros a b c Hab Hca. apply Qlt_bool_false in Hab, Hca.
      apply Qlt_bool_false. lra. }
    assert (H3 : forall a : Q, pd.Qlt_bool a a = false).
    { intros a. apply Qlt_bool_false. lra. }
    set (entry := fun k => (k, pd.group_sum k (pd.cells g) vs)).
    destruct (argmax_spec (K := pd.scalar) pd.Qlt_bool H1 H2 H3
                (entry k0) (map entry rest))
      as ([k c] & Hin & Hk & Hmax).
    simpl in Hk.
    change (entry k0) with (k0, pd.group_sum k0 (pd.cells g) vs) in Hk.
    rewrite <- Hk.
    change (entry k0 :: map entry rest) with (map entry (k0 :: rest))
      in Hin, Hmax.
    apply in_map_iff in Hin. destruct Hin as (k1 & E & Hin).
    unfold entry in E. inversion E; subst k1 c. clear E.
    split.
    + apply uniques_In. now apply Hkeys.
    + intros k' Hk'. destruct (uniques_covers ks k' Hk') as (k2 & Hk2 & He).
      rewrite (group_sum_congr k' k2 _ _ He).
      assert (Hin2 : In (entry k2) (map entry (k0 :: rest))).
      { apply in_map. now apply Hkeys. }
      specialize (Hmax _ Hin2). simpl in Hmax.
      now apply Qlt_bool_false in Hmax.
Qed.






(** ** main on the sample source *)

(** A year without incidents: the warning is shown and no page is
    rendered. *)
Example main_no_match :
  main sample_csv parse_digits
    (fun c _ => if String.eqb c "Year" then pd.SNum 2000 else pd.SStr "All")
    "Overview"
  = ([StMarkdown "Data Range | Filtered Records";
      StWarning
        "No data matches the current filters. Please adjust your selection."],
     None).
Proof. reflexivity. Qed.

Example main_overview :
  main sample_csv parse_digits
    (fun c _ => if String.eqb c "Year" then pd.SNum 1985 else pd.SStr "All")
    "Overview"
  = ([StMarkdown "Data Range | Filtered Records"; StPage "Overview" 2], None).
Proof. reflexivity. Qed.

(** ** Further properties of apply_filters *)

Lemma compress_length_le {A : Type} (m : list bool) (xs : list A) :
  (length (pd.compress m xs) <= length xs)%nat.
Proof.
  revert xs. induction m as [|b m IH]; intros [|x xs]; simpl; try lia.
  specialize (IH xs). destruct b; simpl; lia.
Qed.

Lemma compress_length_eq {A B : Type} (m : list bool) (xs : list A)
      (ys : list B) :
  length xs = length ys ->
  length (pd.compress m xs) = length (pd.compress m ys).
Proof.
  revert xs ys. induction m as [|b m IH]; intros [|x xs] [|y ys] H; simpl in *;
    try reflexivity; try discriminate.
  destruct b; simpl; [f_equal|]; apply IH; lia.
Qed.

Lemma len_take_le (m : list bool) (s : pd.Series) :
  (pd.len (pd.take m s) <= pd.len s)%nat.
Proof. destruct s; simpl; apply compress_length_le. Qed.

Lemma len_take_eq (m : list bool) (s t : pd.Series) :
  pd.len s = pd.len t -> pd.len (pd.take m s) = pd.len (pd.take m t).
Proof. destruct s, t; simpl; apply compress_length_eq. Qed.

Lemma nrows_loc_le (df : pd.DataFrame) (m : list bool) :
  (pd.nrows (pd.loc df m) <= pd.nrows df)%nat.
Proof. destruct df as [|[c s] df]; simpl; [lia | apply len_take_le]. Qed.

Lemma wf_loc (df : pd.DataFrame) (m : list bool) :
  pd.wf df -> pd.wf (pd.loc df m).
Proof.
  intros [Hnd Hu]. split; [now rewrite columns_loc|].
  destruct df as [|[c s] df]; [constructor|].
  simpl in *. unfold pd.loc. simpl. apply Forall_forall.
  intros [c' s'] Hin. simpl.
  change ((c, pd.take m s) :: map (fun cs => (fst cs, pd.take m (snd cs))) df)
    with (map (fun cs => (fst cs, pd.take m (snd cs))) ((c, s) :: df)) in Hin.
  apply in_map_iff in Hin. destruct Hin as ([c0 s0] & E & Hin0).
  inversion E; subst. rewrite Forall_forall in Hu.
  specialize (Hu _ Hin0). simpl in Hu. now apply len_take_eq.
Qed.


Lemma compress_none {A : Type} (m : list bool) (xs : list A) :
  Forall (fun b => b = false) m -> pd.compress m xs = [].
Proof.
  revert xs. induction m as [|b m IH]; intros [|x xs] H; simpl;
    try reflexivity.
  inversion H; subst. now apply IH.
Qed.

Lemma zip_and_none (m a : list bool) :
  Forall (fun b => b = false) a ->
  Forall (fun b => b = false) (pd.zip_with andb m a).
Proof.
  revert a. induction m as [|b m IH]; intros [|x a] H; simpl;
    try constructor.
  - inversion H; subst. apply andb_false_r.
  - inversion H; subst. now apply IH.
Qed.




(** X2.  Filtering in two steps is filtering once with both predicate
    sets: filters chosen one after the other on a filtered view give
    the same table as all of them applied to the full table. *)
Theorem apply_filters_compose (df : pd.DataFrame)
        (first second : list (string * pd.scalar)) (Hwf : pd.wf df) :
  apply_filters (apply_filters df first) second
  = apply_filters df (first ++ second).
Proof.
  pose proof (wf_uniform df Hwf) as Hu.
  rewrite (apply_filters_fold df first Hu).
  rewrite (apply_filters_fold df (first ++ second) Hu).
  unfold apply_filters. rewrite columns_loc, filter_loop_loc.
  now rewrite fold_left_app.
Qed.

Lemma apply_filters_compose_witness :
  apply_filters (apply_filters incidents [("Year", pd.SNum 1985)])
    [("Country", pd.SStr "USA")]
  = apply_filters incidents
      ([("Year", pd.SNum 1985)] ++ [("Country", pd.SStr "USA")]).
Proof. apply apply_filters_compose. exact incidents_wf. Defined.

(** X3.  Filtering keeps the schema and only removes rows: the result
    has the labels of the input in the same order, is again a frame
    with unique labels and columns of one length, and has at most as
    many rows as the input; a further predicate never adds rows. *)
Theorem apply_filters_narrows (df : pd.DataFrame)
        (filters : list (string * pd.scalar)) (p : string * pd.scalar)
        (Hwf : pd.wf df) :
  pd.columns (apply_filters df filters) = pd.columns df
  /\ pd.wf (apply_filters df filters)
  /\ (pd.nrows (apply_filters df filters) <= pd.nrows df)%nat
  /\ (pd.nrows (apply_filters df (filters ++ [p]))
      <= pd.nrows (apply_filters df filters))%nat.
Proof.
  pose proof (wf_uniform df Hwf) as Hu.
  assert (Hwf' : pd.wf (apply_filters df filters)).
  { rewrite (apply_filters_fold df filters Hu). now apply wf_loc. }
  repeat split; try apply Hwf'.
  - rewrite (apply_filters_fold df filters Hu). apply columns_loc.
  - rewrite (apply_filters_fold df filters Hu). apply nrows_loc_le.
  - assert (E : apply_filters df (filters ++ [p])
                = apply_filters (apply_filters df filters) [p]).
    { rewrite (apply_filters_fold df (filters ++ [p]) Hu).
      rewrite (apply_filters_fold df filters Hu).
      unfold apply_filters at 1. rewrite columns_loc, filter_loop_loc.
      now rewrite fold_left_app. }
    rewrite E.
    rewrite (apply_filters_fold (apply_filters df filters) [p]
               (wf_uniform _ Hwf')).
    apply nrows_loc_le.
Qed.

Lemma apply_filters_narrows_witness :
  pd.columns (apply_filters incidents [("Year", pd.SNum 1985)])
  = pd.columns incidents
  /\ pd.wf (apply_filters incidents [("Year", pd.SNum 1985)])
  /\ (pd.nrows (apply_filters incidents [("Year", pd.SNum 1985)])
      <= pd.nrows incidents)%nat
  /\ (pd.nrows (apply_filters incidents
                  ([("Year", pd.SNum 1985)] ++ [("Country", pd.SStr "UK")]))
      <= pd.nrows (apply_filters incidents [("Year", pd.SNum 1985)]))%nat.
Proof.
  apply (apply_filters_narrows incidents [("Year", pd.SNum 1985)]
           ("Country", pd.SStr "UK") incidents_wf).
Defined.

Lemma eq_kind_mismatch (s : pd.Series) (v : pd.scalar) :
  kind_mismatch s v = true -> Forall (fun b => b = false) (pd.eq s v).
Proof.
  unfold pd.eq. destruct s as [xs|xs], v as [q|t]; simpl; try discriminate;
    intros _; apply Forall_forall; intros b Hb;
    apply in_map_iff in Hb; destruct Hb as (x & <- & Hx);
    apply in_map_iff in Hx; destruct Hx as ([y|] & <- & _); reflexivity.
Qed.

Lemma nrows_loc_none (df : pd.DataFrame) (m : list bool) :
  Forall (fun b => b = false) m -> pd.nrows (pd.loc df m) = 0%nat.
Proof.
  intros H. destruct df as [|[c s] df]; [reflexivity|]. simpl.
  destruct s; simpl; now rewrite compress_none.
Qed.

(** X4.  A predicate whose value is text on a float64 column, or a
    number on an object column, matches no cell: the filtered table
    has no rows, whatever the other predicates are.  (This is why
    [main] converts the chosen year to an integer.) *)
Theorem apply_filters_kind_mismatch (df : pd.DataFrame)
        (filters : list (string * pd.scalar)) (p : string * pd.scalar)
        (s : pd.Series)
        (Hwf : pd.wf df) (Hin : In p filters) (Hactive : active df p = true)
        (Hcol : column df (fst p) = Ok s)
        (Hkind : kind_mismatch s (snd p) = true) :
  pd.nrows (apply_filters df filters) = 0%nat.
Proof.
  pose proof (wf_uniform df Hwf) as Hu.
  rewrite (apply_filters_fold df filters Hu).
  pose proof (fold_narrow_absorb df filters (repeat true (pd.nrows df)) p Hin)
    as Habs.
  unfold narrow at 1 in Habs. unfold predicate_mask in Habs.
  rewrite Hactive, Hcol in Habs.
  apply nrows_loc_none. rewrite <- Habs.
  apply zip_and_none. now apply eq_kind_mismatch.
Qed.

Lemma apply_filters_kind_mismatch_witness :
  pd.nrows (apply_filters incidents
              [("Country", pd.SStr "USA"); ("Year", pd.SStr "1985")])
  = 0%nat.
Proof.
  apply (apply_filters_kind_mismatch incidents
           [("Country", pd.SStr "USA"); ("Year", pd.SStr "1985")]
           ("Year", pd.SStr "1985")
           (pd.Float64 [Some 1985; Some 1985; Some 1990]) incidents_wf).
  - right. now left.
  - reflexivity.
  - reflexivity.
  - reflexivity.
Defined.

(** ** Further properties of safe_groupby_operation *)

(** X5.  Whatever the operation and the value column, the function
    returns either its default or a value that occurs in the group
    column: an unknown operation, a missing value column or an
    exception never produce anything else.  For a text value column
    this rests on [idxmax] returning a label of the grouped sums, that
    is, a group key. *)
Theorem safe_groupby_result_range
        (object_sum_max : pd.Series -> list (option string) -> res pd.scalar)
        (df : pd.DataFrame) (group_col : string)
        (value_col : option string) (operation : string)
        (default : pd.scalar) (Hwf : pd.wf df)
        (Hlabel : forall g ws k, object_sum_max g ws = Ok k ->
                                 In k (pd.dropna (pd.cells g))) :
  let r := safe_groupby_operation object_sum_max df group_col value_col
             operation default in
  r = default
  \/ exists s, column df group_col = Ok s
               /\ In r (pd.dropna (pd.cells s)).
Proof.
  cbv zeta. unfold safe_groupby_operation.
  destruct (pd.empty df || negb (pd.mem group_col (pd.columns df))) eqn:Hg;
    [now left|].
  apply orb_false_iff in Hg. destruct Hg as [_ Hg].
  apply negb_false_iff, mem_true_iff in Hg. destruct Hwf as [Hnd _].
  destruct (column_present df group_col Hnd Hg) as [s Hs].
  unfold safe_groupby_try. rewrite Hs.
  destruct (String.eqb operation "count").
  - cbn -[pd.idxmax pd.value_counts].
    pose proof (most_frequent_spec s) as Hspec.
    destruct (pd.idxmax Nat.ltb (pd.value_counts s)) as [k|e]; [|now left].
    right. exists s. now split.
  - destruct value_col as [vc|]; [|now left].
    destruct (String.eqb operation "sum_max" && given (Some vc)
              && pd.mem vc (pd.columns df)) eqn:Hc; [|now left].
    apply andb_prop in Hc. destruct Hc as [_ Hv]. apply mem_true_iff in Hv.
    destruct (column_present df vc Hnd Hv) as [v Hvs]. rewrite Hvs.
    cbn -[pd.idxmax pd.groupby_sum].
    destruct v as [vs|ws].
    + pose proof (sum_max_spec s vs) as Hspec.
      destruct (pd.groupby_sum s vs) as [|kv result]; [now left|].
      unfold pd.idxmax in Hspec |- *. cbv iota in Hspec |- *.
      right. exists s. split; [reflexivity | apply Hspec].
    + destruct (pd.dropna (pd.cells s)) as [|k0 ks] eqn:Hks; [now left|].
      destruct (object_sum_max s ws) as [k|e] eqn:Hk; [|now left].
      right. exists s. split; [reflexivity|].
      now apply (Hlabel s ws).
Qed.

Lemma object_sum_max_first_label (g : pd.Series) (ws : list (option string))
      (k : pd.scalar) :
  object_sum_max_first g ws = Ok k -> In k (pd.dropna (pd.cells g)).
Proof.
  unfold object_sum_max_first.
  destruct (pd.dropna (pd.cells g)) as [|k0 ks]; [discriminate|].
  intros [= <-]. now left.
Qed.

Lemma safe_groupby_result_range_witness :
  safe_groupby_operation object_sum_max_first incidents "Country"
    (Some "Country") "sum_max" (pd.SStr dash) = pd.SStr dash
  \/ exists s, column incidents "Country" = Ok s
               /\ In (safe_groupby_operation object_sum_max_first incidents
                        "Country" (Some "Country") "sum_max" (pd.SStr dash))
                     (pd.dropna (pd.cells s)).
Proof.
  apply (safe_groupby_result_range object_sum_max_first incidents "Country"
           (Some "Country") "sum_max" (pd.SStr dash) incidents_wf
           object_sum_max_first_label).
Defined.

Example sum_max_text_column :
  safe_groupby_operation object_sum_max_first incidents "Country"
    (Some "Country") "sum_max" (pd.SStr dash) = pd.SStr "USA"
  /\ safe_groupby_operation object_sum_max_raises incidents "Country"
       (Some "Country") "sum_max" (pd.SStr dash) = pd.SStr dash.
Proof. split; reflexivity. Qed.

(** ** Further properties of load_data *)

Lemma NoDup_snoc {A : Type} (l : list A) (x : A) :
  NoDup l -> ~ In x l -> NoDup (l ++ [x]).
Proof.
  intros Hnd Hx. apply Permutation_NoDup with (l := x :: l).
  - apply Permutation_cons_append.
  - now constructor.
Qed.

Lemma NoDup_columns_setitem (df : pd.DataFrame) (c : string) (s : pd.Series) :
  NoDup (pd.columns df) -> NoDup (pd.columns (pd.setitem df c s)).
Proof.
  intros Hnd. destruct (pd.mem c (pd.columns df)) eqn:Hm.
  - now rewrite columns_setitem_mem.
  - rewrite columns_setitem_new by assumption.
    apply NoDup_snoc; [assumption | now apply mem_false_iff].
Qed.

(** The labels after an assignment: the same, or one more at the end. *)
Lemma columns_setitem_cases (df : pd.DataFrame) (c : string) (s : pd.Series) :
  (In c (pd.columns df) /\ pd.columns (pd.setitem df c s) = pd.columns df)
  \/ (~ In c (pd.columns df)
      /\ pd.columns (pd.setitem df c s) = pd.columns df ++ [c]).
Proof.
  destruct (pd.mem c (pd.columns df)) eqn:Hm.
  - left. split; [now apply mem_true_iff | now apply columns_setitem_mem].
  - right. split; [now apply mem_false_iff | now apply columns_setitem_new].
Qed.

Lemma month_lookup (q : Q) :
  option_map snd
    (find (fun kv : Z * string => Qeq_bool q (inject_Z (fst kv))) month_names)
  = month_name_of (Some q).
Proof.
  unfold month_name_of. cbv zeta.
  destruct (Qeq_bool q (inject_Z (Qfloor q))) eqn:Hint.
  - apply Qeq_bool_iff in Hint.
    assert (Hk : forall k, Qeq_bool q (inject_Z k) = Z.eqb (Qfloor q) k).
    { intros k. destruct (Z.eqb_spec (Qfloor q) k) as [<-|Hne].
      - now apply Qeq_bool_iff.
      - destruct (Qeq_bool q (inject_Z k)) eqn:E; [|reflexivity].
        apply Qeq_bool_iff in E. exfalso. apply Hne.
        rewrite E. apply Qfloor_Z. }
    unfold month_names. cbn [find fst]. rewrite !Hk.
    generalize (Qfloor q) as z. intros z. cbn [andb].
    repeat match goal with
           | |- context [Z.eqb z ?k] =>
               destruct (Z.eqb_spec z k) as [->|?]; [reflexivity|]
           end.
    cbn [option_map].
    destruct (Z.leb_spec 1 z), (Z.leb_spec z 12); try reflexivity. lia.
  - assert (Hk : forall k, Qeq_bool q (inject_Z k) = false).
    { intros k. destruct (Qeq_bool q (inject_Z k)) eqn:E; [|reflexivity].
      apply Qeq_bool_iff in E. rewrite <- Hint. symmetry.
      apply Qeq_bool_iff. rewrite E at 2. rewrite Qfloor_Z. exact E. }
    unfold month_names. cbn [find fst]. rewrite !Hk. reflexivity.
Qed.

Lemma map_dict_month_nth (ms : list pd.float) (i : nat) (m : pd.float) :
  nth_error ms i = Some m ->
  exists names,
    pd.map_dict month_names (pd.Float64 ms) = pd.Object names
    /\ length names = length ms
    /\ nth_error names i = Some (month_name_of m).
Proof.
  intros Hm.
  exists (map (fun x : pd.float =>
                 match x with
                 | Some q =>
                     option_map snd
                       (find (fun kv : Z * string =>
                                Qeq_bool q (inject_Z (fst kv))) month_names)
                 | None => None
                 end) ms).
  split; [reflexivity|]. split; [apply length_map|].
  rewrite nth_error_map. rewrite Hm. cbn [option_map]. f_equal.
  destruct m as [q|]; [apply month_lookup | reflexivity].
Qed.

Lemma month_name_of_in_order (m : pd.float) (name : string) :
  month_name_of m = Some name -> In name month_order.
Proof.
  unfold month_name_of. destruct m as [q|]; [|discriminate].
  cbv zeta.
  destruct (Qeq_bool q (inject_Z (Qfloor q)) && (1 <=? Qfloor q)%Z
            && (Qfloor q <=? 12)%Z); [|discriminate].
  apply nth_error_In.
Qed.

Section LoadStages.
Variable parse_number : string -> option Q.

Lemma uniform_coerce_cols (n : nat) (cols : list string) (df : pd.DataFrame) :
  uniform n df -> uniform n (coerce_cols parse_number cols df).
Proof.
  unfold uniform, coerce_cols. intros H. apply Forall_map.
  eapply Forall_impl; [|exact H]. intros [c s] Hs. simpl in *.
  destruct (pd.mem c cols); simpl; [now rewrite len_coerce | assumption].
Qed.

(** The month-name step either leaves the frame alone or appends the
    mapped Month column. *)
Lemma add_month_name_stage (df : pd.DataFrame) :
  NoDup (pd.columns df) ->
  (add_month_name df = Ok df
   /\ (In "Month Name" (pd.columns df) \/ ~ In "Month" (pd.columns df)))
  \/ (exists m, ~ In "Month Name" (pd.columns df)
                /\ column df "Month" = Ok m
                /\ add_month_name df
                   = Ok (pd.setitem df "Month Name"
                           (pd.map_dict month_names m))).
Proof.
  intros Hnd. unfold add_month_name.
  destruct (pd.mem "Month Name" (pd.columns df)) eqn:Hmn; simpl.
  - left. split; [reflexivity|]. left. now apply mem_true_iff.
  - destruct (pd.mem "Month" (pd.columns df)) eqn:Hm.
    + right. apply mem_true_iff in Hm.
      destruct (column_present df "Month" Hnd Hm) as [m Hcol].
      exists m. rewrite Hcol. simpl.
      split; [now apply mem_false_iff|]. now split.
    + left. split; [reflexivity|]. right. now apply mem_false_iff.
Qed.

(** The survival-rate step either leaves the frame alone or assigns a
    float64 column of the common length. *)
Lemma add_survival_rate_stage (n : nat) (df : pd.DataFrame) :
  uniform n df ->
  (forall c, In c ["Aboard"; "Fatalities (Air)"] -> In c (pd.columns df) ->
             exists xs, float_column df c xs) ->
  (add_survival_rate df = Ok df
   /\ ~ (In "Aboard" (pd.columns df)
         /\ In "Fatalities (Air)" (pd.columns df)))
  \/ exists sr, length sr = n
                /\ Forall (within 0 1) sr
                /\ add_survival_rate df
                   = Ok (pd.setitem df "Survival Rate" (pd.Float64 sr)).
Proof.
  intros Hu Hf. unfold add_survival_rate.
  destruct (forallb (fun c => pd.mem c (pd.columns df))
              ["Aboard"; "Fatalities (Air)"]) eqn:Hboth.
  2:{ left. split; [reflexivity|]. intros [Ha Hb].
      apply mem_true_iff in Ha, Hb. simpl in Hboth.
      rewrite Ha, Hb in Hboth. discriminate. }
  right. simpl in Hboth. rewrite andb_true_r in Hboth.
  apply andb_prop in Hboth. destruct Hboth as [Ha Hb].
  apply mem_true_iff in Ha, Hb.
  destruct (Hf "Aboard") as [ab Hab]; [simpl; tauto | assumption |].
  destruct (Hf "Fatalities (Air)") as [ft Hft]; [simpl; tauto | assumption |].
  rewrite (column_float _ _ _ Hab), (column_float _ _ _ Hft). simpl.
  pose proof (float_column_len _ _ _ _ Hu Hab) as Lab.
  pose proof (float_column_len _ _ _ _ Hu Hft) as Lft.
  eexists. split; [|split; [|reflexivity]].
  - unfold pd.where_nan. rewrite !length_zip_with, !length_map.
    rewrite length_zip_with. lia.
  - apply Forall_forall. intros x Hx.
    apply In_nth_error in Hx. destruct Hx as [i Hi].
    assert (Hlt : (i < n)%nat).
    { assert (Hs : nth_error
                     (pd.where_nan
                        (pd.zip_with andb (map (fun x => pd.fgt x 0) ab)
                           (map pd.fnotna ft))
                        (map (pd.frsub 1)
                           (map (pd.fclip 0 1) (pd.zip_with pd.fdiv ft ab))))
                     i <> None) by congruence.
      apply nth_error_Some in Hs. unfold pd.where_nan in Hs.
      rewrite !length_zip_with, !length_map in Hs.
      rewrite length_zip_with in Hs. lia. }
    destruct (nth_error ab i) as [a|] eqn:Ea;
      [|apply nth_error_None in Ea; lia].
    destruct (nth_error ft i) as [f|] eqn:Ef;
      [|apply nth_error_None in Ef; lia].
    rewrite (survival_column_nth ab ft i a f Ea Ef) in Hi.
    inversion Hi as [Hx]. unfold within.
    destruct (survival_cell a f) as [r|] eqn:Er; [|exact I].
    destruct (survival_cell_value _ _ _ Er) as (qa & qf & _ & _ & _ & _ & Hb').
    exact Hb'.
Qed.

(** The stages of a load whose headers do not collide. *)
Lemma load_stages (read_csv : string -> res pd.DataFrame) (path : string)
      (df0 : pd.DataFrame) :
  read_csv path = Ok df0 -> pd.wf df0 ->
  NoDup (map (pd.relabel rename_map) (pd.columns df0)) ->
  let df2 := coerce_cols parse_number numeric_cols
               (pd.rename rename_map df0) in
  exists df3 df4,
    load_data read_csv parse_number path = (df4, [])
    /\ NoDup (pd.columns df2) /\ uniform (pd.nrows df0) df2
    /\ pd.columns df2 = map (pd.relabel rename_map) (pd.columns df0)
    /\ ((df3 = df2
         /\ (In "Month Name" (pd.columns df2) \/ ~ In "Month" (pd.columns df2)))
        \/ exists m, ~ In "Month Name" (pd.columns df2)
                     /\ column df2 "Month" = Ok m
                     /\ df3 = pd.setitem df2 "Month Name"
                                (pd.map_dict month_names m))
    /\ NoDup (pd.columns df3) /\ uniform (pd.nrows df0) df3
    /\ ((df4 = df3
         /\ ~ (In "Aboard" (pd.columns df3)
               /\ In "Fatalities (Air)" (pd.columns df3)))
        \/ exists sr, length sr = pd.nrows df0
                      /\ Forall (within 0 1) sr
                      /\ df4 = pd.setitem df3 "Survival Rate" (pd.Float64 sr))
    /\ NoDup (pd.columns df4) /\ uniform (pd.nrows df0) df4.
Proof.
  intros Hread Hwf Hcanon df2.
  pose proof (wf_uniform df0 Hwf) as Hu0.
  set (df1 := pd.rename rename_map df0) in *.
  assert (Hc1 : pd.columns df1 = map (pd.relabel rename_map) (pd.columns df0))
    by apply columns_rename.
  assert (Hnd1 : NoDup (pd.columns df1)) by now rewrite Hc1.
  assert (Hc2 : pd.columns df2 = pd.columns df1)
    by apply columns_coerce_cols.
  assert (Hnd2 : NoDup (pd.columns df2)) by now rewrite Hc2.
  assert (Hu2 : uniform (pd.nrows df0) df2).
  { apply uniform_coerce_cols. now apply uniform_rename. }
  assert (Hm3 : exists df3,
             add_month_name df2 = Ok df3
             /\ ((df3 = df2
                  /\ (In "Month Name" (pd.columns df2)
                      \/ ~ In "Month" (pd.columns df2)))
                 \/ exists m, ~ In "Month Name" (pd.columns df2)
                              /\ column df2 "Month" = Ok m
                              /\ df3 = pd.setitem df2 "Month Name"
                                         (pd.map_dict month_names m))).
  { destruct (add_month_name_stage df2 Hnd2) as [[E H]|(m & Hn & Hcol & E)].
    - exists df2. split; [assumption|]. left. now split.
    - eexists. split; [exact E|]. right. exists m. now repeat split. }
  destruct Hm3 as (df3 & E3 & Hcase3).
  assert (Hnd3 : NoDup (pd.columns df3)).
  { destruct Hcase3 as [[-> _]|(m & _ & _ & ->)]; [assumption|].
    now apply NoDup_columns_setitem. }
  assert (Hu3 : uniform (pd.nrows df0) df3).
  { destruct Hcase3 as [[-> _]|(m & _ & Hcol & ->)]; [assumption|].
    apply uniform_setitem; [assumption|]. rewrite len_map_dict.
    now apply (uniform_len _ df2 "Month"). }
  assert (Hsel3 : forall c, c <> "Month Name" ->
                            pd.select c df3 = pd.select c df2).
  { intros c Hc. destruct Hcase3 as [[-> _]|(m & _ & _ & ->)];
      [reflexivity|]. now apply select_setitem_other. }
  assert (Hf3 : forall c, In c ["Aboard"; "Fatalities (Air)"] ->
                          In c (pd.columns df3) ->
                          exists xs, float_column df3 c xs).
  { intros c Hc Hin.
    assert (Hne : c <> "Month Name").
    { simpl in Hc. intros ->.
      repeat (destruct Hc as [Hc|Hc]; [discriminate Hc|]). exact Hc. }
    assert (Hin2 : In c (pd.columns df2)).
    { destruct (in_dec string_dec c (pd.columns df2)) as [i|ni];
        [assumption|].
      apply select_nil_iff in ni. rewrite <- Hsel3 in ni by assumption.
      apply select_nil_iff in ni. contradiction. }
    destruct (coerce_cols_float parse_number numeric_cols df1 c) as [xs Hxs].
    - assumption.
    - simpl in Hc. unfold numeric_cols. simpl. tauto.
    - now rewrite <- Hc2.
    - exists xs. unfold float_column in *. fold df2 in Hxs.
      now rewrite Hsel3. }
  assert (Hc20 : pd.columns df2
                 = map (pd.relabel rename_map) (pd.columns df0))
    by (now rewrite Hc2).
  destruct (add_survival_rate_stage _ df3 Hu3 Hf3)
    as [[E4 Hno4]|(sr & Lsr & Hsr & E4)].
  - exists df3, df3. split.
    { unfold load_data, load_data_try. rewrite Hread. cbn [bind].
      rewrite rename_present. fold df1.
      rewrite convert_loop_exact by assumption. cbn [bind]. fold df2.
      rewrite E3. cbn [bind]. rewrite E4. reflexivity. }
    do 6 (split; [assumption|]).
    split; [left; now split|]. now split.
  - exists df3, (pd.setitem df3 "Survival Rate" (pd.Float64 sr)). split.
    { unfold load_data, load_data_try. rewrite Hread. cbn [bind].
      rewrite rename_present. fold df1.
      rewrite convert_loop_exact by assumption. cbn [bind]. fold df2.
      rewrite E3. cbn [bind]. rewrite E4. reflexivity. }
    do 6 (split; [assumption|]).
    split; [right; exists sr; now repeat split|].
    split; [now apply NoDup_columns_setitem | now apply uniform_setitem].
Qed.
End LoadStages.

(** The labels of the loaded frame: the relabelled source labels in
    their order, followed by the derived columns that were appended. *)
Lemma load_labels (df2 df3 df4 : pd.DataFrame) (n : nat) :
  ((df3 = df2
    /\ (In "Month Name" (pd.columns df2) \/ ~ In "Month" (pd.columns df2)))
   \/ exists m, ~ In "Month Name" (pd.columns df2)
                /\ column df2 "Month" = Ok m
                /\ df3 = pd.setitem df2 "Month Name"
                           (pd.map_dict month_names m)) ->
  ((df4 = df3
    /\ ~ (In "Aboard" (pd.columns df3)
          /\ In "Fatalities (Air)" (pd.columns df3)))
   \/ exists sr, length sr = n
                 /\ Forall (within 0 1) sr
                 /\ df4 = pd.setitem df3 "Survival Rate" (pd.Float64 sr)) ->
  exists derived,
    pd.columns df4 = pd.columns df2 ++ derived
    /\ incl derived ["Month Name"; "Survival Rate"].
Proof.
  intros H3 H4.
  assert (E3 : exists d3, pd.columns df3 = pd.columns df2 ++ d3
                          /\ incl d3 ["Month Name"]).
  { destruct H3 as [[-> _]|(m & Hn & _ & ->)].
    - exists []. split; [now rewrite app_nil_r | intros x []].
    - exists ["Month Name"]. split; [|apply incl_refl].
      apply columns_setitem_new. now apply mem_false_iff. }
  destruct E3 as (d3 & Hc3 & Hd3).
  destruct H4 as [[-> _]|(sr & _ & _ & ->)].
  - exists d3. split; [assumption|].
    intros x Hx. apply Hd3 in Hx. simpl in *. tauto.
  - destruct (columns_setitem_cases df3 "Survival Rate" (pd.Float64 sr))
      as [[_ E]|[_ E]]; rewrite E, Hc3.
    + exists d3. split; [reflexivity|].
      intros x Hx. apply Hd3 in Hx. simpl in *. tauto.
    + exists (d3 ++ ["Survival Rate"]). split; [now rewrite app_assoc|].
      intros x Hx. apply in_app_or in Hx. destruct Hx as [Hx|Hx].
      * apply Hd3 in Hx. simpl in *. tauto.
      * simpl in *. tauto.
Qed.

(** X6.  When the source is read and no two headers stand for the same
    canonical name, [load_data] shows nothing and returns a frame with
    unique labels and columns of one length that has exactly the rows
    of the source; its labels are the relabelled source labels in
    source order, followed by those of Month Name and Survival Rate
    that had to be appended. *)
Theorem load_data_well_formed
        (read_csv : string -> res pd.DataFrame)
        (parse_number : string -> option Q) (path : string)
        (df0 : pd.DataFrame)
        (Hread : read_csv path = Ok df0) (Hwf : pd.wf df0)
        (Hcanon : NoDup (map (pd.relabel rename_map) (pd.columns df0))) :
  exists df derived,
    load_data read_csv parse_number path = (df, [])
    /\ pd.wf df
    /\ pd.nrows df = pd.nrows df0
    /\ pd.columns df
       = map (pd.relabel rename_map) (pd.columns df0) ++ derived
    /\ incl derived ["Month Name"; "Survival Rate"].
Proof.
  destruct (load_stages parse_number read_csv path df0 Hread Hwf Hcanon)
    as (df3 & df4 & Hload & _ & _ & Hc2 & H3 & _ & _ & H4 & Hnd4 & Hu4).
  destruct (load_labels _ _ _ _ H3 H4) as (derived & Hc4 & Hd).
  rewrite Hc2 in Hc4.
  assert (Hn : pd.nrows df4 = pd.nrows df0).
  { destruct df4 as [|cs df4'] eqn:E.
    - simpl in Hc4. symmetry in Hc4. apply app_eq_nil in Hc4.
      destruct Hc4 as [Hc4 _]. apply map_eq_nil in Hc4.
      unfold pd.columns in Hc4. apply map_eq_nil in Hc4. now subst df0.
    - apply uniform_nrows; [assumption | discriminate]. }
  exists df4, derived. repeat split; try assumption.
  now rewrite Hn.
Qed.

Lemma load_data_well_formed_witness :
  exists df derived,
    load_data sample_csv parse_digits DATA_PATH = (df, [])
    /\ pd.wf df
    /\ pd.nrows df = pd.nrows sample_frame
    /\ pd.columns df
       = map (pd.relabel rename_map) (pd.columns sample_frame) ++ derived
    /\ incl derived ["Month Name"; "Survival Rate"].
Proof.
  apply (load_data_well_formed sample_csv parse_digits DATA_PATH sample_frame).
  - reflexivity.
  - exact sample_frame_wf.
  - simpl. repeat constructor; simpl; intuition discriminate.
Defined.

(** X7.  When the source has a Month column (under either header) and
    no Month Name column, the loaded frame gets a Month Name column
    whose cell, for every record, is the calendar name of the coerced
    month number: the entry of the calendar for a whole number from 1
    to 12, missing for any other number and for a missing month.  Every
    name it holds is one of the twelve of the calendar. *)
Theorem load_data_month_name
        (read_csv : string -> res pd.DataFrame)
        (parse_number : string -> option Q) (path : string)
        (df0 : pd.DataFrame) (c : string) (s : pd.Series)
        (Hread : read_csv path = Ok df0) (Hwf : pd.wf df0)
        (Hcanon : NoDup (map (pd.relabel rename_map) (pd.columns df0)))
        (Hmonth : In (c, s) df0) (Hc : pd.relabel rename_map c = "Month")
        (Hnone : ~ In "Month Name"
                   (map (pd.relabel rename_map) (pd.columns df0))) :
  exists ms names,
    pd.coerce parse_number s = pd.Float64 ms
    /\ pd.getitem (fst (load_data read_csv parse_number path)) "Month Name"
       = Ok (pd.ItemSeries (pd.Object names))
    /\ length names = length ms
    /\ (forall i m, nth_error ms i = Some m ->
                    nth_error names i = Some (month_name_of m))
    /\ (forall name, In (Some name) names -> In name month_order).
Proof.
  destruct (load_stages parse_number read_csv path df0 Hread Hwf Hcanon)
    as (df3 & df4 & Hload & Hnd2 & _ & Hc2 & H3 & Hnd3 & _ & H4 & _ & _).
  rewrite Hload. cbn [fst].
  destruct (coerce_float parse_number s) as [ms Hms].
  set (df2 := coerce_cols parse_number numeric_cols
                (pd.rename rename_map df0)) in *.
  assert (Hin2 : In ("Month", pd.Float64 ms) df2).
  { rewrite <- Hms.
    assert (Hin1 : In (pd.relabel rename_map c, s) (pd.rename rename_map df0)).
    { unfold pd.rename. apply in_map_iff. exists (c, s). now split. }
    apply (coerce_cols_In parse_number numeric_cols) in Hin1.
    rewrite Hc in Hin1. exact Hin1. }
  assert (Hcol : column df2 "Month" = Ok (pd.Float64 ms)).
  { unfold column. pose proof (select_unique _ _ _ Hnd2 Hin2) as H.
    apply getitem_series in H. now rewrite H. }
  rewrite <- Hc2 in Hnone.
  set (names := map (fun x : pd.float =>
                       match x with
                       | Some q =>
                           option_map snd
                             (find (fun kv : Z * string =>
                                      Qeq_bool q (inject_Z (fst kv)))
                                   month_names)
                       | None => None
                       end) ms).
  assert (Hnth : forall i m, nth_error ms i = Some m ->
                             nth_error names i = Some (month_name_of m)).
  { intros i m Hm. unfold names. rewrite nth_error_map, Hm. cbn [option_map].
    f_equal. destruct m as [q|]; [apply month_lookup | reflexivity]. }
  exists ms, names. split; [assumption|]. split.
  - assert (Hsel3 : pd.select "Month Name" df3
                    = [("Month Name", pd.Object names)]).
    { destruct H3 as [[_ [Hin|Hno]]|(m & _ & Hm & ->)].
      - contradiction.
      - exfalso. apply Hno. now apply (in_map fst) in Hin2.
      - rewrite Hcol in Hm. inversion Hm; subst m.
        apply select_setitem_same. now apply select_NoDup. }
    apply getitem_series.
    destruct H4 as [[-> _]|(sr & _ & _ & ->)]; [assumption|].
    now rewrite select_setitem_other by discriminate.
  - split; [apply length_map|]. split; [assumption|].
    intros name Hin. apply In_nth_error in Hin. destruct Hin as [i Hi].
    assert (Hlt : (i < length ms)%nat).
    { assert (Hl : length names = length ms) by apply length_map.
      rewrite <- Hl. apply nth_error_Some. congruence. }
    destruct (nth_error ms i) as [m|] eqn:Hm.
    + rewrite (Hnth i m Hm) in Hi. inversion Hi.
      now apply (month_name_of_in_order m).
    + apply nth_error_None in Hm. lia.
Qed.

Lemma monthly_frame_wf : pd.wf monthly_frame.
Proof.
  split.
  - simpl. repeat constructor; simpl; intuition discriminate.
  - repeat constructor.
Defined.

Example monthly_frame_names :
  pd.getitem (fst (load_data monthly_csv parse_digits DATA_PATH)) "Month Name"
  = Ok (pd.ItemSeries (pd.Object [Some "March"; None; None; None])).
Proof. reflexivity. Qed.

Lemma load_data_month_name_witness :
  exists ms names,
    pd.coerce parse_digits
      (pd.Object [Some "3"; Some "13"; None; Some "March"]) = pd.Float64 ms
    /\ pd.getitem (fst (load_data monthly_csv parse_digits DATA_PATH))
         "Month Name"
       = Ok (pd.ItemSeries (pd.Object names))
    /\ length names = length ms
    /\ (forall i m, nth_error ms i = Some m ->
                    nth_error names i = Some (month_name_of m))
    /\ (forall name, In (Some name) names -> In name month_order).
Proof.
  apply (load_data_month_name monthly_csv parse_digits DATA_PATH
           monthly_frame "month").
  - reflexivity.
  - exact monthly_frame_wf.
  - simpl. repeat constructor; simpl; intuition discriminate.
  - now left.
  - reflexivity.
  - simpl. intuition discriminate.
Defined.

(** ** Further properties of main *)

(** X8.  [main] needs a Year column: when the source is read, is not
    empty and none of its headers is year or Year, the load succeeds
    and the filters are built, but the header line asks for the Year
    column and the run ends with an uncaught KeyError: neither the
    record count, the no-match warning nor a page is shown. *)
Theorem main_missing_year
        (read_csv : string -> res pd.DataFrame)
        (parse_number : string -> option Q)
        (selected : string -> pd.DataFrame -> pd.scalar) (page : string)
        (df0 : pd.DataFrame)
        (Hread : read_csv DATA_PATH = Ok df0) (Hwf : pd.wf df0)
        (Hcanon : NoDup (map (pd.relabel rename_map) (pd.columns df0)))
        (Hrows : pd.empty df0 = false)
        (Hyear : ~ In "year" (pd.columns df0) /\ ~ In "Year" (pd.columns df0)) :
  main read_csv parse_number selected page = ([], Some (KeyError "Year")).
Proof.
  destruct (load_stages parse_number read_csv DATA_PATH df0 Hread Hwf Hcanon)
    as (df3 & df4 & Hload & _ & _ & Hc2 & H3 & _ & _ & H4 & Hnd4 & Hu4).
  destruct (load_labels _ _ _ _ H3 H4) as (derived & Hc4 & Hd).
  rewrite Hc2 in Hc4.
  unfold pd.empty in Hrows. apply orb_false_iff in Hrows.
  destruct Hrows as [Hlen Hn]. apply Nat.eqb_neq in Hlen, Hn.
  assert (Hne : df4 <> []).
  { intros ->. simpl in Hc4. symmetry in Hc4. apply app_eq_nil in Hc4.
    destruct Hc4 as [Hc4 _]. apply map_eq_nil in Hc4.
    unfold pd.columns in Hc4. apply map_eq_nil in Hc4. now subst df0. }
  assert (Hempty : pd.empty df4 = false).
  { unfold pd.empty. apply orb_false_iff. split; apply Nat.eqb_neq.
    - destruct df4; [congruence | discriminate].
    - now rewrite (uniform_nrows _ _ Hu4 Hne). }
  assert (Hno : ~ In "Year" (pd.columns df4)).
  { rewrite Hc4. intros Hin. apply in_app_or in Hin.
    destruct Hin as [Hin|Hin].
    - apply in_map_iff in Hin. destruct Hin as (c & Hc & Hin).
      unfold pd.relabel in Hc.
      destruct (pd.dict_get rename_map c) as [v|] eqn:E.
      + subst v. apply dict_get_In in E. simpl in E.
        destruct Hyear as [Hy1 Hy2].
        repeat (destruct E as [E|E];
                [inversion E; subst; contradiction || discriminate|]).
        exact E.
      + subst c. now destruct Hyear.
    - apply Hd in Hin. simpl in Hin.
      repeat (destruct Hin as [Hin|Hin]; [discriminate Hin|]). exact Hin. }
  unfold main. rewrite Hload, Hempty.
  apply select_nil_iff in Hno. unfold column, pd.getitem. rewrite Hno.
  reflexivity.
Qed.

Lemma main_missing_year_witness :
  main monthly_csv parse_digits (fun _ _ => pd.SStr "All") "Overview"
  = ([], Some (KeyError "Year")).
Proof.
  apply (main_missing_year monthly_csv parse_digits
           (fun _ _ => pd.SStr "All") "Overview" monthly_frame).
  - reflexivity.
  - exact monthly_frame_wf.
  - simpl. repeat constructor; simpl; intuition discriminate.
  - reflexivity.
  - simpl. intuition discriminate.
Defined.

(** ** Further properties of safe_metric_calculation *)

Lemma Qsum_bounds (lo hi : Q) (qs : list Q) :
  (forall q, In q qs -> lo <= q <= hi) ->
  lo * inject_Z (Z.of_nat (length qs)) <= Qsum qs
  /\ Qsum qs <= hi * inject_Z (Z.of_nat (length qs)).
Proof.
  induction qs as [|q qs IH]; intros H.
  - change (inject_Z (Z.of_nat (length (@nil Q)))) with 0.
    change (Qsum []) with 0. split; lra.
  - assert (Hq : lo <= q <= hi) by (apply H; now left).
    destruct IH as [IH1 IH2]; [intros x Hx; apply H; now right|].
    assert (E : inject_Z (Z.of_nat (length (q :: qs)))
                == inject_Z (Z.of_nat (length qs)) + 1).
    { simpl length. rewrite Nat2Z.inj_succ. unfold Z.succ.
      rewrite inject_Z_plus. reflexivity. }
    rewrite E. simpl Qsum. split; nra.
Qed.

Lemma dropna_within (lo hi : Q) (xs : list pd.float) :
  Forall (within lo hi) xs -> forall q, In q (pd.dropna xs) -> lo <= q <= hi.
Proof.
  induction xs as [|[r|] xs IH]; intros H q Hq; simpl in Hq.
  - destruct Hq.
  - inversion H; subst. destruct Hq as [<-|Hq]; [assumption | now apply IH].
  - inversion H; subst. now apply IH.
Qed.

Lemma fmean_within (lo hi : Q) (xs : list pd.float) :
  Forall (within lo hi) xs -> within lo hi (pd.fmean xs).
Proof.
  intros H. unfold pd.fmean.
  destruct (pd.fcount xs) as [|k] eqn:Hc; [exact I|].
  unfold within.
  destruct (Qsum_bounds lo hi (pd.dropna xs) (dropna_within lo hi xs H))
    as [H1 H2].
  rewrite <- fcount_spec, Hc in H1, H2. rewrite fsum_spec.
  assert (Hpos : 0 < inject_Z (Z.of_nat (S k))).
  { change 0 with (inject_Z 0). rewrite <- Zlt_Qlt. lia. }
  split.
  - apply Qle_shift_div_l; assumption.
  - apply Qle_shift_div_r; assumption.
Qed.

Lemma safe_metric_mean_within
      (object_reduce : string -> list (option string) -> res value)
      (xs : list pd.float) (lo hi : Q) (default : value) :
  Forall (within lo hi) xs ->
  safe_metric_calculation object_reduce (pd.Float64 xs) "mean" default
  = default
  \/ exists q,
      safe_metric_calculation object_reduce (pd.Float64 xs) "mean" default
      = VFloat (Some q)
      /\ lo <= q <= hi.
Proof.
  intros Hxs. unfold safe_metric_calculation.
  destruct ((pd.len (pd.Float64 xs) =? 0)%nat || pd.isna_all (pd.Float64 xs))
    eqn:Hu; [now left|].
  right. unfold safe_metric_try. simpl String.eqb. cbn [series_mean].
  pose proof (fmean_within lo hi xs Hxs) as Hm.
  destruct (pd.fmean xs) as [q|] eqn:Eq.
  - exists q. now split.
  - exfalso. unfold pd.fmean in Eq.
    destruct (pd.fcount xs) eqn:Hc; [|discriminate].
    rewrite fcount_spec in Hc.
    assert (Hd : pd.dropna xs = []) by (now destruct (pd.dropna xs)).
    apply unavailable_float in Hd. simpl pd.len in Hu. congruence.
Qed.

(** X9.  The mean lies between the bounds of the data: when every
    non-missing entry of a float64 series is between [lo] and [hi], the
    mean the function returns is a number between [lo] and [hi], unless
    it returns the default because nothing is present. *)
Theorem safe_metric_mean_bounds
        (object_reduce : string -> list (option string) -> res value)
        (xs : list pd.float) (lo hi : Q) (default : value)
        (Hxs : Forall (within lo hi) xs) :
  safe_metric_calculation object_reduce (pd.Float64 xs) "mean" default
  = default
  \/ exists q,
      safe_metric_calculation object_reduce (pd.Float64 xs) "mean" default
      = VFloat (Some q)
      /\ lo <= q <= hi.
Proof.
  unfold safe_metric_calculation.
  destruct ((pd.len (pd.Float64 xs) =? 0)%nat || pd.isna_all (pd.Float64 xs))
    eqn:Hu; [now left|].
  right. unfold safe_metric_try. simpl String.eqb. cbn [series_mean].
  pose proof (fmean_within lo hi xs Hxs) as Hm.
  destruct (pd.fmean xs) as [q|] eqn:Eq.
  - exists q. now split.
  - exfalso. unfold pd.fmean in Eq.
    destruct (pd.fcount xs) eqn:Hc; [|discriminate].
    rewrite fcount_spec in Hc.
    assert (Hd : pd.dropna xs = []) by (now destruct (pd.dropna xs)).
    apply unavailable_float in Hd. simpl pd.len in Hu. congruence.
Qed.

Lemma safe_metric_mean_bounds_witness :
  safe_metric_calculation object_reduce_raises
    (pd.Float64 [Some (1 # 2); None; Some 1]) "mean" VNone = VNone
  \/ exists q,
      safe_metric_calculation object_reduce_raises
        (pd.Float64 [Some (1 # 2); None; Some 1]) "mean" VNone
      = VFloat (Some q)
      /\ 0 <= q <= 1.
Proof.
  apply (safe_metric_mean_bounds object_reduce_raises
           [Some (1 # 2); None; Some 1] 0 1 VNone).
  repeat constructor; simpl; lra.
Defined.

Lemma compress_Forall {A : Type} (P : A -> Prop) (m : list bool)
      (xs : list A) :
  Forall P xs -> Forall P (pd.compress m xs).
Proof.
  revert xs. induction m as [|b m IH]; intros [|x xs] H; simpl;
    try constructor.
  inversion H; subst. destruct b; [constructor; [assumption|]|]; now apply IH.
Qed.

Lemma columns_setitem_In (df : pd.DataFrame) (c c' : string) (s : pd.Series) :
  In c' (pd.columns df) -> In c' (pd.columns (pd.setitem df c s)).
Proof.
  intros H. destruct (columns_setitem_cases df c s) as [[_ E]|[_ E]];
    rewrite E; [assumption|]. apply in_or_app. now left.
Qed.

(** ** Further properties of the overview figures *)

(** X10.  For a table loaded from a source that has the Aboard and
    Fatalities (Air) columns, and then filtered in any way, the mean
    survival rate of the overview page is either unavailable or a
    number between 0 and 1. *)
Theorem survival_rate_kpi_range
        (read_csv : string -> res pd.DataFrame)
        (parse_number : string -> option Q)
        (object_reduce : string -> list (option string) -> res value)
        (path : string) (df0 : pd.DataFrame)
        (filters : list (string * pd.scalar))
        (Hread : read_csv path = Ok df0) (Hwf : pd.wf df0)
        (Hcanon : NoDup (map (pd.relabel rename_map) (pd.columns df0)))
        (Haboard : In "Aboard" (map (pd.relabel rename_map) (pd.columns df0)))
        (Hfatal : In "Fatalities (Air)"
                     (map (pd.relabel rename_map) (pd.columns df0))) :
  let fdf := apply_filters (fst (load_data read_csv parse_number path))
               filters in
  survival_rate object_reduce fdf = Ok VNone
  \/ exists q, survival_rate object_reduce fdf = Ok (VFloat (Some q))
               /\ 0 <= q <= 1.
Proof.
  destruct (load_stages parse_number read_csv path df0 Hread Hwf Hcanon)
    as (df3 & df4 & Hload & _ & _ & Hc2 & H3 & Hnd3 & _ & H4 & Hnd4 & Hu4).
  rewrite Hload. cbn [fst]. cbv zeta.
  rewrite <- Hc2 in Haboard, Hfatal.
  assert (Hin3 : forall c,
             In c (pd.columns
                     (coerce_cols parse_number numeric_cols
                        (pd.rename rename_map df0))) ->
             In c (pd.columns df3)).
  { intros c Hin. destruct H3 as [[-> _]|(m & _ & _ & ->)]; [assumption|].
    now apply columns_setitem_In. }
  destruct H4 as [[_ Hno]|(sr & Lsr & Hsr & ->)].
  { exfalso. apply Hno. split; now apply Hin3. }
  set (df4 := pd.setitem df3 "Survival Rate" (pd.Float64 sr)) in *.
  assert (Hsel : pd.select "Survival Rate" df4
                 = [("Survival Rate", pd.Float64 sr)]).
  { apply select_setitem_same. now apply select_NoDup. }
  assert (Hne : df4 <> []).
  { intros E. rewrite E in Hsel. discriminate. }
  assert (Hu : uniform (pd.nrows df4) df4).
  { now rewrite (uniform_nrows _ _ Hu4 Hne). }
  rewrite (apply_filters_fold df4 filters Hu).
  set (M := fold_left (narrow df4) filters (repeat true (pd.nrows df4))).
  unfold survival_rate, pd.get, pd.getitem.
  rewrite select_loc, Hsel. cbn [pd.loc map fst snd pd.take metric_of].
  destruct (safe_metric_mean_within object_reduce (pd.compress M sr) 0 1 VNone)
    as [E|(q & E & Hq)].
  - now apply compress_Forall.
  - left. now rewrite E.
  - right. exists q. now rewrite E.
Qed.

Lemma survival_rate_kpi_range_witness :
  let fdf := apply_filters (fst (load_data sample_csv parse_digits DATA_PATH))
               [("Year", pd.SNum 1985)] in
  survival_rate object_reduce_raises fdf = Ok VNone
  \/ exists q, survival_rate object_reduce_raises fdf = Ok (VFloat (Some q))
               /\ 0 <= q <= 1.
Proof.
  apply (survival_rate_kpi_range sample_csv parse_digits object_reduce_raises
           DATA_PATH sample_frame [("Year", pd.SNum 1985)]).
  - reflexivity.
  - exact sample_frame_wf.
  - simpl. repeat constructor; simpl; intuition discriminate.
  - simpl. tauto.
  - simpl. tauto.
Defined.

(** ** Properties of the sidebar *)

Lemma digit_ok (d : Z) :
  (0 <= d < 10)%Z ->
  is_digit (py.digit d) = true
  /\ (Z.of_nat (nat_of_ascii (py.digit d)) - 48 = d)%Z.
Proof.
  intros Hd. unfold py.digit, is_digit.
  assert (Hn : (Z.to_nat d < 10)%nat) by lia.
  rewrite nat_ascii_embedding by lia. split.
  - apply andb_true_intro. split; apply Nat.leb_le; lia.
  - lia.
Qed.

Lemma digits_value_cons (c : ascii) (s : string) (a : Z) :
  digits_value (String c s) a
  = if is_digit c
    then digits_value s (10 * a + (Z.of_nat (nat_of_ascii c) - 48))%Z
    else None.
Proof. reflexivity. Qed.

Lemma digits_S (fuel : nat) (n : Z) (acc : string) :
  py.digits (S fuel) n acc
  = if (n <? 10)%Z then String (py.digit (n mod 10)) acc
    else py.digits fuel (n / 10) (String (py.digit (n mod 10)) acc).
Proof. reflexivity. Qed.

Lemma all_digits_cons (c : ascii) (s : string) :
  py.all_digits (String c s) = is_digit c && py.all_digits s.
Proof. reflexivity. Qed.

Lemma digits_value_digits (fuel : nat) (n : Z) (acc : string) :
  (0 <= n)%Z -> (Z.to_nat n < fuel)%nat ->
  exists k : Z,
    (0 <= k)%Z
    /\ forall a, digits_value (py.digits fuel n acc) a
                 = digits_value acc (a * 10 ^ k + n)%Z.
Proof.
  revert n acc. induction fuel as [|fuel IH]; intros n acc Hn Hf; [lia|].
  assert (Hmod : (0 <= n mod 10 < 10)%Z) by (apply Z.mod_pos_bound; lia).
  destruct (digit_ok _ Hmod) as [Hd Hv].
  rewrite digits_S. destruct (Z.ltb_spec n 10) as [Hlt|Hge].
  - exists 1%Z. split; [lia|]. intros a. rewrite digits_value_cons.
    rewrite Hd, Hv. rewrite Z.mod_small by lia. f_equal. lia.
  - assert (Hdiv : (0 <= n / 10 < n)%Z).
    { split; [apply Z.div_pos; lia | apply Z.div_lt; lia]. }
    destruct (IH (n / 10)%Z (String (py.digit (n mod 10)) acc))
      as (k & Hk & Hval); [lia | lia |].
    exists (k + 1)%Z. split; [lia|]. intros a. rewrite Hval.
    rewrite digits_value_cons. rewrite Hd, Hv. f_equal.
    rewrite Z.pow_add_r by lia.
    pose proof (Z.div_mod n 10) as Hdm. lia.
Qed.

Lemma all_digits_digits (fuel : nat) (n : Z) (acc : string) :
  py.all_digits (py.digits fuel n acc) = py.all_digits acc.
Proof.
  revert n acc. induction fuel as [|fuel IH]; intros n acc; [reflexivity|].
  assert (Hmod : (0 <= n mod 10 < 10)%Z) by (apply Z.mod_pos_bound; lia).
  destruct (digit_ok _ Hmod) as [Hd _].
  rewrite digits_S. destruct (n <? 10)%Z.
  - rewrite all_digits_cons. now rewrite Hd.
  - rewrite IH. rewrite all_digits_cons. now rewrite Hd.
Qed.

Lemma digits_head (fuel : nat) (n : Z) (acc : string) :
  exists d rest, (0 <= d < 10)%Z
                 /\ py.digits (S fuel) n acc = String (py.digit d) rest.
Proof.
  revert n acc. induction fuel as [|fuel IH]; intros n acc.
  - exists (n mod 10)%Z, acc. split; [apply Z.mod_pos_bound; lia|].
    rewrite digits_S. now destruct (n <? 10)%Z.
  - rewrite digits_S. destruct (n <? 10)%Z.
    + exists (n mod 10)%Z, acc. split; [apply Z.mod_pos_bound; lia|].
      reflexivity.
    + apply IH.
Qed.

(** Printing a year and reading it back. *)
Lemma str_int_nonneg (y : Z) :
  (0 <= y)%Z ->
  py.isdigit (py.str_int y) = true /\ py.int (py.str_int y) = Some y.
Proof.
  intros Hy. unfold py.str_int.
  destruct (Z.ltb_spec y 0) as [Hneg|_]; [lia|]. split.
  - destruct (digits_head (Z.to_nat y) y "") as (d & rest & Hd & E).
    unfold py.isdigit. rewrite E. rewrite <- E.
    now rewrite all_digits_digits.
  - unfold py.int.
    destruct (digits_value_digits (S (Z.to_nat y)) y "" Hy) as (k & _ & H);
      [lia|].
    rewrite H. cbn [digits_value]. f_equal; lia.
Qed.

Lemma str_int_neg (y : Z) :
  (y < 0)%Z -> py.isdigit (py.str_int y) = false.
Proof.
  intros Hy. unfold py.str_int.
  destruct (Z.ltb_spec y 0) as [_|Hge]; [|lia]. reflexivity.
Qed.

Lemma str_int_not_all (y : Z) : py.str_int y <> "All".
Proof.
  unfold py.str_int. destruct (y <? 0)%Z; [discriminate|].
  destruct (digits_head (Z.to_nat y) y "") as (d & rest & Hd & E).
  rewrite E. intros H. injection H as Hc _.
  destruct (digit_ok d Hd) as [Hdig _]. rewrite Hc in Hdig. discriminate.
Qed.

Lemma insert_int_In (x y : Z) (l : list Z) :
  In x (py.insert_int y l) <-> x = y \/ In x l.
Proof.
  induction l as [|z l IH]; simpl.
  - intuition.
  - destruct (y <=? z)%Z; simpl; [intuition|]. rewrite IH. intuition.
Qed.

Lemma sorted_int_In (x : Z) (l : list Z) :
  In x (py.sorted_int l) <-> In x l.
Proof.
  unfold py.sorted_int. induction l as [|y l IH]; simpl; [tauto|].
  rewrite insert_int_In, IH. intuition.
Qed.

Lemma numbers_In (q : Q) (ks : list pd.scalar) :
  In q (numbers ks) <-> In (pd.SNum q) ks.
Proof.
  induction ks as [|[r|t] ks IH]; simpl.
  - tauto.
  - rewrite IH. split; intros [H|H]; auto; left; congruence.
  - rewrite IH. split; [auto | intros [H|H]; [discriminate | assumption]].
Qed.

Lemma cells_float_In (q : Q) (xs : list pd.float) :
  In (Some (pd.SNum q)) (pd.cells (pd.Float64 xs)) <-> In (Some q) xs.
Proof.
  simpl. rewrite in_map_iff. split.
  - intros ([r|] & E & Hin); simpl in E; [|discriminate].
    inversion E; subst. assumption.
  - intros Hin. exists (Some q). now split.
Qed.

Lemma cells_object_In (t : string) (xs : list (option string)) :
  In (Some (pd.SStr t)) (pd.cells (pd.Object xs)) <-> In (Some t) xs.
Proof.
  simpl. rewrite in_map_iff. split.
  - intros ([r|] & E & Hin); simpl in E; [|discriminate].
    inversion E; subst. assumption.
  - intros Hin. exists (Some t). now split.
Qed.

(** Truncation does not depend on how the fraction is written. *)
Lemma trunc_floor_ceiling (q : Q) :
  trunc q = if (0 <=? Qnum q)%Z then Qfloor q else Qceiling q.
Proof.
  unfold trunc, Qceiling, Qfloor. destruct q as [n d]. simpl.
  destruct (Z.leb_spec 0 n) as [Hn|Hn].
  - apply Z.quot_div_nonneg; lia.
  - rewrite <- (Z.opp_involutive n) at 1. rewrite Z.quot_opp_l by lia.
    f_equal. apply Z.quot_div_nonneg; lia.
Qed.

Lemma trunc_comp (p q : Q) : p == q -> trunc p = trunc q.
Proof.
  intros H. rewrite !trunc_floor_ceiling.
  assert (Hs : (0 <=? Qnum p)%Z = (0 <=? Qnum q)%Z).
  { unfold Qeq in H. destruct (Z.leb_spec 0 (Qnum p)), (Z.leb_spec 0 (Qnum q));
      try reflexivity; exfalso; nia. }
  rewrite Hs. destruct (0 <=? Qnum q)%Z; now rewrite H.
Qed.

Lemma trunc_inject (y : Z) : trunc (inject_Z y) = y.
Proof. unfold trunc. simpl. apply Z.quot_1_r. Qed.

Lemma year_filter_value_str (y : Z) :
  ((0 <= y)%Z -> year_filter_value (py.str_int y) = pd.SNum (inject_Z y))
  /\ ((y < 0)%Z -> year_filter_value (py.str_int y) = pd.SStr "All").
Proof.
  unfold year_filter_value. split; intros Hy.
  - destruct (str_int_nonneg y Hy) as [Hd Hi]. rewrite Hd, Hi.
    destruct (String.eqb_spec (py.str_int y) "All") as [E|_]; [|reflexivity].
    exfalso. now apply (str_int_not_all y).
  - rewrite (str_int_neg y Hy). now rewrite andb_false_r.
Qed.

Lemma year_options_In (years : list pd.float) (o : string) :
  In o (year_options years) ->
  o = "All" \/ exists q, In (Some q) years /\ o = py.str_int (trunc q).
Proof.
  unfold year_options. intros [<-|Hin]; [now left|]. right.
  apply in_map_iff in Hin. destruct Hin as (y & <- & Hy).
  apply (proj1 (sorted_int_In _ _)) in Hy. apply in_map_iff in Hy.
  destruct Hy as (q & <- & Hq). exists q. split; [|reflexivity].
  apply (proj1 (numbers_In _ _)) in Hq. apply uniques_In in Hq.
  apply (proj1 (dropna_In _ _)) in Hq.
  now apply (proj1 (cells_float_In _ _)).
Qed.

(** X11.  Every option of the year box is "All" or the text of the
    truncated value of a year that occurs.  The Year entry of the
    filters is that year as a number when the year is not negative:
    printing it and reading it back gives the same integer.  For a
    negative year the text is not a digit string and the entry is
    "All", so choosing it does not filter.  Every year that occurs is
    offered. *)
Theorem year_option_value (years : list pd.float) :
  (forall o, In o (year_options years) ->
     (o = "All" /\ year_filter_value o = pd.SStr "All")
     \/ exists q,
         In (Some q) years /\ o = py.str_int (trunc q)
         /\ ((0 <= trunc q)%Z ->
             year_filter_value o = pd.SNum (inject_Z (trunc q)))
         /\ ((trunc q < 0)%Z -> year_filter_value o = pd.SStr "All"))
  /\ (forall q, In (Some q) years ->
                In (py.str_int (trunc q)) (year_options years)).
Proof.
  split.
  - intros o Hin. destruct (year_options_In years o Hin) as [->|(q & Hq & ->)].
    + left. now split.
    + right. exists q. split; [assumption|]. split; [reflexivity|].
      apply year_filter_value_str.
  - intros q Hq. unfold year_options. right. apply in_map.
    apply sorted_int_In.
    apply (proj2 (cells_float_In _ _)) in Hq.
    apply (proj2 (dropna_In _ _)) in Hq.
    destruct (uniques_covers _ _ Hq) as ([r|t] & Hk & He); simpl in He;
      [|discriminate].
    apply Qeq_bool_iff in He. rewrite (trunc_comp q r He).
    apply in_map. now apply (proj2 (numbers_In _ _)).
Qed.

Lemma year_option_value_witness :
  In (py.str_int (trunc 1985))
     (year_options [Some 1985; Some (-5 # 1); None; Some 1985])
  /\ year_filter_value "1985" = pd.SNum 1985
  /\ year_filter_value "-5" = pd.SStr "All".
Proof.
  split; [|split].
  - apply (proj2 (year_option_value
                    [Some 1985; Some (-5 # 1); None; Some 1985])).
    now left.
  - reflexivity.
  - reflexivity.
Defined.

Example year_options_sample :
  year_options [Some 1985; Some (-5 # 1); None; Some 1990; Some 1985]
  = ["All"; "-5"; "1985"; "1990"].
Proof. vm_compute. reflexivity. Qed.

Lemma len_cells (s : pd.Series) : length (pd.cells s) = pd.len s.
Proof. destruct s; simpl; apply length_map. Qed.

Lemma compress_hit {A : Type} (m : list bool) (xs : list A) (i : nat) :
  nth_error m i = Some true -> (i < length xs)%nat ->
  (0 < length (pd.compress m xs))%nat.
Proof.
  revert xs i. induction m as [|b m IH]; intros [|x xs] [|i] Hm Hi;
    simpl in *; try discriminate; try lia.
  - inversion Hm; subst. simpl. lia.
  - destruct b; simpl; [lia|]. apply (IH xs i); [assumption | lia].
Qed.

(** One predicate that some cell satisfies leaves at least one row. *)
Lemma apply_filters_single_hit (df : pd.DataFrame) (name : string)
      (v : pd.scalar) (s : pd.Series) :
  pd.wf df -> column df name = Ok s -> is_all v = false ->
  (exists x, In x (pd.cells s) /\ pd.cell_eqb v x = true) ->
  (0 < pd.nrows (apply_filters df [(name, v)]))%nat.
Proof.
  intros Hwf Hcol Hv (x & Hx & He).
  pose proof (wf_uniform df Hwf) as Hu.
  rewrite (apply_filters_fold df _ Hu). simpl fold_left.
  assert (Hmem : pd.mem name (pd.columns df) = true).
  { apply mem_true_iff.
    destruct (in_dec string_dec name (pd.columns df)) as [i|n];
      [assumption|].
    apply select_nil_iff in n. unfold column, pd.getitem in Hcol.
    rewrite n in Hcol. discriminate Hcol. }
  unfold narrow, predicate_mask, active. cbn [fst snd].
  rewrite Hv, Hmem, Hcol. cbn [negb andb].
  apply In_nth_error in Hx. destruct Hx as [i Hi].
  assert (Hlen : pd.len s = pd.nrows df) by now apply (uniform_len _ df name).
  assert (Hlt : (i < pd.nrows df)%nat).
  { rewrite <- Hlen, <- len_cells. apply nth_error_Some. congruence. }
  assert (Hmask : nth_error
                    (pd.zip_with andb (repeat true (pd.nrows df)) (pd.eq s v))
                    i = Some true).
  { rewrite nth_error_zip_with, (nth_error_repeat true Hlt).
    unfold pd.eq. rewrite nth_error_map, Hi. simpl. now rewrite He. }
  destruct df as [|[c0 s0] df']; [simpl in Hlt; lia|].
  simpl pd.nrows in *. cbn [pd.loc map fst snd].
  destruct s0 as [xs0|xs0]; simpl pd.len in *; simpl pd.take;
    simpl pd.len; now apply (compress_hit _ _ i).
Qed.

(** X12.  When the years of the table are whole numbers that are not
    negative, every option of the year box other than "All" matches at
    least one row: the filtered table is not empty. *)
Theorem year_option_matches (df : pd.DataFrame) (years : list pd.float)
        (o : string)
        (Hwf : pd.wf df) (Hcol : column df "Year" = Ok (pd.Float64 years))
        (Hwhole : forall q, In (Some q) years ->
                            exists y, (0 <= y)%Z /\ q == inject_Z y)
        (Hin : In o (year_options years)) (Hnot : o <> "All") :
  (0 < pd.nrows (apply_filters df [("Year", year_filter_value o)]))%nat.
Proof.
  destruct (year_options_In years o Hin) as [->|(q & Hq & ->)];
    [contradiction|].
  destruct (Hwhole q Hq) as (y & Hy & E).
  assert (Ht : trunc q = y).
  { rewrite (trunc_comp q (inject_Z y) E). apply trunc_inject. }
  rewrite Ht. destruct (year_filter_value_str y) as [Hval _].
  rewrite (Hval Hy).
  apply (apply_filters_single_hit df "Year" _ (pd.Float64 years));
    [assumption | assumption | reflexivity |].
  exists (Some (pd.SNum q)). split.
  - now apply cells_float_In.
  - simpl. now apply Qeq_bool_iff.
Qed.

Lemma year_option_matches_witness :
  (0 < pd.nrows (apply_filters incidents
                   [("Year", year_filter_value "1990")]))%nat.
Proof.
  apply (year_option_matches incidents [Some 1985; Some 1985; Some 1990]
           "1990" incidents_wf).
  - reflexivity.
  - intros q [E|[E|[E|[]]]]; inversion E; subst.
    + exists 1985%Z. split; [lia | reflexivity].
    + exists 1985%Z. split; [lia | reflexivity].
    + exists 1990%Z. split; [lia | reflexivity].
  - vm_compute. tauto.
  - discriminate.
Defined.

(** A year with a fraction is offered as its integer part, which no
    row has. *)
Example year_option_fraction :
  year_options [Some (3971 # 2)] = ["All"; "1985"]
  /\ pd.nrows (apply_filters [("Year", pd.Float64 [Some (3971 # 2)])]
                 [("Year", year_filter_value "1985")]) = 0%nat.
Proof. split; vm_compute; reflexivity. Qed.

Lemma scalar_eqb_str (k : pd.scalar) (t : string) :
  pd.scalar_eqb k (pd.SStr t) = true <-> k = pd.SStr t.
Proof.
  destruct k as [q|u]; simpl.
  - split; discriminate.
  - rewrite String.eqb_eq. split; [now intros -> | now intros [= ->]].
Qed.

Lemma isin_iff (opt : string) (s : pd.Series) :
  isin opt s = true <-> In (Some (pd.SStr opt)) (pd.cells s).
Proof.
  unfold isin. rewrite existsb_exists. split.
  - intros (k & Hk & He). apply scalar_eqb_str in He. subst k.
    apply uniques_In in Hk. now apply (proj1 (dropna_In _ _)).
  - intros Hin. apply (proj2 (dropna_In _ _)) in Hin.
    destruct (uniques_covers _ _ Hin) as (k0 & Hk0 & He).
    exists k0. split; [assumption|]. now rewrite scalar_eqb_sym.
Qed.

Lemma month_options_In (s : pd.Series) (m : string) :
  In m (month_options s)
  <-> m = "All" \/ (In m month_order /\ In (Some (pd.SStr m)) (pd.cells s)).
Proof.
  unfold month_options. split.
  - intros [<-|H]; [now left|]. right.
    apply filter_In in H. destruct H as [H1 H2].
    apply isin_iff in H2. now split.
  - intros [->|[H1 H2]]; [now left|]. right.
    apply filter_In. split; [assumption | now apply isin_iff].
Qed.

(** X13.  The month box offers "All" and exactly the names of the
    calendar that occur in the Month Name column; a name that occurs
    but is not one of the twelve is not offered.  Every offered name
    matches at least one row when chosen as the only filter. *)
Theorem month_option_matches (df : pd.DataFrame) (s : pd.Series)
        (Hwf : pd.wf df) (Hcol : column df "Month Name" = Ok s) :
  (forall m, In m (month_options s)
             <-> m = "All"
                 \/ (In m month_order /\ In (Some (pd.SStr m)) (pd.cells s)))
  /\ (forall m, In m (month_options s) -> m <> "All" ->
                (0 < pd.nrows (apply_filters df
                                 [("Month Name", pd.SStr m)]))%nat).
Proof.
  split; [apply month_options_In|].
  intros m Hin Hne. apply month_options_In in Hin.
  destruct Hin as [->|[_ Hcell]]; [contradiction|].
  apply (apply_filters_single_hit df "Month Name" _ s);
    [assumption | assumption | |].
  - simpl. now apply String.eqb_neq.
  - exists (Some (pd.SStr m)). split; [assumption|].
    simpl. apply String.eqb_refl.
Qed.

Lemma seasons_wf : pd.wf seasons.
Proof.
  split.
  - simpl. repeat constructor; simpl; intuition discriminate.
  - repeat constructor.
Defined.

Example month_options_seasons :
  month_options
    (pd.Object [Some "March"; Some "Jan"; None; Some "January"; Some "March"])
  = ["All"; "January"; "March"].
Proof. reflexivity. Qed.

Lemma month_option_matches_witness :
  (0 < pd.nrows (apply_filters seasons [("Month Name", pd.SStr "March")]))%nat.
Proof.
  apply (proj2 (month_option_matches seasons
                  (pd.Object [Some "March"; Some "Jan"; None; Some "January";
                              Some "March"])
                  seasons_wf eq_refl)).
  - vm_compute. tauto.
  - discriminate.
Defined.

Lemma insert_str_perm (x : string) (l : list string) :
  Permutation (py.insert_str x l) (x :: l).
Proof.
  induction l as [|y l IH]; simpl; [reflexivity|].
  destruct (String.leb x y); [reflexivity|].
  rewrite IH. apply perm_swap.
Qed.

Lemma sorted_perm (l : list string) : Permutation (py.sorted l) l.
Proof.
  unfold py.sorted. induction l as [|x l IH]; simpl; [reflexivity|].
  rewrite insert_str_perm. now constructor.
Qed.

Lemma insert_str_HdRel (a x : string) (l : list string) :
  str_le a x -> HdRel str_le a l -> HdRel str_le a (py.insert_str x l).
Proof.
  intros Hax Hl. destruct l as [|y l]; simpl.
  - now constructor.
  - destruct (String.leb x y); constructor; [assumption|].
    now inversion Hl.
Qed.

Lemma insert_str_sorted (x : string) (l : list string) :
  Sorted str_le l -> Sorted str_le (py.insert_str x l).
Proof.
  induction l as [|y l IH]; intros Hs; simpl.
  - repeat constructor.
  - destruct (String.leb x y) eqn:E.
    + constructor; [assumption|]. now constructor.
    + inversion Hs as [|? ? Hs' Hhd]; subst.
      constructor; [now apply IH|].
      apply insert_str_HdRel; [|assumption].
      destruct (String.leb_total x y) as [H|H]; [congruence | exact H].
Qed.

Lemma sorted_sorted (l : list string) : Sorted str_le (py.sorted l).
Proof.
  unfold py.sorted. induction l as [|x l IH]; simpl; [constructor|].
  now apply insert_str_sorted.
Qed.

Lemma uniques_acc_NoDup (ks acc : list pd.scalar) :
  NoDup acc -> NoDup (fold_left uniques_step ks acc).
Proof.
  revert acc. induction ks as [|k ks IH]; intros acc Hnd; simpl;
    [assumption|].
  apply IH. unfold uniques_step.
  destruct (existsb (pd.scalar_eqb k) acc) eqn:E; [assumption|].
  apply NoDup_snoc; [assumption|].
  intros Hin. assert (Ht : existsb (pd.scalar_eqb k) acc = true).
  { apply existsb_exists. exists k. split; [assumption|].
    apply scalar_eqb_refl. }
  congruence.
Qed.

Lemma uniques_NoDup (ks : list pd.scalar) : NoDup (pd.uniques ks).
Proof. apply uniques_acc_NoDup. constructor. Qed.

Lemma NoDup_map_on {A B : Type} (f : A -> B) (l : list A) :
  (forall x y, In x l -> In y l -> f x = f y -> x = y) ->
  NoDup l -> NoDup (map f l).
Proof.
  induction l as [|a l IH]; intros Hinj Hnd; simpl; [constructor|].
  inversion Hnd as [|? ? Hnot Hnd']; subst. constructor.
  - intros Hin. apply in_map_iff in Hin. destruct Hin as (b & E & Hb).
    assert (b = a) by (apply Hinj; [now right | now left | assumption]).
    subst b. contradiction.
  - apply IH; [|assumption].
    intros x y Hx Hy. apply Hinj; now right.
Qed.

Section DropdownFacts.
Variable str_float : Q -> string.

Lemma text_values (xs : list (option string)) (k : pd.scalar) :
  In k (pd.uniques (pd.dropna (pd.cells (pd.Object xs)))) ->
  exists t, k = pd.SStr t /\ In (Some t) xs.
Proof.
  intros Hk. apply uniques_In in Hk. apply (proj1 (dropna_In _ _)) in Hk.
  simpl in Hk. apply in_map_iff in Hk.
  destruct Hk as ([t|] & E & Hin); simpl in E; [|discriminate].
  inversion E; subst. now exists t.
Qed.

Lemma text_options_In (xs : list (option string)) (t : string) :
  In t (py.sorted (map (str_cell str_float)
                     (pd.uniques (pd.dropna (pd.cells (pd.Object xs))))))
  <-> In (Some t) xs.
Proof.
  split.
  - intros Hin. apply (Permutation_in _ (sorted_perm _)) in Hin.
    apply in_map_iff in Hin. destruct Hin as (k & E & Hk).
    destruct (text_values xs k Hk) as (u & -> & Hu). simpl in E. now subst.
  - intros Hin.
    apply (Permutation_in _ (Permutation_sym (sorted_perm _))).
    apply (proj2 (cells_object_In _ _)) in Hin.
    apply (proj2 (dropna_In _ _)) in Hin.
    destruct (uniques_covers _ _ Hin) as (k0 & Hk0 & He).
    rewrite scalar_eqb_sym in He. apply scalar_eqb_str in He. subst k0.
    apply in_map_iff. exists (pd.SStr t). now split.
Qed.

(** X14.  For a text column the dropdown offers "All" followed by the
    distinct values of the column in ascending order: the list after
    "All" is sorted, has no duplicates and holds exactly the values
    that occur; missing cells give no option. *)
Theorem dropdown_options_text (xs : list (option string)) :
  exists rest,
    dropdown_options str_float (pd.Object xs) None = "All" :: rest
    /\ Sorted str_le rest
    /\ NoDup rest
    /\ forall t, In t rest <-> In (Some t) xs.
Proof.
  eexists. split; [reflexivity|]. split; [apply sorted_sorted|].
  split; [|apply text_options_In].
  apply (Permutation_NoDup (Permutation_sym (sorted_perm _))).
  apply NoDup_map_on; [|apply uniques_NoDup].
  intros x y Hx Hy E.
  destruct (text_values xs x Hx) as (a & -> & _).
  destruct (text_values xs y Hy) as (b & -> & _).
  simpl in E. now subst.
Qed.
End DropdownFacts.

Lemma dropdown_options_text_witness :
  exists rest,
    dropdown_options str_whole
      (pd.Object [Some "USA"; None; Some "UK"; Some "USA"]) None
    = "All" :: rest
    /\ Sorted str_le rest
    /\ NoDup rest
    /\ In "UK" rest.
Proof.
  destruct (dropdown_options_text str_whole
              [Some "USA"; None; Some "UK"; Some "USA"])
    as (rest & Hopts & Hsorted & Hnd & Hin).
  exists rest. split; [exact Hopts|]. split; [exact Hsorted|].
  split; [exact Hnd|]. apply Hin. right. right. now left.
Defined.

Example dropdown_options_sample :
  dropdown_options (fun _ => "")
    (pd.Object [Some "USA"; None; Some "UK"; Some "USA"]) None
  = ["All"; "UK"; "USA"].
Proof. reflexivity. Qed.

Lemma column_mem (df : pd.DataFrame) (c : string) (s : pd.Series) :
  column df c = Ok s -> pd.mem c (pd.columns df) = true.
Proof.
  intros H. unfold column in H.
  destruct (pd.getitem df c) as [[s'|sub]|e] eqn:E; simpl in H;
    try discriminate.
  apply getitem_series in E. apply mem_true_iff.
  apply in_map_iff. exists (c, s'). split; [reflexivity|].
  assert (Hin : In (c, s') (pd.select c df)) by (rewrite E; now left).
  unfold pd.select in Hin. now apply filter_In in Hin.
Qed.

(** A value of the wrong kind for its column leaves no row. *)
Lemma mismatch_no_rows (df : pd.DataFrame) (name : string) (v : pd.scalar)
      (s : pd.Series) :
  pd.wf df -> column df name = Ok s -> is_all v = false ->
  kind_mismatch s v = true ->
  pd.nrows (apply_filters df [(name, v)]) = 0%nat.
Proof.
  intros Hwf Hcol Hv Hkind.
  pose proof (wf_uniform df Hwf) as Hu.
  rewrite (apply_filters_fold df _ Hu). simpl fold_left.
  unfold narrow, predicate_mask, active. simpl fst. simpl snd.
  rewrite Hv, (column_mem df name s Hcol), Hcol. simpl andb. cbv iota.
  apply nrows_loc_none. apply zip_and_none. now apply eq_kind_mismatch.
Qed.

Section DropdownChoice.
Variable selectbox : string -> list string -> string.
Variable str_float : Q -> string.
(** The select box returns one of the options it is given. *)
Hypothesis selectbox_picks :
  forall label opts, opts <> [] -> In (selectbox label opts) opts.

Lemma dropdown_choice_cases (s : pd.Series) (label : string)
      (ordered_options : option (list string)) :
  let r := selectbox label (dropdown_options str_float s ordered_options) in
  r = "All"
  \/ (exists k, In (Some k) (pd.cells s) /\ r = str_cell str_float k).
Proof.
  intros r.
  assert (Hin : In r (dropdown_options str_float s ordered_options)).
  { apply selectbox_picks.
    unfold dropdown_options. destruct ordered_options as [[|o os]|];
      discriminate. }
  unfold dropdown_options in Hin.
  destruct ordered_options as [[|o os]|].
  - destruct Hin as [<-|Hin]; [now left|]. right.
    apply (Permutation_in _ (sorted_perm _)) in Hin.
    apply in_map_iff in Hin. destruct Hin as (k & E & Hk).
    apply uniques_In in Hk. apply (proj1 (dropna_In _ _)) in Hk.
    now exists k.
  - destruct Hin as [<-|Hin]; [now left|]. right.
    apply filter_In in Hin. destruct Hin as [_ Hin].
    apply isin_iff in Hin. now exists (pd.SStr r).
  - destruct Hin as [<-|Hin]; [now left|]. right.
    apply (Permutation_in _ (sorted_perm _)) in Hin.
    apply in_map_iff in Hin. destruct Hin as (k & E & Hk).
    apply uniques_In in Hk. apply (proj1 (dropna_In _ _)) in Hk.
    now exists k.
Qed.

(** X15.  The value a dropdown delivers for a text column is "All" or
    a value that occurs in the column, with or without a preferred
    order of options; used as the only filter it leaves at least one
    row.  For a label the table does not have the dropdown delivers
    "All" without asking. *)
Theorem add_dropdown_text_choice (df : pd.DataFrame) (label col : string)
        (ordered_options : option (list string)) :
  (~ In col (pd.columns df) ->
   add_dropdown selectbox str_float df label col ordered_options = "All")
  /\ forall xs,
       pd.wf df -> column df col = Ok (pd.Object xs) ->
       let r := add_dropdown selectbox str_float df label col
                  ordered_options in
       r = "All"
       \/ (In (Some r) xs
           /\ (0 < pd.nrows (apply_filters df [(col, pd.SStr r)]))%nat).
Proof.
  split.
  - intros Hnot. unfold add_dropdown.
    apply mem_false_iff in Hnot. now rewrite Hnot.
  - intros xs Hwf Hcol r. subst r. unfold add_dropdown.
    rewrite (column_mem df col _ Hcol), Hcol. cbn [negb bind].
    set (r := selectbox label _).
    destruct (String.eqb r "All") eqn:Hall;
      [left; now apply String.eqb_eq|]. right.
    destruct (dropdown_choice_cases (pd.Object xs) label ordered_options)
      as [H|(k & Hk & Hr)]; fold r in H || fold r in Hr.
    { rewrite H in Hall. discriminate. }
    simpl in Hk. apply in_map_iff in Hk.
    destruct Hk as ([t|] & E & Hin); simpl in E; [|discriminate].
    inversion E; subst k. simpl in Hr. rewrite Hr. split; [assumption|].
    apply (apply_filters_single_hit df col (pd.SStr t) (pd.Object xs));
      try assumption.
    + simpl. rewrite <- Hr. exact Hall.
    + exists (Some (pd.SStr t)). split.
      * now apply cells_object_In.
      * simpl. apply String.eqb_refl.
Qed.
End DropdownChoice.

(** X16.  On a column read as numbers the dropdown cannot select
    anything: whatever the select box returns, the delivered value is
    "All" or text, and text matches no numeric cell, so as the only
    filter it leaves no row. *)
Theorem add_dropdown_numeric_choice
        (selectbox : string -> list string -> string)
        (str_float : Q -> string)
        (df : pd.DataFrame) (label col : string)
        (ordered_options : option (list string)) (xs : list pd.float)
        (Hwf : pd.wf df) (Hcol : column df col = Ok (pd.Float64 xs)) :
  let r := add_dropdown selectbox str_float df label col ordered_options in
  r = "All" \/ pd.nrows (apply_filters df [(col, pd.SStr r)]) = 0%nat.
Proof.
  intros r. destruct (String.eqb r "All") eqn:Hall;
    [left; now apply String.eqb_eq|]. right.
  apply (mismatch_no_rows df col (pd.SStr r) (pd.Float64 xs));
    try assumption. reflexivity.
Qed.

Lemma pick_last_picks (label : string) (opts : list string) :
  opts <> [] -> In (pick_last label opts) opts.
Proof.
  unfold pick_last. induction opts as [|o [|o' os] IH]; intros Hne.
  - congruence.
  - now left.
  - right. apply IH. discriminate.
Qed.

Lemma add_dropdown_text_choice_witness :
  add_dropdown pick_last str_whole incidents "Region" "Region" None = "All"
  /\ (0 < pd.nrows (apply_filters incidents
                      [("Country", pd.SStr "USA")]))%nat.
Proof.
  split.
  - apply (proj1 (add_dropdown_text_choice pick_last str_whole
                    pick_last_picks incidents "Region" "Region" None)).
    vm_compute. intuition discriminate.
  - destruct (proj2 (add_dropdown_text_choice pick_last str_whole
                       pick_last_picks incidents "Country" "Country" None)
                _ incidents_wf eq_refl) as [H|[_ H]].
    + vm_compute in H. discriminate H.
    + exact H.
Defined.

Lemma add_dropdown_numeric_choice_witness :
  pd.nrows (apply_filters incidents [("Year", pd.SStr "1990")]) = 0%nat.
Proof.
  destruct (add_dropdown_numeric_choice pick_last str_whole incidents
              "Year" "Year" None _ incidents_wf eq_refl) as [H|H].
  - vm_compute in H. discriminate H.
  - exact H.
Defined.

(** ** The series drawn on the pages *)

Lemma insert_desc_HdRel (a x : pd.scalar * nat) (l : list (pd.scalar * nat)) :
  desc a x -> HdRel desc a l -> HdRel desc a (pd.insert_desc x l).
Proof.
  intros Hax Hl. destruct l as [|y l]; simpl.
  - now constructor.
  - destruct (snd y <=? snd x)%nat; constructor; [assumption|].
    now inversion Hl.
Qed.

Lemma insert_desc_sorted (x : pd.scalar * nat) (l : list (pd.scalar * nat)) :
  Sorted desc l -> Sorted desc (pd.insert_desc x l).
Proof.
  induction l as [|y l IH]; intros Hs; simpl.
  - repeat constructor.
  - destruct (snd y <=? snd x)%nat eqn:E.
    + constructor; [assumption|]. constructor.
      unfold desc. now apply Nat.leb_le.
    + inversion Hs as [|? ? Hs' Hhd]; subst.
      constructor; [now apply IH|].
      apply insert_desc_HdRel; [|assumption].
      unfold desc. apply Nat.leb_gt in E. lia.
Qed.

Lemma value_counts_sorted (s : pd.Series) : Sorted desc (pd.value_counts s).
Proof.
  unfold pd.value_counts.
  induction (map _ (pd.uniques (pd.dropna (pd.cells s)))) as [|x l IH];
    simpl; [constructor|].
  now apply insert_desc_sorted.
Qed.

Lemma insert_desc_length (x : pd.scalar * nat) (l : list (pd.scalar * nat)) :
  length (pd.insert_desc x l) = S (length l).
Proof.
  induction l as [|y l IH]; simpl; [reflexivity|].
  destruct (snd y <=? snd x)%nat; simpl; [reflexivity | now rewrite IH].
Qed.

Lemma value_counts_length (s : pd.Series) :
  length (pd.value_counts s)
  = length (pd.uniques (pd.dropna (pd.cells s))).
Proof.
  unfold pd.value_counts. rewrite <- (length_map
    (fun k => (k, pd.count_of k (pd.dropna (pd.cells s))))).
  induction (map _ (pd.uniques (pd.dropna (pd.cells s)))) as [|x l IH];
    simpl; [reflexivity|].
  now rewrite insert_desc_length, IH.
Qed.

Lemma desc_trans (a b c : pd.scalar * nat) : desc a b -> desc b c -> desc a c.
Proof. unfold desc. lia. Qed.

Lemma Sorted_firstn {A : Type} (R : A -> A -> Prop) (l : list A) (n : nat) :
  Sorted R l -> Sorted R (firstn n l).
Proof.
  revert n. induction l as [|x l IH]; intros [|n] Hs; simpl;
    try constructor.
  - apply IH. now inversion Hs.
  - inversion Hs as [|? ? _ Hhd]; subst.
    destruct l as [|y l], n as [|n]; simpl; constructor.
    now inversion Hhd.
Qed.

(** In a list sorted by a transitive order, what follows the first
    [n] entries is below each of them. *)
Lemma sorted_rest_below {A : Type} (R : A -> A -> Prop) (l : list A)
      (n : nat) (a b : A) :
  (forall x y z, R x y -> R y z -> R x z) ->
  Sorted R l -> In a (firstn n l) -> In b (skipn n l) -> R a b.
Proof.
  intros Htrans Hs. apply Sorted_StronglySorted in Hs; [|exact Htrans].
  revert n. induction Hs as [|x l Hs IH Hall]; intros n Ha Hb.
  - destruct n; destruct Ha.
  - destruct n as [|n]; [destruct Ha|]. simpl in Ha, Hb.
    assert (Hbl : In b l).
    { rewrite <- (firstn_skipn n l). apply in_or_app. now right. }
    destruct Ha as [<-|Ha].
    + rewrite Forall_forall in Hall. now apply Hall.
    + now apply (IH n).
Qed.

Lemma count_of_present (k : pd.scalar) (ks : list pd.scalar) :
  In k ks -> (1 <= pd.count_of k ks)%nat.
Proof.
  intros Hin. unfold pd.count_of.
  assert (H : In k (filter (pd.scalar_eqb k) ks)).
  { apply filter_In. split; [assumption | apply scalar_eqb_refl]. }
  destruct (filter (pd.scalar_eqb k) ks); [destruct H | simpl; lia].
Qed.

(** X17.  The bar charts of the geography, operator and aircraft pages
    draw [value_counts().head(n)]: at most n bars in order of
    decreasing count, one per shown value, each the number of rows
    holding that value (at least one), and no value left out occurs
    more often than a value shown. *)
Theorem value_counts_head_top (s : pd.Series) (n : nat) :
  let shown := head n (pd.value_counts s) in
  length shown
  = Nat.min n (length (pd.uniques (pd.dropna (pd.cells s))))
  /\ Sorted desc shown
  /\ (forall k c, In (k, c) shown ->
        In (Some k) (pd.cells s)
        /\ c = pd.count_of k (pd.dropna (pd.cells s))
        /\ (1 <= c)%nat)
  /\ (forall k c k' c',
        In (k, c) shown ->
        In (k', c') (pd.value_counts s) -> ~ In (k', c') shown ->
        (c' <= c)%nat).
Proof.
  intros shown. subst shown. unfold head.
  split; [|split; [|split]].
  - now rewrite length_firstn, value_counts_length.
  - apply Sorted_firstn, value_counts_sorted.
  - intros k c Hin.
    assert (Hvc : In (k, c) (pd.value_counts s)).
    { rewrite <- (firstn_skipn n (pd.value_counts s)).
      apply in_or_app. now left. }
    apply value_counts_In in Hvc. destruct Hvc as [Hk ->].
    apply uniques_In in Hk. split; [now apply dropna_In|].
    split; [reflexivity | now apply count_of_present].
  - intros k c k' c' Hin Hvc Hout.
    rewrite <- (firstn_skipn n (pd.value_counts s)) in Hvc.
    apply in_app_or in Hvc. destruct Hvc as [Hvc|Hvc]; [contradiction|].
    apply (sorted_rest_below desc (pd.value_counts s) n (k, c) (k', c')
             desc_trans (value_counts_sorted s) Hin Hvc).
Qed.

Example value_counts_head_operators :
  head 1 (pd.value_counts (pd.Object
            [Some "Beta"; Some "Alpha"; Some "Alpha"; None; Some "Gamma"]))
  = [(pd.SStr "Alpha", 2%nat)].
Proof. reflexivity. Qed.

Lemma value_counts_head_top_witness :
  length (head 1 (pd.value_counts (pd.Object
            [Some "Beta"; Some "Alpha"; Some "Alpha"; None; Some "Gamma"])))
  = 1%nat
  /\ (pd.count_of (pd.SStr "Beta")
        (pd.dropna (pd.cells (pd.Object
           [Some "Beta"; Some "Alpha"; Some "Alpha"; None; Some "Gamma"])))
      <= pd.count_of (pd.SStr "Alpha")
           (pd.dropna (pd.cells (pd.Object
              [Some "Beta"; Some "Alpha"; Some "Alpha"; None;
               Some "Gamma"]))))%nat.
Proof.
  pose proof (value_counts_head_top
                (pd.Object
                   [Some "Beta"; Some "Alpha"; Some "Alpha"; None;
                    Some "Gamma"]) 1) as (Hlen & _ & _ & Htop).
  split; [exact Hlen|].
  apply (Htop (pd.SStr "Alpha") _ (pd.SStr "Beta") _).
  - left. reflexivity.
  - vm_compute. right. left. reflexivity.
  - vm_compute. intros [H|[]]. discriminate H.
Defined.

Lemma scalar_leb_total (a b : pd.scalar) : key_le a b \/ key_le b a.
Proof.
  unfold key_le. destruct a as [x|s], b as [y|t]; simpl; auto.
  - destruct (Qlt_le_dec x y) as [H|H].
    + left. apply Qle_bool_iff. now apply Qlt_le_weak.
    + right. now apply Qle_bool_iff.
  - apply String.leb_total.
Qed.

Lemma insert_key_HdRel (a x : pd.scalar) (l : list pd.scalar) :
  key_le a x -> HdRel key_le a l -> HdRel key_le a (pd.insert_key x l).
Proof.
  intros Hax Hl. destruct l as [|y l]; simpl.
  - now constructor.
  - destruct (pd.scalar_leb x y); constructor; [assumption|].
    now inversion Hl.
Qed.

Lemma insert_key_sorted (x : pd.scalar) (l : list pd.scalar) :
  Sorted key_le l -> Sorted key_le (pd.insert_key x l).
Proof.
  induction l as [|y l IH]; intros Hs; simpl.
  - repeat constructor.
  - destruct (pd.scalar_leb x y) eqn:E.
    + constructor; [assumption|]. now constructor.
    + inversion Hs as [|? ? Hs' Hhd]; subst.
      constructor; [now apply IH|].
      apply insert_key_HdRel; [|assumption].
      destruct (scalar_leb_total x y) as [H|H];
        [unfold key_le in H; congruence | exact H].
Qed.

Lemma sort_keys_sorted (l : list pd.scalar) : Sorted key_le (pd.sort_keys l).
Proof.
  unfold pd.sort_keys. induction l as [|x l IH]; simpl; [constructor|].
  now apply insert_key_sorted.
Qed.

Lemma apart_sym (a b : pd.scalar) : apart a b -> apart b a.
Proof. unfold apart. now rewrite scalar_eqb_sym. Qed.

Lemma apart_snoc (acc : list pd.scalar) (k : pd.scalar) :
  ForallOrdPairs apart acc -> Forall (fun a => apart a k) acc ->
  ForallOrdPairs apart (acc ++ [k]).
Proof.
  induction 1 as [|a l Hal Hl IH]; intros Hk; simpl.
  - repeat constructor.
  - inversion Hk; subst. constructor; [|now apply IH].
    apply Forall_app. split; [assumption|]. now constructor.
Qed.

Lemma uniques_acc_apart (ks acc : list pd.scalar) :
  ForallOrdPairs apart acc ->
  ForallOrdPairs apart (fold_left uniques_step ks acc).
Proof.
  revert acc. induction ks as [|k ks IH]; intros acc Hacc; simpl;
    [assumption|].
  apply IH. unfold uniques_step.
  destruct (existsb (pd.scalar_eqb k) acc) eqn:E; [assumption|].
  apply apart_snoc; [assumption|].
  apply Forall_forall. intros a Ha. apply apart_sym. unfold apart.
  destruct (pd.scalar_eqb k a) eqn:Ea; [|reflexivity].
  assert (Ht : existsb (pd.scalar_eqb k) acc = true)
    by (apply existsb_exists; now exists a).
  congruence.
Qed.

Lemma uniques_apart (ks : list pd.scalar) :
  ForallOrdPairs apart (pd.uniques ks).
Proof. apply uniques_acc_apart. constructor. Qed.

Lemma insert_key_apart (k : pd.scalar) (l : list pd.scalar) :
  ForallOrdPairs apart l -> Forall (apart k) l ->
  ForallOrdPairs apart (pd.insert_key k l).
Proof.
  induction 1 as [|y l Hyl Hl IH]; intros Hk; simpl.
  - repeat constructor.
  - destruct (pd.scalar_leb k y).
    + constructor; [assumption|]. now constructor.
    + inversion Hk; subst. constructor; [|now apply IH].
      apply Forall_forall. intros z Hz. apply insert_key_In in Hz.
      destruct Hz as [->|Hz]; [now apply apart_sym|].
      rewrite Forall_forall in Hyl. now apply Hyl.
Qed.

Lemma sort_keys_apart (l : list pd.scalar) :
  ForallOrdPairs apart l -> ForallOrdPairs apart (pd.sort_keys l).
Proof.
  unfold pd.sort_keys. induction 1 as [|x l Hxl Hl IH]; simpl;
    [constructor|].
  apply insert_key_apart; [assumption|].
  apply Forall_forall. intros z Hz.
  apply (proj1 (sort_keys_In z l)) in Hz.
  rewrite Forall_forall in Hxl. now apply Hxl.
Qed.

(** Among keys that are pairwise apart, a test that only equal keys
    pass is passed at most once. *)
Lemma apart_single (p : pd.scalar -> bool) (a : pd.scalar)
      (l : list pd.scalar) :
  (forall x y, p x = true -> p y = true -> pd.scalar_eqb x y = true) ->
  Forall (apart a) l -> p a = true -> existsb p l = false.
Proof.
  intros Hp Hal Ha. destruct (existsb p l) eqn:E; [|reflexivity].
  apply existsb_exists in E. destruct E as (u & Hu & Hpu).
  rewrite Forall_forall in Hal. specialize (Hal u Hu). unfold apart in Hal.
  rewrite (Hp a u Ha Hpu) in Hal. discriminate.
Qed.

Lemma hit_count (p : pd.scalar -> bool) (us : list pd.scalar) :
  (forall x y, p x = true -> p y = true -> pd.scalar_eqb x y = true) ->
  ForallOrdPairs apart us ->
  list_sum (map (fun u => if p u then 1 else 0)%nat us)
  = if existsb p us then 1%nat else 0%nat.
Proof.
  intros Hp. induction 1 as [|a l Hal Hl IH]; simpl; [reflexivity|].
  destruct (p a) eqn:Ha; simpl.
  - rewrite IH, (apart_single p a l Hp Hal Ha). reflexivity.
  - exact IH.
Qed.

Lemma hit_sum (p : pd.scalar -> bool) (q : Q) (us : list pd.scalar) :
  (forall x y, p x = true -> p y = true -> pd.scalar_eqb x y = true) ->
  ForallOrdPairs apart us ->
  Qsum (map (fun u => if p u then q else 0) us)
  == if existsb p us then q else 0.
Proof.
  intros Hp. induction 1 as [|a l Hal Hl IH]; simpl; [reflexivity|].
  destruct (p a) eqn:Ha; simpl.
  - rewrite IH, (apart_single p a l Hp Hal Ha). ring.
  - rewrite IH. ring.
Qed.

Lemma list_sum_map_add {A : Type} (f g : A -> nat) (l : list A) :
  list_sum (map (fun x => f x + g x)%nat l)
  = (list_sum (map f l) + list_sum (map g l))%nat.
Proof. induction l as [|x l IH]; simpl; [reflexivity | rewrite IH; lia]. Qed.

Lemma Qsum_map_add {A : Type} (f g : A -> Q) (l : list A) :
  Qsum (map (fun x => f x + g x) l) == Qsum (map f l) + Qsum (map g l).
Proof. induction l as [|x l IH]; simpl; [ring | rewrite IH; ring]. Qed.

Lemma Qsum_map_ext {A : Type} (f g : A -> Q) (l : list A) :
  (forall x, f x == g x) -> Qsum (map f l) == Qsum (map g l).
Proof.
  intros H. induction l as [|x l IH]; simpl; [reflexivity|].
  now rewrite IH, H.
Qed.

Lemma eqb_with_compat (k x y : pd.scalar) :
  pd.scalar_eqb k x = true -> pd.scalar_eqb k y = true ->
  pd.scalar_eqb x y = true.
Proof.
  intros Hx Hy. rewrite scalar_eqb_sym in Hx.
  now apply (scalar_eqb_trans x k y).
Qed.

(** The counts of pairwise-apart keys that cover a list add up to its
    length. *)
Lemma count_sum (us ks : list pd.scalar) :
  ForallOrdPairs apart us ->
  (forall k, In k ks -> existsb (pd.scalar_eqb k) us = true) ->
  list_sum (map (fun u => pd.count_of u ks) us) = length ks.
Proof.
  intros Hus. induction ks as [|x ks IH]; intros Hcov.
  - unfold pd.count_of. simpl. clear Hus Hcov.
    induction us as [|u us IHu]; simpl; [reflexivity | exact IHu].
  - rewrite (map_ext _ (fun u => (if pd.scalar_eqb x u then 1 else 0)
                                 + pd.count_of u ks)%nat).
    + rewrite list_sum_map_add, IH by (intros k Hk; apply Hcov; now right).
      rewrite (hit_count (pd.scalar_eqb x) us (eqb_with_compat x) Hus).
      rewrite (Hcov x (or_introl eq_refl)). reflexivity.
    + intros u. unfold pd.count_of. simpl.
      rewrite (scalar_eqb_sym u x).
      destruct (pd.scalar_eqb x u); reflexivity.
Qed.

Lemma sorted_uniques_cover (ks : list pd.scalar) (k : pd.scalar) :
  In k ks ->
  existsb (pd.scalar_eqb k) (pd.sort_keys (pd.uniques ks)) = true.
Proof.
  intros Hin. destruct (uniques_covers ks k Hin) as (u & Hu & He).
  apply existsb_exists. exists u. split; [|assumption].
  now apply sort_keys_In.
Qed.

(** X18.  The line charts of incidents per year draw
    [groupby(c).size()]: one point per distinct non-missing key, in
    increasing key order, each the number of rows with that key (at
    least one); every non-missing cell is counted in some point and
    the points add up to the number of rows whose key is not
    missing. *)
Theorem groupby_size_total (g : pd.Series) :
  Sorted key_le (map fst (groupby_size g))
  /\ ForallOrdPairs apart (map fst (groupby_size g))
  /\ (forall k c, In (k, c) (groupby_size g) ->
        In (Some k) (pd.cells g)
        /\ c = pd.count_of k (pd.dropna (pd.cells g))
        /\ (1 <= c)%nat)
  /\ (forall x, In (Some x) (pd.cells g) ->
        exists k c, In (k, c) (groupby_size g)
                    /\ pd.scalar_eqb x k = true)
  /\ list_sum (map snd (groupby_size g))
     = length (pd.dropna (pd.cells g)).
Proof.
  unfold groupby_size. cbv zeta. rewrite !map_map. simpl.
  rewrite map_id.
  split; [apply sort_keys_sorted|].
  split; [apply sort_keys_apart, uniques_apart|].
  split; [|split].
  - intros k c Hin. apply in_map_iff in Hin.
    destruct Hin as (k0 & E & Hk). inversion E; subst.
    apply (proj1 (sort_keys_In _ _)) in Hk. apply uniques_In in Hk.
    split; [now apply dropna_In|].
    split; [reflexivity | now apply count_of_present].
  - intros x Hx. apply (proj2 (dropna_In _ _)) in Hx.
    destruct (uniques_covers _ x Hx) as (u & Hu & He).
    exists u, (pd.count_of u (pd.dropna (pd.cells g))).
    split; [|assumption].
    apply in_map_iff. exists u. split; [reflexivity|].
    now apply sort_keys_In.
  - apply count_sum.
    + apply sort_keys_apart, uniques_apart.
    + apply sorted_uniques_cover.
Qed.

Example groupby_size_years :
  groupby_size (pd.Float64 [Some 1990; Some 1985; None; Some 1990])
  = [(pd.SNum 1985, 1%nat); (pd.SNum 1990, 2%nat)].
Proof. reflexivity. Qed.

Lemma groupby_size_total_witness :
  list_sum (map snd (groupby_size
                       (pd.Float64 [Some 1990; Some 1985; None; Some 1990])))
  = 3%nat
  /\ exists k c,
       In (k, c) (groupby_size
                    (pd.Float64 [Some 1990; Some 1985; None; Some 1990]))
       /\ pd.scalar_eqb (pd.SNum 1985) k = true.
Proof.
  pose proof (groupby_size_total
                (pd.Float64 [Some 1990; Some 1985; None; Some 1990]))
    as (_ & _ & _ & Hcov & Hsum).
  split; [exact Hsum|].
  apply Hcov. right. now left.
Defined.

Lemma notna_cells (g : pd.Series) : pd.notna g = map present (pd.cells g).
Proof.
  destruct g as [xs|xs]; simpl; rewrite map_map; apply map_ext;
    intros [x|]; reflexivity.
Qed.

Lemma Qsum_zeros {A : Type} (l : list A) : Qsum (map (fun _ => 0) l) == 0.
Proof. induction l as [|x l IH]; simpl; [reflexivity | rewrite IH; ring]. Qed.

(** The group sums of pairwise-apart keys that cover the key column
    add up to the sum of the values in the rows with a key. *)
Lemma group_sum_total (us : list pd.scalar) (ks : list (option pd.scalar))
      (vs : list pd.float) :
  ForallOrdPairs apart us ->
  (forall k, In (Some k) ks -> existsb (pd.scalar_eqb k) us = true) ->
  Qsum (map (fun u => pd.group_sum u ks vs) us)
  == Qsum (pd.dropna (pd.compress (map present ks) vs)).
Proof.
  intros Hus. revert vs. induction ks as [|x ks IH]; intros vs Hcov.
  - simpl. apply Qsum_zeros.
  - destruct vs as [|v vs].
    { simpl. apply Qsum_zeros. }
    assert (Hcov' : forall k, In (Some k) ks ->
                              existsb (pd.scalar_eqb k) us = true)
      by (intros k Hk; apply Hcov; now right).
    specialize (IH vs Hcov').
    destruct v as [q|].
    + rewrite (Qsum_map_ext _
                 (fun u => (if pd.cell_eqb u x then q else 0)
                           + pd.group_sum u ks vs)).
      2:{ intros u. simpl. destruct (pd.cell_eqb u x); ring. }
      rewrite Qsum_map_add, IH.
      destruct x as [k|]; simpl.
      * rewrite (hit_sum (pd.scalar_eqb k) q us (eqb_with_compat k) Hus).
        rewrite (Hcov k (or_introl eq_refl)). reflexivity.
      * rewrite Qsum_zeros. ring.
    + rewrite (Qsum_map_ext _ (fun u => pd.group_sum u ks vs))
        by (intros u; reflexivity).
      rewrite IH. destruct x as [k|]; reflexivity.
Qed.

(** X19.  The sums by group that the fatalities charts draw and that
    the sum_max operation ranks: for a numeric value column there is
    one sum per distinct non-missing key, in increasing key order, and
    the sums add up to the sum of the known values in the rows whose
    key is not missing.  Nothing is counted twice and only rows
    without a key are left out. *)
Theorem groupby_sum_total (g : pd.Series) (vs : list pd.float) :
  let sums := pd.groupby_sum g vs in
  Sorted key_le (map fst sums)
  /\ ForallOrdPairs apart (map fst sums)
  /\ (forall k, In k (map fst sums) -> In (Some k) (pd.cells g))
  /\ Qsum (map snd sums) == pd.fsum (pd.compress (pd.notna g) vs).
Proof.
  cbv zeta. unfold pd.groupby_sum. rewrite !map_map. simpl. rewrite map_id.
  split; [apply sort_keys_sorted|].
  split; [apply sort_keys_apart, uniques_apart|].
  split.
  - intros k Hk. apply (proj1 (sort_keys_In _ _)) in Hk.
    apply uniques_In in Hk. now apply dropna_In.
  - rewrite fsum_spec, notna_cells. apply group_sum_total.
    + apply sort_keys_apart, uniques_apart.
    + intros k Hk. apply sorted_uniques_cover. now apply dropna_In.
Qed.

Example groupby_sum_years :
  pd.groupby_sum (pd.Float64 [Some 1990; Some 1985; None; Some 1990])
                 [Some 3; None; Some 7; Some 4]
  = [(pd.SNum 1985, 0); (pd.SNum 1990, 3 + (4 + 0))].
Proof. reflexivity. Qed.

Lemma groupby_sum_total_witness :
  Qsum (map snd (pd.groupby_sum
                   (pd.Float64 [Some 1990; Some 1985; None; Some 1990])
                   [Some 3; None; Some 7; Some 4]))
  == 7.
Proof.
  destruct (groupby_sum_total
              (pd.Float64 [Some 1990; Some 1985; None; Some 1990])
              [Some 3; None; Some 7; Some 4])
    as (_ & _ & _ & Htot).
  rewrite Htot. reflexivity.
Defined.



Example monthly_fatalities_sample :
  monthly_fatalities
    (pd.Object [Some "March"; Some "January"; None; Some "March"; Some "Jan"])
    [Some 2; Some 5; Some 9; None; Some 1]
  = [(pd.SStr "January", Some (5 + 0));
     (pd.SStr "March", Some (2 + 0))].
Proof. reflexivity. Qed.


(** ** The totals of the overview page *)

Lemma Qsum_whole (xs : list pd.float) :
  Forall whole xs -> exists z, Qsum (pd.dropna xs) == inject_Z z.
Proof.
  induction 1 as [|[q|] xs Hq Hxs (z & IH)]; simpl.
  - now exists 0%Z.
  - destruct Hq as (y & Hy). exists (y + z)%Z.
    rewrite IH, Hy, inject_Z_plus. reflexivity.
  - now exists z.
Qed.

Lemma total_of_float
      (object_reduce : string -> list (option string) -> res value)
      (int_str : string -> res Z) (fdf : pd.DataFrame) (col : string)
      (xs : list pd.float) :
  column fdf col = Ok (pd.Float64 xs) ->
  total_of object_reduce int_str fdf col
  = Ok (trunc (Qsum (pd.dropna xs))).
Proof.
  intros Hcol. unfold column in Hcol.
  destruct (pd.getitem fdf col) as [[s|sub]|e] eqn:Hget; simpl in Hcol;
    try discriminate.
  injection Hcol as ->.
  unfold total_of, pd.get. rewrite Hget. unfold metric_of. cbn [bind].
  unfold safe_metric_calculation. simpl pd.len.
  destruct ((length xs =? 0)%nat || pd.isna_all (pd.Float64 xs)) eqn:Hc.
  - assert (Hd : pd.dropna xs = []).
    { apply orb_prop in Hc. destruct Hc as [Hc|Hc].
      - apply Nat.eqb_eq in Hc. destruct xs; [reflexivity | discriminate].
      - now apply isna_all_float. }
    rewrite Hd. reflexivity.
  - unfold safe_metric_try. simpl. unfold int_or_zero. simpl.
    pose proof (fsum_spec xs) as Hs.
    destruct (Qeq_bool (pd.fsum xs) 0) eqn:Hz; simpl.
    + apply Qeq_bool_iff in Hz. f_equal.
      rewrite <- (trunc_comp 0 (Qsum (pd.dropna xs))); [reflexivity|].
      now rewrite <- Hs, Hz.
    + f_equal. now apply trunc_comp.
Qed.

(** X21.  The totals of the overview page (air and ground
    fatalities): 0 when the table has no such column; for a numeric
    column of whole numbers within the range where the machine adds
    exactly, the total is the sum of the known values and no exception
    is raised. *)
Theorem overview_totals
        (object_reduce : string -> list (option string) -> res value)
        (int_str : string -> res Z) (fdf : pd.DataFrame) (col : string) :
  (~ In col (pd.columns fdf) ->
   total_of object_reduce int_str fdf col = Ok 0%Z)
  /\ forall xs,
       column fdf col = Ok (pd.Float64 xs) -> exact_range xs ->
       exists t, total_of object_reduce int_str fdf col = Ok t
                 /\ inject_Z t == Qsum (pd.dropna xs).
Proof.
  split.
  - intros Hnot. apply select_nil_iff in Hnot.
    unfold total_of, pd.get, pd.getitem. rewrite Hnot. reflexivity.
  - intros xs Hcol [Hw _].
    pose proof (total_of_float object_reduce int_str fdf col xs Hcol) as Ht.
    exists (trunc (Qsum (pd.dropna xs))). split; [exact Ht|].
    destruct (Qsum_whole xs Hw) as (z & Hz).
    rewrite (trunc_comp _ _ Hz), trunc_inject. now rewrite Hz.
Qed.

Lemma overview_totals_witness :
  total_ground_fatalities object_reduce_raises (fun _ => Ok 0%Z)
    unknown_fatalities = Ok 0%Z
  /\ exists t,
       total_air_fatalities object_reduce_raises (fun _ => Ok 0%Z)
         incidents = Ok t
       /\ inject_Z t == Qsum (pd.dropna [Some 20; Some 50; Some 0]).
Proof.
  split.
  - apply (proj1 (overview_totals object_reduce_raises (fun _ => Ok 0%Z)
                    unknown_fatalities "Ground")).
    vm_compute. intuition discriminate.
  - apply (proj2 (overview_totals object_reduce_raises (fun _ => Ok 0%Z)
                    incidents "Fatalities (Air)")
                 [Some 20; Some 50; Some 0] eq_refl).
    split.
    + constructor; [now exists 20%Z|].
      constructor; [now exists 50%Z|].
      constructor; [now exists 0%Z | constructor].
    + vm_compute. discriminate.
Defined.

Example overview_total_air :
  total_air_fatalities object_reduce_raises (fun _ => Ok 0%Z) incidents
  = Ok 70%Z.
Proof. reflexivity. Qed.
